(** * Shallow embedding of the build scripts of Modular_Macropad_Firmware

    [scripts/build_sveltekit.py] (the frontend packager) and
    [scripts/version.py] (the version stamper) are embedded as state-passing
    programs over an explicit model of the filesystem, the process working
    directory, standard output and the external commands they start. *)

From stdpp Require Import base strings list gmap pretty.
From Stdlib Require Import Strings.Ascii Strings.Byte.

Local Open Scope string_scope.
Local Open Scope list_scope.

(** ** Python-level results: return values and exceptions *)

(** The exception classes the two scripts can meet.  [CalledProcessError] is
    the one that [subprocess.run(..., check=True)] raises on a nonzero exit
    status.  All of them derive from Python's [Exception] but the last:
    [KeyboardInterrupt] derives from [BaseException] only, so that an
    [except Exception] clause lets it through. *)
Inductive exn :=
| CalledProcessError (cmd : list string) (returncode : Z)
| OSError (msg : string)
| ShutilError (msg : string)
| JSONDecodeError
| AttributeError
| TypeError
| KeyboardInterrupt.

(** [isinstance(e, Exception)]. *)
Definition is_Exception (e : exn) : bool :=
  match e with
  | KeyboardInterrupt => false
  | _ => true
  end.

Inductive outcome (A : Type) :=
| Ret (a : A)
| Raise (e : exn).
Arguments Ret {A} a.
Arguments Raise {A} e.

(** A Python statement sequence over a state [S]: it ends by returning a value
    or raising, and in both cases leaves a state behind. *)
Definition Py (S A : Type) : Type := S → outcome A * S.

Definition py_ret {S A} (a : A) : Py S A := λ s, (Ret a, s).
Definition py_bind {S A B} (m : Py S A) (k : A → Py S B) : Py S B :=
  λ s, match m s with
       | (Ret a, s') => k a s'
       | (Raise e, s') => (Raise e, s')
       end.
Definition py_raise {S A} (e : exn) : Py S A := λ s, (Raise e, s).
Definition py_get {S} : Py S S := λ s, (Ret s, s).

(** [try: body / except Exception as e: handler e]: what is not an
    [Exception] goes on past the handler. *)
Definition try_except {S A} (body : Py S A) (handler : exn → Py S A) : Py S A :=
  λ s, match body s with
       | (Ret a, s') => (Ret a, s')
       | (Raise e, s') =>
           if is_Exception e then handler e s' else (Raise e, s')
       end.

#[global] Instance Py_ret {S} : MRet (Py S) := λ A, py_ret.
#[global] Instance Py_bind {S} : MBind (Py S) := λ A B k m, py_bind m k.

(** [x = m; k], the statement [m] run before its result is named. *)
Notation "'let*' x := m 'in' k" := (py_bind m (λ x, k))
  (at level 10, x name, m at level 100, k at level 200,
   format "'[v' 'let*'  x  :=  m  'in'  '/' k ']'").

(** [for x in xs: acc = body acc x], stopping at the first exception. *)
Fixpoint py_for {S A X} (xs : list X) (body : A → X → Py S A) (acc : A) : Py S A :=
  match xs with
  | [] => py_ret acc
  | x :: xs' => let* acc' := body acc x in py_for xs' body acc'
  end.

(** ** Strings and paths *)

(** [s.endswith(sfx)]: some tail of [s] is [sfx]. *)
Fixpoint ends_with (sfx s : string) : bool :=
  bool_decide (s = sfx) ||
  match s with
  | EmptyString => false
  | String _ s' => ends_with sfx s'
  end.

(** A normalised absolute path is the list of its components. *)
Definition path := list string.

Definition path_str (p : path) : string := "/" +:+ String.concat "/" p.

(** [os.path.dirname], [os.path.basename] and [os.path.join] on components. *)
Definition dirname (p : path) : path := removelast p.
Definition basename (p : path) : string := List.last p EmptyString.
Definition join (p : path) (name : string) : path := p ++ [name].

(** [f"{file_path}{sfx}"]: the suffix lands on the last component. *)
Definition add_suffix (sfx : string) (p : path) : path :=
  join (dirname p) (basename p +:+ sfx).

(** [repr] of a list of strings, as [str(CalledProcessError)] shows the
    command; the text below is the one for a positive exit status. *)
Definition repr_list (l : list string) : string :=
  "[" +:+ String.concat ", " (map (λ s, "'" +:+ s +:+ "'") l) +:+ "]".

Definition str_exn (e : exn) : string :=
  match e with
  | CalledProcessError cmd rc =>
      "Command '" +:+ repr_list cmd +:+ "' returned non-zero exit status "
        +:+ pretty rc +:+ "."
  | OSError msg => msg
  | ShutilError msg => msg
  | JSONDecodeError => "Expecting value: line 1 column 1 (char 0)"
  | AttributeError => "object has no attribute 'get'"
  | TypeError => "unsupported operand type(s) for +"
  | KeyboardInterrupt => EmptyString
  end.

(** ** The filesystem: a tree of directories and regular files *)

#[local] Unset Elimination Schemes.
Inductive node :=
| File (data : list byte)
| Dir (entries : list (string * node)).
#[local] Set Elimination Schemes.

Abbreviation entries := (list (string * node)).

(** Directory entries are kept in listing order; the first entry of a name is
    the one the name resolves to. *)
Fixpoint assoc (n : string) (es : entries) : option node :=
  match es with
  | [] => None
  | (m, c) :: es' => if decide (n = m) then Some c else assoc n es'
  end.

(** Apply [f] to the entry called [n], if there is one. *)
Fixpoint map_entry (n : string) (f : node → node) (es : entries) : entries :=
  match es with
  | [] => []
  | (m, c) :: es' =>
      if decide (n = m) then (m, f c) :: es' else (m, c) :: map_entry n f es'
  end.

(** Bind [n] to [v]: in place when the name exists, as a new last entry
    otherwise. *)
Fixpoint set_entry (n : string) (v : node) (es : entries) : entries :=
  match es with
  | [] => [(n, v)]
  | (m, c) :: es' =>
      if decide (n = m) then (m, v) :: es' else (m, c) :: set_entry n v es'
  end.

(** Unlink the name [n]. *)
Fixpoint del_entry (n : string) (es : entries) : entries :=
  match es with
  | [] => []
  | (m, c) :: es' =>
      if decide (n = m) then del_entry n es' else (m, c) :: del_entry n es'
  end.

Definition is_dir_node (c : node) : bool :=
  match c with Dir _ => true | File _ => false end.

Definition dir_names (es : entries) : list string :=
  map fst (filter (λ e, is_dir_node e.2 = true) es).
Definition file_names (es : entries) : list string :=
  map fst (filter (λ e, is_dir_node e.2 = false) es).

(** Resolve a path from the root. *)
Fixpoint lookup_path (p : path) (t : node) : option node :=
  match p with
  | [] => Some t
  | n :: q =>
      match t with
      | Dir es => match assoc n es with
                  | Some c => lookup_path q c
                  | None => None
                  end
      | File _ => None
      end
  end.

(** Apply [f] to the node at [p]; nothing changes when [p] does not resolve. *)
Fixpoint update (p : path) (f : node → node) (t : node) : node :=
  match p with
  | [] => f t
  | n :: q =>
      match t with
      | Dir es => Dir (map_entry n (update q f) es)
      | File _ => t
      end
  end.

(** Edit the entry list of the directory at [p]. *)
Definition on_entries (g : entries → entries) (c : node) : node :=
  match c with
  | Dir es => Dir (g es)
  | File _ => c
  end.
Definition modify_dir (p : path) (g : entries → entries) (t : node) : node :=
  update p (on_entries g) t.

Definition exists_at (p : path) (t : node) : bool :=
  match lookup_path p t with Some _ => true | None => false end.
Definition isfile_at (p : path) (t : node) : bool :=
  match lookup_path p t with Some (File _) => true | _ => false end.
Definition isdir_at (p : path) (t : node) : bool :=
  match lookup_path p t with Some (Dir _) => true | _ => false end.

(** Every directory lists each name once. *)
Fixpoint wf_node (t : node) : bool :=
  match t with
  | File _ => true
  | Dir es =>
      bool_decide (NoDup (map fst es)) &&
      (fix all (l : entries) : bool :=
         match l with
         | [] => true
         | (_, c) :: l' => wf_node c && all l'
         end) es
  end.

(** Nesting depth, the bound on how far a walk can descend. *)
Fixpoint height (t : node) : nat :=
  match t with
  | File _ => 0
  | Dir es =>
      S ((fix mx (l : entries) : nat :=
            match l with
            | [] => 0
            | (_, c) :: l' => Nat.max (height c) (mx l')
            end) es)
  end.

(** [os.makedirs(p, exist_ok=True)] on the tree: missing components are
    created, and a regular file on the way is an error ([None]). *)
Fixpoint makedirs_node (p : path) (t : node) : option node :=
  match t with
  | File _ => None
  | Dir es =>
      match p with
      | [] => Some t
      | n :: q =>
          match makedirs_node q (default (Dir []) (assoc n es)) with
          | Some c => Some (Dir (set_entry n c es))
          | None => None
          end
      end
  end.

(** [shutil.copytree(src, dst, dirs_exist_ok=True)] once [dst] is a directory
    with entries [des]: every entry of the source directory [s] is copied in
    listing order, a directory by a recursive copy and a file by [copy2]
    (which, when the destination name is a directory, copies into it under the
    same name).  Errors are collected and the copy goes on; the flag tells
    whether any was recorded. *)
Fixpoint copytree_node (s : node) (des : entries) : entries * bool :=
  match s with
  | File _ => (des, false)
  | Dir ses =>
      (fix loop (l : entries) (des : entries) : entries * bool :=
         match l with
         | [] => (des, false)
         | (n, c) :: l' =>
             let '(des1, err1) :=
               match c with
               | File data =>
                   match assoc n des with
                   | Some (Dir sub) =>
                       match assoc n sub with
                       | Some (Dir _) => (des, true)
                       | _ => (set_entry n (Dir (set_entry n (File data) sub)) des, false)
                       end
                   | _ => (set_entry n (File data) des, false)
                   end
               | Dir _ =>
                   match assoc n des with
                   | Some (File _) => (des, true)
                   | Some (Dir des2) =>
                       let '(des2', e) := copytree_node c des2 in
                       (set_entry n (Dir des2') des, e)
                   | None =>
                       let '(des2', e) := copytree_node c [] in
                       (set_entry n (Dir des2') des, e)
                   end
               end in
             let '(des2, err2) := loop l' des1 in
             (des2, err1 || err2)
         end) ses des
  end.

(** ** What the scripts take from outside *)

(** How an external command ends: it ran to an exit status, leaving the
    filesystem in some state; or it could not be started at all; or the wait
    for it was interrupted from the keyboard, the command being killed with
    the filesystem in the state it had reached. *)
Inductive proc_result :=
| Exited (returncode : Z) (fs' : node)
| NotStarted (msg : string)
| Interrupted (fs' : node).

(** An I/O error met while one file is being compressed, beyond those the
    tree itself determines (a missing file, a directory in the way). *)
Inductive io_fault :=
| NoFault
| FailOpen
| FailCreate
| FailWrite (partial : list byte)
| FailRemove.

Record environment := Environment {
  (** [env.get("PROJECT_DIR")], or the directory above the script *)
  project_dir : path;
  (** the effect of running a command in a working directory *)
  run_proc : list string → path → node → proc_result;
  (** the I/O error, if any, that compressing the file at a path meets *)
  fault_at : path → io_fault;
  (** the clock reading gzip stamps into the header of the file at a path *)
  time_at : path → Z;
  (** [gzip] at [compresslevel=9]: modification time, stored name, data *)
  gzip_compress : Z → string → list byte → list byte
}.

(** ** scripts/build_sveltekit.py *)

Module BuildSveltekit.

(** The state the packager acts on: the filesystem, the working directory of
    the process, what was printed, the commands handed to [subprocess.run],
    and the directories [os.chdir] has switched to, both in call order. *)
Record world := World {
  fs : node;
  cwd : path;
  stdout : list string;
  spawned : list (list string);
  chdirs : list path
}.

Definition set_fs (t : node) (w : world) : world :=
  World t (cwd w) (stdout w) (spawned w) (chdirs w).
Definition set_cwd (d : path) (w : world) : world :=
  World (fs w) d (stdout w) (spawned w) (chdirs w ++ [d]).
Definition set_stdout (out : list string) (w : world) : world :=
  World (fs w) (cwd w) out (spawned w) (chdirs w).
Definition add_stdout (line : string) (w : world) : world :=
  set_stdout (stdout w ++ [line]) w.
Definition add_spawned (cmd : list string) (w : world) : world :=
  World (fs w) (cwd w) (stdout w) (spawned w ++ [cmd]) (chdirs w).

Definition print (line : string) : Py world unit :=
  λ w, (Ret (), add_stdout line w).

Definition os_path_exists (p : path) : Py world bool :=
  λ w, (Ret (exists_at p (fs w)), w).
Definition os_path_isfile (p : path) : Py world bool :=
  λ w, (Ret (isfile_at p (fs w)), w).
Definition os_path_isdir (p : path) : Py world bool :=
  λ w, (Ret (isdir_at p (fs w)), w).

Definition os_getcwd : Py world path := λ w, (Ret (cwd w), w).

Definition os_chdir (d : path) : Py world unit :=
  λ w, if isdir_at d (fs w) then (Ret (), set_cwd d w)
       else (Raise (OSError ("[Errno 2] No such file or directory: '"
                               +:+ path_str d +:+ "'")), w).

Definition os_listdir (d : path) : Py world (list string) :=
  λ w, match lookup_path d (fs w) with
       | Some (Dir es) => (Ret (map fst es), w)
       | _ => (Raise (OSError ("[Errno 20] Not a directory: '"
                                +:+ path_str d +:+ "'")), w)
       end.

Definition os_makedirs (d : path) : Py world unit :=
  λ w, match makedirs_node d (fs w) with
       | Some t => (Ret (), set_fs t w)
       | None => (Raise (OSError ("[Errno 17] File exists: '"
                                   +:+ path_str d +:+ "'")), w)
       end.

Definition os_remove (p : path) : Py world unit :=
  λ w, if isfile_at p (fs w)
       then (Ret (), set_fs (modify_dir (dirname p) (del_entry (basename p)) (fs w)) w)
       else (Raise (OSError ("[Errno 2] No such file or directory: '"
                               +:+ path_str p +:+ "'")), w).

Definition shutil_rmtree (p : path) : Py world unit :=
  λ w, if isdir_at p (fs w)
       then (Ret (), set_fs (modify_dir (dirname p) (del_entry (basename p)) (fs w)) w)
       else (Raise (OSError ("[Errno 20] Not a directory: '"
                               +:+ path_str p +:+ "'")), w).

(** [open(p, 'rb')] followed by reading the whole file. *)
Definition open_rb (p : path) : Py world (list byte) :=
  λ w, match lookup_path p (fs w) with
       | Some (File data) => (Ret data, w)
       | Some (Dir _) => (Raise (OSError ("[Errno 21] Is a directory: '"
                                            +:+ path_str p +:+ "'")), w)
       | None => (Raise (OSError ("[Errno 2] No such file or directory: '"
                                    +:+ path_str p +:+ "'")), w)
       end.

(** Writing [data] to the file at [p], created or truncated first: the parent
    must be a directory and [p] itself must not be one. *)
Definition write_wb (p : path) (data : list byte) : Py world unit :=
  λ w, if isdir_at (dirname p) (fs w) && negb (isdir_at p (fs w))
       then (Ret (), set_fs (modify_dir (dirname p)
                               (set_entry (basename p) (File data)) (fs w)) w)
       else (Raise (OSError ("[Errno 21] Is a directory: '"
                               +:+ path_str p +:+ "'")), w).

(** [shutil.copytree(src, dst, dirs_exist_ok=True)]: the source is listed
    first, then the destination directory is made, then the entries are
    copied; [shutil.Error] is raised at the end when a copy failed. *)
Definition shutil_copytree (src dst : path) : Py world unit :=
  λ w, match lookup_path src (fs w) with
       | Some (Dir ses) =>
           match os_makedirs dst w with
           | (Raise e, w1) => (Raise e, w1)
           | (Ret _, w1) =>
               match lookup_path dst (fs w1) with
               | Some (Dir des) =>
                   let '(des', err) := copytree_node (Dir ses) des in
                   let w2 := set_fs (update dst (λ _, Dir des') (fs w1)) w1 in
                   if err then (Raise (ShutilError "copytree errors"), w2)
                   else (Ret (), w2)
               | _ => (Raise (OSError ("[Errno 20] Not a directory: '"
                                        +:+ path_str dst +:+ "'")), w1)
               end
           end
       | _ => (Raise (OSError ("[Errno 20] Not a directory: '"
                                +:+ path_str src +:+ "'")), w)
       end.

(** [for root, dirs, files in os.walk(top): acc = body acc root dirs files],
    top-down: a directory is listed when the walk reaches it, its own triple
    is handed to the body, and only then are its sub-directories entered, in
    listing order.  A [top] that is not a directory yields nothing.  [fuel]
    bounds the depth of the descent. *)
Fixpoint os_walk_for {A} (fuel : nat) (top : path)
    (body : A → path → list string → list string → Py world A) (acc : A)
    : Py world A :=
  match fuel with
  | O => py_ret acc
  | S k =>
      let* w := py_get in
      match lookup_path top (fs w) with
      | Some (Dir es) =>
          let* acc1 := body acc top (dir_names es) (file_names es) in
          py_for (dir_names es) (λ a d, os_walk_for k (join top d) body a) acc1
      | _ => py_ret acc
      end
  end.

(** The walk proper: no descent is deeper than the tree is high. *)
Definition os_walk {A} (top : path)
    (body : A → path → list string → list string → Py world A) (acc : A)
    : Py world A :=
  let* w := py_get in
  os_walk_for (S (height (fs w))) top body acc.

Section Packager.
Variable E : environment.

(** [subprocess.run(cmd, check=True)].  An interrupt that arrives while it
    waits for the command is raised again once the command is killed. *)
Definition subprocess_run (cmd : list string) : Py world unit :=
  λ w, let w1 := add_spawned cmd w in
       match run_proc E cmd (cwd w) (fs w) with
       | Exited rc t =>
           if decide (rc = 0%Z) then (Ret (), set_fs t w1)
           else (Raise (CalledProcessError cmd rc), set_fs t w1)
       | NotStarted msg => (Raise (OSError msg), w1)
       | Interrupted t => (Raise KeyboardInterrupt, set_fs t w1)
       end.

Definition FRONTEND_DIR : path :=
  join (dirname (project_dir E)) "Modular_Macropad_Front_End_v2".
Definition OUTPUT_DIR : path := join (join (project_dir E) "data") "web".
Definition BUILD_DIR : path := join FRONTEND_DIR "build".

Definition get_package_manager : Py world (option string) :=
  let* a := os_path_exists (join FRONTEND_DIR "pnpm-lock.yaml") in
  if a then py_ret (Some "pnpm") else
  let* b := os_path_exists (join FRONTEND_DIR "yarn.lock") in
  if b then py_ret (Some "yarn") else
  let* c := os_path_exists (join FRONTEND_DIR "package-lock.json") in
  let* d := (if c then py_ret true else os_path_exists (join FRONTEND_DIR "package.json")) in
  if d then py_ret (Some "npm") else
  py_ret None.

Definition build_frontend : Py world bool :=
  print "Building SvelteKit frontend...";;
  let* ex := os_path_exists FRONTEND_DIR in
  if negb ex then
    print ("ERROR: Frontend directory not found at " +:+ path_str FRONTEND_DIR);;
    print "Please make sure your SvelteKit project is in the correct location";;
    py_ret false
  else
  let* pm := get_package_manager in
  match pm with
  | None =>
      print "No package manager detected. Please install dependencies in the frontend directory.";;
      py_ret false
  | Some package_manager =>
      print ("Detected package manager: " +:+ package_manager);;
      let* original_dir := os_getcwd in
      os_chdir FRONTEND_DIR;;
      try_except
        (let* nm := os_path_exists (join FRONTEND_DIR "node_modules") in
         (if negb nm then
            print "Installing dependencies...";;
            subprocess_run [package_manager; "install"]
          else py_ret ());;
         print "Building frontend...";;
         subprocess_run [package_manager; "run"; "build"];;
         let* built := os_path_exists BUILD_DIR in
         if negb built then
           print ("ERROR: Build directory " +:+ path_str BUILD_DIR
                    +:+ " not found after build");;
           os_chdir original_dir;;
           py_ret false
         else
           os_chdir original_dir;;
           py_ret true)
        (λ e,
           match e with
           | CalledProcessError _ _ =>
               print ("Error during build process: " +:+ str_exn e);;
               os_chdir original_dir;;
               py_ret false
           | _ =>
               print ("Unexpected error during build: " +:+ str_exn e);;
               os_chdir original_dir;;
               py_ret false
           end)
  end.

Definition io_check (fails : bool) (msg : string) : Py world unit :=
  if fails then py_raise (OSError msg) else py_ret ().

Definition compress_file (file_path : path) : Py world bool :=
  let fault := fault_at E file_path in
  let gz_path := add_suffix ".gz" file_path in
  try_except
    (io_check (match fault with FailOpen => true | _ => false end) "[Errno 13] Permission denied";;
     let* data := open_rb file_path in
     io_check (match fault with FailCreate => true | _ => false end) "[Errno 13] Permission denied";;
     write_wb gz_path [];;
     match fault with
     | FailWrite partial =>
         write_wb gz_path partial;;
         py_raise (OSError "[Errno 28] No space left on device")
     | _ =>
         write_wb gz_path
           (gzip_compress E (time_at E file_path) (basename file_path) data)
     end;;
     io_check (match fault with FailRemove => true | _ => false end) "[Errno 13] Permission denied";;
     os_remove file_path;;
     py_ret true)
    (λ e,
       print ("Error compressing file " +:+ path_str file_path +:+ ": "
                +:+ str_exn e);;
       py_ret false).

(** The body of the loop over [os.walk(OUTPUT_DIR)]; the two counters are the
    accumulator. *)
Definition compress_files_in (counts : nat * nat) (root : path)
    (dirs files : list string) : Py world (nat * nat) :=
  py_for files
    (λ (acc : nat * nat) file,
       let '(compressed_count, error_count) := acc in
       let file_path := join root file in
       if negb (ends_with ".gz" file) then
         let* ok := compress_file file_path in
         if ok then py_ret (compressed_count + 1, error_count)
         else py_ret (compressed_count, error_count + 1)
       else py_ret (compressed_count, error_count))
    counts.

Definition process_frontend_files : Py world bool :=
  print ("Processing frontend files from " +:+ path_str BUILD_DIR);;
  let* ex := os_path_exists BUILD_DIR in
  if negb ex then
    print ("ERROR: Build directory " +:+ path_str BUILD_DIR +:+ " not found");;
    py_ret false
  else
  try_except
    (os_makedirs OUTPUT_DIR;;
     let* items := os_listdir OUTPUT_DIR in
     py_for items
       (λ _ item,
          let item_path := join OUTPUT_DIR item in
          let* isf := os_path_isfile item_path in
          if isf then os_remove item_path else
          let* isd := os_path_isdir item_path in
          if isd then shutil_rmtree item_path else py_ret ())
       ();;
     let data_dir := dirname OUTPUT_DIR in
     os_makedirs data_dir;;
     print ("Copying files from " +:+ path_str BUILD_DIR +:+ " to "
              +:+ path_str OUTPUT_DIR);;
     shutil_copytree BUILD_DIR OUTPUT_DIR;;
     print "Compressing files...";;
     let* counts := os_walk OUTPUT_DIR compress_files_in (0, 0) in
     let '(compressed_count, error_count) := counts : nat * nat in
     print ("Frontend files processed. Compressed " +:+ pretty compressed_count
              +:+ " files with " +:+ pretty error_count +:+ " errors.");;
     py_ret (bool_decide (error_count = 0)))
    (λ e,
       print ("Error processing frontend files: " +:+ str_exn e);;
       py_ret false).

Definition main : Py world unit :=
  print "Starting SvelteKit build process...";;
  let* ex := os_path_exists FRONTEND_DIR in
  if negb ex then
    print ("Warning: Frontend directory " +:+ path_str FRONTEND_DIR +:+ " not found!");;
    print "SvelteKit build process will be skipped.";;
    py_ret ()
  else
  let* built := build_frontend in
  if built then
    let* processed := process_frontend_files in
    if processed then print "SvelteKit build completed and prepared for LittleFS"
    else print "Failed to process SvelteKit build files"
  else print "Failed to build SvelteKit frontend".

End Packager.
End BuildSveltekit.

(** ** Regular expressions, as far as [re.search] is used *)

(** The fragment of Python's [re] syntax the version pattern is written in:
    literal characters, greedy [*] and [+] over a character class,
    concatenation and one capture group.  Text is a string of characters in
    the range 0..255. *)
Inductive regex :=
| Lit (c : ascii)
| Star (cls : ascii → bool)
| Plus (cls : ascii → bool)
| Seq (r1 r2 : regex)
| Group (r : regex).

(** As many characters of the class as possible first, then one fewer, and so
    on down to [least]: the order in which a backtracking matcher tries a
    greedy repetition.  [k] receives the text taken and the rest. *)
Fixpoint greedy {R} (cls : ascii → bool) (s : string)
    (k : string → string → option R) (least : bool) : option R :=
  match s with
  | String c s' =>
      if cls c then
        match greedy cls s' (λ m rest, k (String c m) rest) true with
        | Some r => Some r
        | None => if least then k EmptyString s else None
        end
      else if least then k EmptyString s else None
  | EmptyString => if least then k EmptyString s else None
  end.

(** Match [r] at the start of [s]; the continuation receives the text
    matched, the capture so far and the rest of the subject. *)
Fixpoint rmatch {R} (r : regex) (s : string) (cap : option string)
    (k : string → option string → string → option R) : option R :=
  match r with
  | Lit c =>
      match s with
      | String c' s' => if decide (c = c') then k (String c EmptyString) cap s' else None
      | EmptyString => None
      end
  | Star cls => greedy cls s (λ m rest, k m cap rest) true
  | Plus cls =>
      match s with
      | String c s' =>
          if cls c then greedy cls s' (λ m rest, k (String c m) cap rest) true
          else None
      | EmptyString => None
      end
  | Seq r1 r2 =>
      rmatch r1 s cap (λ m1 cap1 s1,
        rmatch r2 s1 cap1 (λ m2 cap2 s2, k (m1 +:+ m2) cap2 s2))
  | Group r1 => rmatch r1 s cap (λ m _ rest, k m (Some m) rest)
  end.

(** [re.search(r, s)]: the match at the leftmost position that has one;
    the result is [group(1)] of that match. *)
Fixpoint re_search (r : regex) (s : string) : option (option string) :=
  match rmatch r s None (λ _ cap _, Some cap) with
  | Some cap => Some cap
  | None =>
      match s with
      | String _ s' => re_search r s'
      | EmptyString => None
      end
  end.

Fixpoint lit (s : string) : regex :=
  match s with
  | String c EmptyString => Lit c
  | String c s' => Seq (Lit c) (lit s')
  | EmptyString => Star (λ _, false)
  end.

(** [\s] on characters 0..255: tab to carriage return, the four separators
    0x1c..0x1f, space, next line and no-break space. *)
Definition is_space (c : ascii) : bool :=
  let n := nat_of_ascii c in
  (Nat.leb 9 n && Nat.leb n 13) || (Nat.leb 28 n && Nat.leb n 32)
  || Nat.eqb n 133 || Nat.eqb n 160.

Definition dquote : ascii := ascii_of_nat 34.
Definition dq : string := String dquote EmptyString.
Definition not_dquote (c : ascii) : bool := negb (bool_decide (c = dquote)).
Definition nl : string := String (ascii_of_nat 10) EmptyString.

(** ** scripts/version.py *)

Module Version.

(** A JSON document as [json.load] returns it (numbers are the integers). *)
#[local] Unset Elimination Schemes.
Inductive json :=
| JNull
| JBool (b : bool)
| JInt (z : Z)
| JStr (s : string)
| JArr (items : list json)
| JObj (members : list (string * json)).
#[local] Set Elimination Schemes.

(** [dict.get(key, default)]. *)
Fixpoint dict_get (key : string) (members : list (string * json)) (default : json) : json :=
  match members with
  | [] => default
  | (k, v) :: rest => if decide (key = k) then v else dict_get key rest default
  end.

Record datetime := Datetime {
  year : nat; month : nat; day : nat;
  hour : nat; minute : nat; second : nat; microsecond : nat
}.

(** [%0wd]. *)
Definition zpad (width n : nat) : string :=
  let s := pretty n in
  String.concat EmptyString (replicate (width - String.length s) "0") +:+ s.

Definition isoformat (t : datetime) : string :=
  zpad 4 (year t) +:+ "-" +:+ zpad 2 (month t) +:+ "-" +:+ zpad 2 (day t)
    +:+ "T" +:+ zpad 2 (hour t) +:+ ":" +:+ zpad 2 (minute t) +:+ ":"
    +:+ zpad 2 (second t)
    +:+ (if decide (microsecond t = 0) then EmptyString else "." +:+ zpad 6 (microsecond t)).

(** [strftime('%Y-%m-%d %H:%M:%S')]. *)
Definition strftime_ymd_hms (t : datetime) : string :=
  zpad 4 (year t) +:+ "-" +:+ zpad 2 (month t) +:+ "-" +:+ zpad 2 (day t)
    +:+ " " +:+ zpad 2 (hour t) +:+ ":" +:+ zpad 2 (minute t) +:+ ":"
    +:+ zpad 2 (second t).

(** The state the stamper acts on.  Its three files are named relative to the
    working directory: [platformio.ini] by its text, [.build_info.json] by the
    document it parses to ([Some None] when it is not JSON), and
    [src/version.h] by its text together with whether [src] exists at all.
    [ticks] counts the readings of the clock. *)
Record world := World {
  platformio_ini : option string;
  build_info : option (option json);
  src_dir : bool;
  version_h : option string;
  environ : gmap string string;
  stdout : list string;
  ticks : nat
}.

Definition print (line : string) : Py world unit :=
  λ w, (Ret (), World (platformio_ini w) (build_info w) (src_dir w) (version_h w)
                  (environ w) (stdout w ++ [line]) (ticks w)).

Definition environ_set (key value : string) : Py world unit :=
  λ w, (Ret (), World (platformio_ini w) (build_info w) (src_dir w) (version_h w)
                  (<[key := value]> (environ w)) (stdout w) (ticks w)).

(** The pattern [version\s*=\s*Q([^Q]+)Q] of [get_semantic_version], with
    the double quote character written Q here. *)
Definition version_re : regex :=
  Seq (lit "version")
   (Seq (Star is_space)
    (Seq (Lit "=")
     (Seq (Star is_space)
      (Seq (Lit dquote)
       (Seq (Group (Plus not_dquote))
            (Lit dquote)))))).

(** [current_build + 1] on what [dict.get] returned. *)
Definition py_add (v : json) (n : Z) : Py world Z :=
  match v with
  | JInt z => py_ret (z + n)%Z
  | JBool b => py_ret (Z.b2z b + n)%Z
  | _ => py_raise TypeError
  end.

Section Stamper.
(** The successive readings of the clock. *)
Variable clock : nat → datetime.

Definition datetime_now : Py world datetime :=
  λ w, (Ret (clock (ticks w)),
        World (platformio_ini w) (build_info w) (src_dir w) (version_h w)
          (environ w) (stdout w) (S (ticks w))).

Definition get_semantic_version : Py world string :=
  λ w, match platformio_ini w with
       | Some content =>
           match re_search version_re content with
           | Some (Some group1) => (Ret group1, w)
           | _ => (Ret "1.0.0", w)
           end
       | None => (Raise (OSError "[Errno 2] No such file or directory: 'platformio.ini'"), w)
       end.

Definition get_current_build_number : Py world json :=
  λ w, match build_info w with
       | Some (Some (JObj data)) => (Ret (dict_get "build_number" data (JInt 1)), w)
       | Some (Some _) => (Raise AttributeError, w)
       | Some None => (Raise JSONDecodeError, w)
       | None => (Ret (JInt 1), w)
       end.

Definition save_build_info (semantic_version : string) (build_number : Z)
    : Py world unit :=
  let* t := datetime_now in
  let data := JObj [("semantic_version", JStr semantic_version);
                    ("build_number", JInt build_number);
                    ("last_build", JStr (isoformat t))] in
  λ w, (Ret (), World (platformio_ini w) (Some (Some data)) (src_dir w)
                  (version_h w) (environ w) (stdout w) (ticks w)).

Definition version_content (semantic_version : string) (build_number : Z)
    (t : datetime) : string :=
  "#ifndef VERSION_H" +:+ nl +:+
  "#define VERSION_H" +:+ nl +:+
  nl +:+
  "#define FIRMWARE_VERSION " +:+ dq +:+ semantic_version +:+ dq +:+ nl +:+
  "#define FIRMWARE_BUILD_NUMBER " +:+ pretty build_number +:+ nl +:+
  "#define FIRMWARE_BUILD_DATE " +:+ dq +:+ strftime_ymd_hms t +:+ dq +:+ nl +:+
  nl +:+
  "#endif // VERSION_H" +:+ nl.

Definition update_version_header (semantic_version : string) (build_number : Z)
    : Py world unit :=
  let* t := datetime_now in
  λ w, if src_dir w
       then (Ret (), World (platformio_ini w) (build_info w) (src_dir w)
               (Some (version_content semantic_version build_number t))
               (environ w) (stdout w) (ticks w))
       else (Raise (OSError "[Errno 2] No such file or directory: 'src/version.h'"), w).

Definition main : Py world unit :=
  let* semantic_version := get_semantic_version in
  let* current_build := get_current_build_number in
  let* new_build := py_add current_build 1 in
  save_build_info semantic_version new_build;;
  update_version_header semantic_version new_build;;
  environ_set "BUILD_NUMBER" (pretty new_build);;
  environ_set "SEMANTIC_VERSION" semantic_version;;
  print ("Version: " +:+ semantic_version);;
  print ("Build number: " +:+ pretty new_build).

End Stamper.
End Version.


(** ** Observations on the stamper *)

(** The build number the build-info file holds, taken as 1 when the file or
    the field is absent; [None] when the file holds anything else. *)
Definition persisted_build_number (w : Version.world) : option Z :=
  match Version.build_info w with
  | None => Some 1%Z
  | Some (Some (Version.JObj data)) =>
      match Version.dict_get "build_number" data (Version.JInt 1) with
      | Version.JInt z => Some z
      | _ => None
      end
  | _ => None
  end.

Fixpoint all_of (cls : ascii → bool) (s : string) : bool :=
  match s with
  | EmptyString => true
  | String c s' => cls c && all_of cls s'
  end.

(** The text [s] starts with an assignment of [v]: the word [version],
    white space, an equals sign, white space, and [v] between double quotes,
    where [v] is not empty and has no double quote in it. *)
Definition assignment_here (s v : string) : Prop :=
  ∃ ws1 ws2 post,
    s = "version" +:+ ws1 +:+ "=" +:+ ws2 +:+ dq +:+ v +:+ dq +:+ post ∧
    all_of is_space ws1 = true ∧ all_of is_space ws2 = true ∧
    v ≠ EmptyString ∧ all_of not_dquote v = true.

(** [v] is the value of the first such assignment in [content]. *)
Definition first_assignment (content v : string) : Prop :=
  ∃ pre rest,
    content = pre +:+ rest ∧ assignment_here rest v ∧
    ∀ pre' rest' v',
      content = pre' +:+ rest' → assignment_here rest' v' →
      (String.length pre ≤ String.length pre')%nat.

Definition no_assignment (content : string) : Prop :=
  ∀ pre rest v, content = pre +:+ rest → ¬ assignment_here rest v.

(** The lines of a text: what lies between its line breaks. *)
Fixpoint lines_from (cur : string) (s : string) : list string :=
  match s with
  | EmptyString => [cur]
  | String c s' =>
      if decide (c = ascii_of_nat 10) then cur :: lines_from EmptyString s'
      else lines_from (cur +:+ String c EmptyString) s'
  end.
Definition lines (s : string) : list string := lines_from EmptyString s.

(** A line-oriented reading of the configuration: the value of the first
    line that holds an assignment of the version, when a line does. *)
Definition line_assignment (content v : string) : Prop :=
  ∃ line, line ∈ lines content ∧ ∃ pre rest, line = pre +:+ rest ∧ assignment_here rest v.

(** A string starts outside the class, or is empty. *)
Definition stops (cls : ascii → bool) (s : string) : Prop :=
  match s with
  | String c _ => cls c = false
  | EmptyString => True
  end.

(** The longest prefix of characters of a class, and what follows it. *)
Fixpoint take_while (cls : ascii → bool) (s : string) : string :=
  match s with
  | String c s' => if cls c then String c (take_while cls s') else EmptyString
  | EmptyString => EmptyString
  end.

Fixpoint drop_while (cls : ascii → bool) (s : string) : string :=
  match s with
  | String c s' => if cls c then drop_while cls s' else s
  | EmptyString => EmptyString
  end.

(** [s] without the prefix [pre], when it starts with it. *)
Fixpoint strip_prefix (pre s : string) : option string :=
  match pre with
  | EmptyString => Some s
  | String c pre' =>
      match s with
      | String c' s' => if decide (c = c') then strip_prefix pre' s' else None
      | EmptyString => None
      end
  end.

(** The version pattern matched at the start of [s], step by step. *)
Definition match_here (s : string) : option string :=
  match strip_prefix "version" s with
  | Some s1 =>
      match strip_prefix "=" (drop_while is_space s1) with
      | Some s2 =>
          match strip_prefix dq (drop_while is_space s2) with
          | Some s3 =>
              let v := take_while not_dquote s3 in
              match v, strip_prefix dq (drop_while not_dquote s3) with
              | String _ _, Some _ => Some v
              | _, _ => None
              end
          | None => None
          end
      | None => None
      end
  | None => None
  end.

(** ** The packager's walk, directory by directory *)

Definition is_dir_entry (o : option node) : bool :=
  match o with Some (Dir _) => true | _ => false end.

(** What [compress_file] does to the entries [es] of the directory [root]
    when asked to compress its file [file], and whether it succeeds. *)
Definition compress_entry (E : environment) (root : path) (file : string)
    (es : entries) : entries * bool :=
  let gz := file +:+ ".gz" in
  match assoc file es with
  | Some (File data) =>
      let z := gzip_compress E (time_at E (join root file)) file data in
      match fault_at E (join root file) with
      | FailOpen | FailCreate => (es, false)
      | FailWrite partial =>
          if is_dir_entry (assoc gz es) then (es, false)
          else (set_entry gz (File partial) es, false)
      | FailRemove =>
          if is_dir_entry (assoc gz es) then (es, false)
          else (set_entry gz (File z) es, false)
      | NoFault =>
          if is_dir_entry (assoc gz es) then (es, false)
          else (del_entry file (set_entry gz (File z) es), true)
      end
  | _ => (es, false)
  end.

(** The entries of [root] and the two counters once the loop body has gone
    through the file names [files]. *)
Fixpoint compress_entries (E : environment) (root : path) (files : list string)
    (es : entries) (counts : nat * nat) : entries * (nat * nat) :=
  match files with
  | [] => (es, counts)
  | file :: rest =>
      if ends_with ".gz" file then compress_entries E root rest es counts
      else
        let r := compress_entry E root file es in
        compress_entries E root rest r.1
          (if r.2 then (counts.1 + 1, counts.2) else (counts.1, counts.2 + 1))
  end.

(** The tree found at [root] and the counters once the walk has been through
    it: the files of the directory first, then each sub-directory in turn. *)
Fixpoint walk_tree (E : environment) (root : path) (t : node)
    (counts : nat * nat) : node * (nat * nat) :=
  match t with
  | File _ => (t, counts)
  | Dir es =>
      let r :=
        (fix subdirs (l : entries) (acc : entries * (nat * nat)) :=
           match l with
           | [] => acc
           | (n, c) :: l' =>
               match c with
               | Dir _ =>
                   let r := walk_tree E (join root n) c acc.2 in
                   subdirs l' (map_entry n (λ _, r.1) acc.1, r.2)
               | File _ => subdirs l' acc
               end
           end) es (compress_entries E root (file_names es) es counts) in
      (Dir r.1, r.2)
  end.

(** What the walk with fuel [k] is shown to do, for every tree of height at
    most [k]: it returns the counters of [walk_tree] and leaves the tree of
    [walk_tree] in place, changing nothing else but the output. *)
Definition walk_ok (E : environment) (k : nat) : Prop :=
  ∀ root (w : BuildSveltekit.world) t counts,
    lookup_path root (BuildSveltekit.fs w) = Some t →
    wf_node t = true → (height t ≤ k)%nat →
    ∃ out,
      BuildSveltekit.os_walk_for k root (BuildSveltekit.compress_files_in E)
        counts w =
      (Ret (walk_tree E root t counts).2,
       BuildSveltekit.World
         (update root (λ _, (walk_tree E root t counts).1) (BuildSveltekit.fs w))
         (BuildSveltekit.cwd w) out (BuildSveltekit.spawned w)
         (BuildSveltekit.chdirs w)).

(** An external command leaves the directory [d] in place. *)
Definition keeps_dir (E : environment) (d : path) : Prop :=
  ∀ cmd wd t rc t',
    isdir_at d t = true → run_proc E cmd wd t = Exited rc t' →
    isdir_at d t' = true.

(** No wait for an external command is interrupted. *)
Definition uninterrupted (E : environment) : Prop :=
  ∀ cmd wd t t', run_proc E cmd wd t ≠ Interrupted t'.

(** ** Observations on trees *)

(** The regular files of a tree, as paths relative to it, in the order
    [os.walk] reports them: the files of a directory, then its
    sub-directories one after the other. *)
Fixpoint files_of (t : node) : list path :=
  match t with
  | File _ => [[]]
  | Dir es =>
      map (λ n, [n]) (file_names es) ++
      (fix subdirs (l : entries) : list path :=
         match l with
         | [] => []
         | (n, c) :: l' =>
             match c with
             | Dir _ => map (cons n) (files_of c) ++ subdirs l'
             | File _ => subdirs l'
             end
         end) es
  end.

(** The directories of a tree, itself included, in the same order. *)
Fixpoint dirs_of (t : node) : list path :=
  match t with
  | File _ => []
  | Dir es =>
      [] :: (fix subdirs (l : entries) : list path :=
               match l with
               | [] => []
               | (n, c) :: l' => map (cons n) (dirs_of c) ++ subdirs l'
               end) es
  end.

(** The files the packager has to compress: those not yet named [*.gz]. *)
Definition to_compress (t : node) : list path :=
  filter (λ p, ends_with ".gz" (basename p) = false) (files_of t).

(** Compressing the file at [p] of the tree [t], copied to [top], fails:
    an I/O fault is met, or the name with [.gz] appended is a directory. *)
Definition compress_fails (E : environment) (top : path) (t : node)
    (p : path) : bool :=
  match fault_at E (top ++ p) with
  | NoFault => isdir_at (add_suffix ".gz" p) t
  | _ => true
  end.

(** The tree with the contents of its files forgotten. *)
Fixpoint shape (t : node) : node :=
  match t with
  | File _ => File []
  | Dir es =>
      Dir ((fix each (l : entries) : entries :=
              match l with
              | [] => []
              | (n, c) :: l' => (n, shape c) :: each l'
              end) es)
  end.

(** The tree in which every file of [t], copied to [root], has given way to
    its compressed sibling: per directory, the sub-directories in their
    order, then the siblings in the order of the files. *)
Fixpoint gz_tree (E : environment) (root : path) (t : node) : node :=
  match t with
  | File _ => t
  | Dir es =>
      Dir ((fix subdirs (l : entries) : entries :=
              match l with
              | [] => []
              | (n, c) :: l' =>
                  match c with
                  | Dir _ => (n, gz_tree E (join root n) c) :: subdirs l'
                  | File _ => subdirs l'
                  end
              end) es ++
           (fix siblings (l : entries) : entries :=
              match l with
              | [] => []
              | (n, c) :: l' =>
                  match c with
                  | Dir _ => siblings l'
                  | File data =>
                      (n +:+ ".gz",
                       File (gzip_compress E (time_at E (join root n)) n data))
                        :: siblings l'
                  end
              end) es)
  end.

(** ** The loops over directory entries, by name

    The functions above go through the entries of a directory by a loop of
    their own; these are the same loops as functions in their own right. *)

Fixpoint all_wf (l : entries) : bool :=
  match l with
  | [] => true
  | (_, c) :: l' => wf_node c && all_wf l'
  end.

Fixpoint max_height (l : entries) : nat :=
  match l with
  | [] => 0
  | (_, c) :: l' => Nat.max (height c) (max_height l')
  end.

Fixpoint copytree_loop (l : entries) (des : entries) : entries * bool :=
  match l with
  | [] => (des, false)
  | (n, c) :: l' =>
      let '(des1, err1) :=
        match c with
        | File data =>
            match assoc n des with
            | Some (Dir sub) =>
                match assoc n sub with
                | Some (Dir _) => (des, true)
                | _ => (set_entry n (Dir (set_entry n (File data) sub)) des, false)
                end
            | _ => (set_entry n (File data) des, false)
            end
        | Dir _ =>
            match assoc n des with
            | Some (File _) => (des, true)
            | Some (Dir des2) =>
                let '(des2', e) := copytree_node c des2 in
                (set_entry n (Dir des2') des, e)
            | None =>
                let '(des2', e) := copytree_node c [] in
                (set_entry n (Dir des2') des, e)
            end
        end in
      let '(des2, err2) := copytree_loop l' des1 in
      (des2, err1 || err2)
  end.

Fixpoint files_subdirs (l : entries) : list path :=
  match l with
  | [] => []
  | (n, c) :: l' =>
      match c with
      | Dir _ => map (cons n) (files_of c) ++ files_subdirs l'
      | File _ => files_subdirs l'
      end
  end.

Fixpoint dirs_subdirs (l : entries) : list path :=
  match l with
  | [] => []
  | (n, c) :: l' => map (cons n) (dirs_of c) ++ dirs_subdirs l'
  end.

Fixpoint shape_entries (l : entries) : entries :=
  match l with
  | [] => []
  | (n, c) :: l' => (n, shape c) :: shape_entries l'
  end.

Section LoopsAt.
Variables (E : environment) (root : path).

Fixpoint walk_subdirs (l : entries)
    (acc : entries * (nat * nat)) : entries * (nat * nat) :=
  match l with
  | [] => acc
  | (n, c) :: l' =>
      match c with
      | Dir _ =>
          let r := walk_tree E (join root n) c acc.2 in
          walk_subdirs l' (map_entry n (λ _, r.1) acc.1, r.2)
      | File _ => walk_subdirs l' acc
      end
  end.

Fixpoint gz_subdirs (l : entries) : entries :=
  match l with
  | [] => []
  | (n, c) :: l' =>
      match c with
      | Dir _ => (n, gz_tree E (join root n) c) :: gz_subdirs l'
      | File _ => gz_subdirs l'
      end
  end.

Fixpoint gz_siblings (l : entries) : entries :=
  match l with
  | [] => []
  | (n, c) :: l' =>
      match c with
      | Dir _ => gz_siblings l'
      | File data =>
          (n +:+ ".gz", File (gzip_compress E (time_at E (join root n)) n data))
            :: gz_siblings l'
      end
  end.

End LoopsAt.

(** The sub-directories among the entries of a directory, and its files
    with their contents. *)
Definition dirs_only (es : entries) : entries :=
  filter (λ e, is_dir_node e.2 = true) es.

Fixpoint file_entries (es : entries) : list (string * list byte) :=
  match es with
  | [] => []
  | (n, File data) :: es' => (n, data) :: file_entries es'
  | (_, Dir _) :: es' => file_entries es'
  end.

(** The compressed sibling of a file of the directory [root]. *)
Definition gz_entry (E : environment) (root : path) (fe : string * list byte)
    : string * node :=
  (fe.1 +:+ ".gz",
   File (gzip_compress E (time_at E (join root fe.1)) fe.1 fe.2)).

(** Every file of the tree [t], copied to [root], is still to be compressed
    and can be. *)
Definition all_compressible (E : environment) (root : path) (t : node) : Prop :=
  ∀ p, p ∈ files_of t →
       ends_with ".gz" (basename p) = false ∧ compress_fails E root t p = false.

(** The line [process_frontend_files] prints once the walk is over. *)
Definition summary_line (counts : nat * nat) : string :=
  "Frontend files processed. Compressed " +:+ pretty counts.1
    +:+ " files with " +:+ pretty counts.2 +:+ " errors.".

(** A line of the output reports a file that could not be compressed. *)
Definition compress_error_line (line : string) : Prop :=
  ∃ rest, line = "Error compressing file " +:+ rest.

(** Counting the paths of [l] on which [fails] is false (first counter) and
    true (second counter). *)
Definition tally (fails : path → bool) (l : list path) (counts : nat * nat)
    : nat * nat :=
  (counts.1 + length (filter (λ p, fails p = false) l),
   counts.2 + length (filter (λ p, fails p = true) l)).

(** ** Observations on a run of the packager *)

(** The path [q] leaves the way to [top]: neither leads to the other. *)
Definition apart (top q : path) : Prop :=
  ¬ q `prefix_of` top ∧ ¬ top `prefix_of` q.

(** The state [w'] comes from [w] by changes on the way to [top] and below
    it, and by further output, only: the working directory, the commands
    started and the directory changes are the same, what was printed is still
    there, and every path that leaves the way to [top] resolves as before. *)
Definition confined_to (top : path) (w w' : BuildSveltekit.world) : Prop :=
  BuildSveltekit.cwd w' = BuildSveltekit.cwd w ∧
  BuildSveltekit.spawned w' = BuildSveltekit.spawned w ∧
  BuildSveltekit.chdirs w' = BuildSveltekit.chdirs w ∧
  BuildSveltekit.stdout w `prefix_of` BuildSveltekit.stdout w' ∧
  ∀ q, apart top q →
       lookup_path q (BuildSveltekit.fs w') = lookup_path q (BuildSveltekit.fs w).

(** A statement sequence that keeps every state within [confined_to]. *)
Definition confined {A} (top : path) (m : Py BuildSveltekit.world A) : Prop :=
  ∀ w, confined_to top w (m w).2.

(** A statement sequence that raises nothing but instances of [Exception]. *)
Definition raises_exceptions_only {S A} (m : Py S A) : Prop :=
  ∀ s e, (m s).1 = Raise e → is_Exception e = true.

(** Every file of the tree is named [*.gz] already. *)
Definition all_gz (t : node) : Prop :=
  ∀ p, p ∈ files_of t → ends_with ".gz" (basename p) = true.

(** ** Observations on repeated runs of the stamper *)


(** The state after [k] runs of [main] one after the other. *)
Fixpoint main_runs (clock : nat → Version.datetime) (k : nat)
    (w : Version.world) : Version.world :=
  match k with
  | O => w
  | S k' => main_runs clock k' (Version.main clock w).2
  end.

(** ** Sample inputs

    A small disk, environments and stamper states on which the properties
    below are instantiated. *)

Module Sample.

(** A stand-in for the compressor: the two magic bytes, then the data. *)
Definition gz (mtime : Z) (name : string) (data : list byte) : list byte :=
  x1f :: x8b :: data.

Definition site : node :=
  Dir [("index.html", File [x3c; x68; x3e]);
       ("_app", Dir [("app.js", File [x61; x3b]); ("app.css", File [x62])])].

Definition frontend : node :=
  Dir [("package.json", File [x7b; x7d]); ("node_modules", Dir []);
       ("build", site)].

Definition firmware : node :=
  Dir [("data", Dir [("web", Dir [("stale.txt", File [x6f])])])].

(** The disk with a built frontend next to the firmware project. *)
Definition disk : node :=
  Dir [("Modular_Macropad_Front_End_v2", frontend); ("fw", firmware)].

(** The same disk before any build: a frontend directory without markers. *)
Definition bare_disk : node :=
  Dir [("Modular_Macropad_Front_End_v2", Dir [("README.md", File [])]);
       ("fw", firmware)].

(** Commands succeed and change nothing; no I/O faults. *)
Definition E0 : environment :=
  Environment ["fw"] (λ _ _ t, Exited 0 t) (λ _, NoFault) (λ _, 0%Z) gz.

(** A later run of the same project: the clock has moved on. *)
Definition E1 : environment :=
  Environment ["fw"] (λ _ _ t, Exited 0 t) (λ _, NoFault) (λ _, 60%Z) gz.

(** Every command exits with status 1, leaving [disk] behind. *)
Definition E_fail : environment :=
  Environment ["fw"] (λ _ _ _, Exited 1 disk) (λ _, NoFault) (λ _, 0%Z) gz.

(** The page at the top of the copied site cannot be opened. *)
Definition E_fault : environment :=
  Environment ["fw"] (λ _ _ t, Exited 0 t)
    (λ p, if decide (p = ["fw"; "data"; "web"; "index.html"]) then FailOpen
          else NoFault)
    (λ _, 0%Z) gz.

Definition w0 : BuildSveltekit.world := BuildSveltekit.World disk ["fw"] [] [] [].
Definition w_bare : BuildSveltekit.world :=
  BuildSveltekit.World bare_disk ["fw"] [] [] [].

(** The stamper before its first run: a configuration, no build-info file. *)
Definition ini : string :=
  "[env:esp32]" +:+ nl +:+ "version = " +:+ dq +:+ "1.4.0" +:+ dq +:+ nl.

Definition clock (n : nat) : Version.datetime :=
  Version.Datetime 2025 3 14 9 (26 + n) 53 0.

Definition v0 : Version.world :=
  Version.World (Some ini) None true None ∅ [] 0.

(** A firmware project on its own: no frontend directory next to it. *)
Definition w_alone : BuildSveltekit.world :=
  BuildSveltekit.World (Dir [("fw", firmware)]) ["fw"] [] [] [].

(** A frontend checked out but never installed: a manifest, no
    [node_modules], no build. *)
Definition fresh_disk : node :=
  Dir [("Modular_Macropad_Front_End_v2", Dir [("package.json", File [x7b; x7d])]);
       ("fw", firmware)].
Definition w_fresh : BuildSveltekit.world :=
  BuildSveltekit.World fresh_disk ["fw"] [] [] [].

(** Every command exits with status 1 and changes nothing. *)
Definition E_exit1 : environment :=
  Environment ["fw"] (λ _ _ t, Exited 1 t) (λ _, NoFault) (λ _, 0%Z) gz.

(** The build command removes the firmware project it was started from. *)
Definition E_wipe : environment :=
  Environment ["fw"]
    (λ _ _ _, Exited 0 (Dir [("Modular_Macropad_Front_End_v2", frontend)]))
    (λ _, NoFault) (λ _, 0%Z) gz.

(** A build that was compressed before: every file is named [*.gz]. *)
Definition gz_site : node :=
  Dir [("index.html.gz", File [x1f; x8b; x3c]);
       ("_app", Dir [("app.js.gz", File [x1f; x8b; x61])])].
Definition w_gz : BuildSveltekit.world :=
  BuildSveltekit.World
    (Dir [("Modular_Macropad_Front_End_v2", Dir [("build", gz_site)]);
          ("fw", firmware)])
    ["fw"] [] [] [].

(** The build path is a regular file. *)
Definition w_build_file : BuildSveltekit.world :=
  BuildSveltekit.World
    (Dir [("Modular_Macropad_Front_End_v2", Dir [("build", File [x00])]);
          ("fw", firmware)])
    ["fw"] [] [] [].

(** The build command is interrupted from the keyboard. *)
Definition E_interrupt : environment :=
  Environment ["fw"] (λ _ _ t, Interrupted t) (λ _, NoFault) (λ _, 0%Z) gz.

(** A configuration whose version assignment is spread over three lines. *)
Definition ini_spread : string :=
  "version" +:+ nl +:+ "=" +:+ nl +:+ dq +:+ "2.3.4" +:+ dq +:+ nl.
Definition v_spread : Version.world :=
  Version.World (Some ini_spread) None true None ∅ [] 0.


End Sample.

(** * Facts about the filesystem model *)

Module FsFacts.
Local Open Scope nat_scope.


(** Induction over a tree, with the hypothesis for every entry of a
    directory. *)
Lemma node_ind' (P : node → Prop) :
  (∀ data, P (File data)) →
  (∀ es, Forall (λ e, P e.2) es → P (Dir es)) →
  ∀ t, P t.
Proof.
  intros Hf Hd.
  refine (fix F (t : node) : P t :=
            match t with
            | File data => Hf data
            | Dir es =>
                Hd es ((fix G (l : entries) : Forall (λ e, P e.2) l :=
                          match l with
                          | [] => @Stdlib.Lists.List.Forall_nil _ _
                          | (n, c) :: l' => @Stdlib.Lists.List.Forall_cons _ (λ e, P e.2) (n, c) l' (F c) (G l')
                          end) es)
            end).
Qed.

(** ** Directory entries *)

Ltac decide_all :=
  repeat (match goal with
          | |- context [decide ?P] => destruct (decide P)
          end; simplify_eq/=); try done.

Lemma assoc_map_entry (m n : string) (f : node → node) (es : entries) :
  assoc m (map_entry n f es) =
  if decide (m = n) then f <$> assoc n es else assoc m es.
Proof.
  induction es as [|[k c] es IH]; simpl; [decide_all|].
  destruct (decide (n = k)) as [->|Hnk]; simpl; rewrite ?IH; decide_all.
Qed.

Lemma assoc_set_entry (m n : string) (v : node) (es : entries) :
  assoc m (set_entry n v es) = if decide (m = n) then Some v else assoc m es.
Proof.
  induction es as [|[k c] es IH]; simpl; [decide_all|].
  destruct (decide (n = k)) as [->|Hnk]; simpl; rewrite ?IH; decide_all.
Qed.

Lemma assoc_del_entry (m n : string) (es : entries) :
  assoc m (del_entry n es) = if decide (m = n) then None else assoc m es.
Proof.
  induction es as [|[k c] es IH]; simpl; [decide_all|].
  destruct (decide (n = k)) as [->|Hnk]; simpl; rewrite ?IH; decide_all.
Qed.

Lemma map_entry_ext_at (n : string) (f g : node → node) (es : entries) :
  (∀ c, assoc n es = Some c → f c = g c) → map_entry n f es = map_entry n g es.
Proof.
  induction es as [|[k c] es IH]; simpl; [done|]. intros H.
  destruct (decide (n = k)) as [->|Hnk].
  - by rewrite H.
  - by rewrite IH.
Qed.

Lemma map_entry_id (n : string) (f : node → node) (es : entries) :
  (∀ c, assoc n es = Some c → f c = c) → map_entry n f es = es.
Proof.
  induction es as [|[k c] es IH]; simpl; [done|]. intros H.
  destruct (decide (n = k)) as [->|Hnk].
  - by rewrite H.
  - by rewrite IH.
Qed.

Lemma map_entry_map_entry (n : string) (f g : node → node) (es : entries) :
  map_entry n f (map_entry n g es) = map_entry n (λ c, f (g c)) es.
Proof.
  induction es as [|[k c] es IH]; simpl; [done|].
  destruct (decide (n = k)) as [->|Hnk]; simpl.
  - by rewrite decide_True.
  - by rewrite decide_False, IH.
Qed.

Lemma set_entry_present (n : string) (v c : node) (es : entries) :
  assoc n es = Some c → set_entry n v es = map_entry n (λ _, v) es.
Proof.
  induction es as [|[k c'] es IH]; simpl; [done|].
  destruct (decide (n = k)); [done|]. intros H. by rewrite IH.
Qed.

Lemma set_entry_absent (n : string) (v : node) (es : entries) :
  assoc n es = None → set_entry n v es = es ++ [(n, v)].
Proof.
  induction es as [|[k c'] es IH]; simpl; [done|].
  destruct (decide (n = k)); [done|]. intros H. by rewrite IH.
Qed.

Lemma set_entry_same (n : string) (c : node) (es : entries) :
  assoc n es = Some c → set_entry n c es = es.
Proof.
  induction es as [|[k c'] es IH]; simpl; [done|].
  destruct (decide (n = k)) as [->|]; [by intros [= ->]|].
  intros H. by rewrite IH.
Qed.

Lemma del_entry_absent (n : string) (es : entries) :
  assoc n es = None → del_entry n es = es.
Proof.
  induction es as [|[k c'] es IH]; simpl; [done|].
  destruct (decide (n = k)); [done|]. intros H. by rewrite IH.
Qed.

Lemma assoc_None (n : string) (es : entries) :
  assoc n es = None ↔ n ∉ map fst es.
Proof.
  induction es as [|[k c] es IH]; simpl.
  - split; [intros _; apply not_elem_of_nil|done].
  - rewrite not_elem_of_cons. destruct (decide (n = k)) as [->|Hnk].
    + split; [done|]. intros [? _]. done.
    + rewrite IH. tauto.
Qed.

Lemma assoc_Some_elem (n : string) (c : node) (es : entries) :
  assoc n es = Some c → (n, c) ∈ es.
Proof.
  induction es as [|[k c'] es IH]; simpl; [done|].
  destruct (decide (n = k)) as [->|Hnk].
  - intros [= ->]. apply list_elem_of_here.
  - intros H. apply list_elem_of_further. auto.
Qed.

Lemma assoc_NoDup (n : string) (c : node) (es : entries) :
  NoDup (map fst es) → (n, c) ∈ es → assoc n es = Some c.
Proof.
  induction es as [|[k c'] es IH]; simpl.
  - intros _ H. by apply elem_of_nil in H.
  - rewrite NoDup_cons. intros [Hk Hnd] [[= -> ->]|Hin]%elem_of_cons.
    + by rewrite decide_True.
    + destruct (decide (n = k)) as [->|Hnk]; [|auto].
      exfalso. apply Hk. apply list_elem_of_fmap. by exists (k, c).
Qed.

(** ** Paths *)

Lemma dirname_join (p : path) (n : string) : dirname (join p n) = p.
Proof. unfold dirname, join. apply removelast_last. Qed.

Lemma basename_join (p : path) (n : string) : basename (join p n) = n.
Proof. unfold basename, join. apply last_last. Qed.

Lemma add_suffix_join (sfx : string) (p : path) (n : string) :
  add_suffix sfx (join p n) = join p (n +:+ sfx).
Proof. unfold add_suffix. by rewrite dirname_join, basename_join. Qed.

Lemma lookup_path_cons (n : string) (q : path) (es : entries) :
  lookup_path (n :: q) (Dir es) =
  match assoc n es with
  | Some c => lookup_path q c
  | None => None
  end.
Proof. reflexivity. Qed.

Lemma lookup_path_nil (t : node) : lookup_path [] t = Some t.
Proof. reflexivity. Qed.

Lemma lookup_path_app (p q : path) (t : node) :
  lookup_path (p ++ q) t = lookup_path p t ≫= lookup_path q.
Proof.
  revert t. induction p as [|n p IH]; intros t; simpl; [done|].
  destruct t as [|es]; [done|]. destruct (assoc n es); [apply IH|done].
Qed.

Lemma lookup_path_join (p : path) (n : string) (t : node) :
  lookup_path (join p n) t =
  match lookup_path p t with
  | Some (Dir es) => assoc n es
  | _ => None
  end.
Proof.
  unfold join. rewrite lookup_path_app.
  destruct (lookup_path p t) as [[|es]|]; simpl; [done| |done].
  by destruct (assoc n es).
Qed.

Lemma isdir_at_Some (p : path) (t : node) :
  isdir_at p t = true ↔ ∃ es, lookup_path p t = Some (Dir es).
Proof.
  unfold isdir_at. destruct (lookup_path p t) as [[|es]|]; split;
    try done; try (intros [? ?]; done). eauto.
Qed.

Lemma exists_at_Some (p : path) (t : node) :
  exists_at p t = true ↔ ∃ c, lookup_path p t = Some c.
Proof.
  unfold exists_at. destruct (lookup_path p t); split; try done; eauto.
  intros [? ?]; done.
Qed.

(** ** Updating the node at a path *)

Lemma update_app (p q : path) (f : node → node) (t : node) :
  update (p ++ q) f t = update p (update q f) t.
Proof.
  revert t. induction p as [|n p IH]; intros t; simpl; [done|].
  destruct t as [|es]; [done|]. f_equal. apply map_entry_ext_at. auto.
Qed.

Lemma lookup_update (p : path) (f : node → node) (t s : node) :
  lookup_path p t = Some s → lookup_path p (update p f t) = Some (f s).
Proof.
  revert t. induction p as [|n p IH]; intros t; simpl.
  - by intros [= ->].
  - destruct t as [|es]; [done|]. simpl.
    rewrite assoc_map_entry, decide_True by done.
    destruct (assoc n es) as [c|]; [|done]. simpl. apply IH.
Qed.

Lemma update_at (p : path) (f g : node → node) (t s : node) :
  lookup_path p t = Some s → f s = g s → update p f t = update p g t.
Proof.
  revert t. induction p as [|n p IH]; intros t; simpl.
  - by intros [= ->].
  - destruct t as [|es]; [done|]. intros Hl Hfg. f_equal.
    apply map_entry_ext_at. intros c Hc. rewrite Hc in Hl. eauto.
Qed.

Lemma update_same (p : path) (f : node → node) (t s : node) :
  lookup_path p t = Some s → f s = s → update p f t = t.
Proof.
  revert t. induction p as [|n p IH]; intros t; simpl.
  - by intros [= ->].
  - destruct t as [|es]; [done|]. intros Hl Hfg. f_equal.
    apply map_entry_id. intros c Hc. rewrite Hc in Hl. eauto.
Qed.

Lemma update_update (p : path) (f g : node → node) (t : node) :
  update p f (update p g t) = update p (λ c, f (g c)) t.
Proof.
  revert t. induction p as [|n p IH]; intros t; simpl; [done|].
  destruct t as [|es]; [done|]. simpl. f_equal.
  rewrite map_entry_map_entry. apply map_entry_ext_at. auto.
Qed.

Lemma lookup_update_disjoint (p q : path) (f : node → node) (t : node) :
  ¬ p `prefix_of` q → ¬ q `prefix_of` p →
  lookup_path q (update p f t) = lookup_path q t.
Proof.
  revert q t. induction p as [|n p IH]; intros q t Hpq Hqp.
  - exfalso. apply Hpq. apply prefix_nil.
  - destruct q as [|m q]; [exfalso; apply Hqp, prefix_nil|].
    destruct t as [|es]; [done|]. simpl.
    rewrite assoc_map_entry.
    destruct (decide (m = n)) as [->|Hmn]; [|done].
    destruct (assoc n es) as [c|]; [|done]. simpl.
    apply IH.
    + intros H. apply Hpq. by apply prefix_cons.
    + intros H. apply Hqp. by apply prefix_cons.
Qed.

Lemma modify_dir_at (p : path) (g : entries → entries) (t : node) (es : entries) :
  lookup_path p t = Some (Dir es) →
  modify_dir p g t = update p (λ _, Dir (g es)) t.
Proof. intros H. unfold modify_dir. by apply (update_at _ _ _ _ _ H). Qed.

(** ** The named loops are the loops of the definitions *)

Lemma wf_node_Dir (es : entries) :
  wf_node (Dir es) = bool_decide (NoDup (map fst es)) && all_wf es.
Proof. reflexivity. Qed.

Lemma height_Dir (es : entries) : height (Dir es) = S (max_height es).
Proof. reflexivity. Qed.

Lemma copytree_node_Dir (ses des : entries) :
  copytree_node (Dir ses) des = copytree_loop ses des.
Proof. reflexivity. Qed.

Lemma walk_tree_Dir (E : environment) (root : path) (es : entries)
    (counts : nat * nat) :
  walk_tree E root (Dir es) counts =
  let r := walk_subdirs E root es
             (compress_entries E root (file_names es) es counts) in
  (Dir r.1, r.2).
Proof. reflexivity. Qed.

Lemma files_of_Dir (es : entries) :
  files_of (Dir es) = map (λ n, [n]) (file_names es) ++ files_subdirs es.
Proof. reflexivity. Qed.

Lemma dirs_of_Dir (es : entries) : dirs_of (Dir es) = [] :: dirs_subdirs es.
Proof. reflexivity. Qed.

Lemma shape_Dir (es : entries) : shape (Dir es) = Dir (shape_entries es).
Proof. reflexivity. Qed.

Lemma gz_tree_Dir (E : environment) (root : path) (es : entries) :
  gz_tree E root (Dir es) = Dir (gz_subdirs E root es ++ gz_siblings E root es).
Proof. reflexivity. Qed.

Lemma walk_subdirs_dir (E : environment) (root : path) (n : string)
    (sub l : entries) (acc : entries * (nat * nat)) :
  walk_subdirs E root ((n, Dir sub) :: l) acc =
  walk_subdirs E root l
    (map_entry n (λ _, (walk_tree E (join root n) (Dir sub) acc.2).1) acc.1,
     (walk_tree E (join root n) (Dir sub) acc.2).2).
Proof. reflexivity. Qed.

Lemma walk_subdirs_file (E : environment) (root : path) (n : string)
    (data : list byte) (l : entries) (acc : entries * (nat * nat)) :
  walk_subdirs E root ((n, File data) :: l) acc = walk_subdirs E root l acc.
Proof. reflexivity. Qed.

(** ** Well-formed trees and their height *)

Lemma all_wf_elem (es : entries) (n : string) (c : node) :
  all_wf es = true → (n, c) ∈ es → wf_node c = true.
Proof.
  induction es as [|[k c'] es IH]; simpl.
  - intros _ H. by apply elem_of_nil in H.
  - intros [H1 H2]%andb_true_iff [[= -> ->]|Hin]%elem_of_cons; auto.
Qed.

Lemma max_height_elem (es : entries) (n : string) (c : node) :
  (n, c) ∈ es → height c ≤ max_height es.
Proof.
  induction es as [|[k c'] es IH]; simpl.
  - intros H. by apply elem_of_nil in H.
  - intros [[= -> ->]|Hin]%elem_of_cons; [lia|]. specialize (IH Hin). lia.
Qed.

Lemma wf_node_Dir_inv (es : entries) :
  wf_node (Dir es) = true → NoDup (map fst es) ∧ all_wf es = true.
Proof.
  rewrite wf_node_Dir. intros [H1 H2]%andb_true_iff.
  split; [by apply bool_decide_eq_true in H1|done].
Qed.

Lemma wf_lookup (p : path) (t s : node) :
  wf_node t = true → lookup_path p t = Some s → wf_node s = true.
Proof.
  revert t. induction p as [|n p IH]; intros t Hwf; simpl.
  - by intros [= <-].
  - destruct t as [|es]; [done|].
    destruct (assoc n es) as [c|] eqn:Hc; [|done].
    apply IH. apply wf_node_Dir_inv in Hwf as [_ Hall].
    eapply all_wf_elem; [done|]. by apply assoc_Some_elem.
Qed.

Lemma height_lookup (p : path) (t s : node) :
  lookup_path p t = Some s → height s ≤ height t.
Proof.
  revert t. induction p as [|n p IH]; intros t; simpl.
  - by intros [= <-].
  - destruct t as [|es]; [done|].
    destruct (assoc n es) as [c|] eqn:Hc; [|done].
    intros H%IH. rewrite height_Dir.
    apply assoc_Some_elem, max_height_elem in Hc. lia.
Qed.

(** ** [os.makedirs] *)

Lemma makedirs_node_dir (p : path) (t : node) :
  isdir_at p t = true → makedirs_node p t = Some t.
Proof.
  unfold isdir_at. revert t. induction p as [|n p IH]; intros t; simpl.
  - by destruct t.
  - destruct t as [|es]; [done|].
    destruct (assoc n es) as [c|] eqn:Hc; [|done]. simpl.
    intros H. rewrite (IH _ H). by rewrite (set_entry_same _ _ _ Hc).
Qed.

Lemma makedirs_node_isdir (p : path) (t t' : node) :
  makedirs_node p t = Some t' → isdir_at p t' = true.
Proof.
  unfold isdir_at. revert t t'. induction p as [|n p IH]; intros t t'; simpl.
  - destruct t; [done|]. by intros [= <-].
  - destruct t as [|es]; [done|].
    destruct (makedirs_node p (default (Dir []) (assoc n es))) as [c'|] eqn:Hc;
      [|done].
    intros [= <-]. simpl. rewrite assoc_set_entry, decide_True by done.
    by eapply IH.
Qed.

Lemma makedirs_node_other (p q : path) (t t' v : node) :
  makedirs_node p t = Some t' → lookup_path q t = Some v →
  ¬ q `prefix_of` p → lookup_path q t' = Some v.
Proof.
  revert q t t'. induction p as [|n p IH]; intros q t t'; simpl.
  - destruct t; [done|]. by intros [= <-].
  - destruct t as [|es]; [done|].
    destruct (makedirs_node p (default (Dir []) (assoc n es))) as [c'|] eqn:Hc;
      [|done].
    intros [= <-]. destruct q as [|m q]; [intros _ H; destruct H; apply prefix_nil|].
    simpl. rewrite assoc_set_entry.
    destruct (decide (m = n)) as [->|Hmn]; [|done].
    destruct (assoc n es) as [c|] eqn:Hn; [|done]. simpl in Hc.
    intros Hq Hpre. eapply IH; [done..|].
    intros H. apply Hpre. by apply prefix_cons.
Qed.

Lemma isdir_at_parent (p : path) (n : string) (t s : node) :
  lookup_path (join p n) t = Some s → isdir_at p t = true.
Proof.
  rewrite lookup_path_join. unfold isdir_at.
  by destruct (lookup_path p t) as [[|?]|].
Qed.

(** ** Emptying a directory *)

Lemma del_entry_all (l : list string) (es : entries) :
  (∀ e, e ∈ es → e.1 ∈ l) → foldl (λ es n, del_entry n es) es l = [].
Proof.
  revert es. induction l as [|a l IH]; intros es Hes; simpl.
  - destruct es as [|e es]; [done|].
    specialize (Hes e (list_elem_of_here _ _)). by apply elem_of_nil in Hes.
  - apply IH. intros [k c] Hin.
    assert (Hk : assoc k (del_entry a es) ≠ None).
    { intros HN. apply assoc_None in HN. apply HN.
      apply list_elem_of_fmap. by exists (k, c). }
    rewrite assoc_del_entry in Hk.
    destruct (decide (k = a)) as [->|Hne]; [done|].
    assert (Hin' : k ∈ map fst es).
    { destruct (assoc k es) eqn:Hk'; [|done].
      apply assoc_Some_elem in Hk'. apply list_elem_of_fmap. by eexists (k, _). }
    apply list_elem_of_fmap in Hin' as ([k' c'] & -> & Hin'').
    specialize (Hes _ Hin''). simpl in *.
    apply elem_of_cons in Hes as [->|?]; done.
Qed.

(** ** Copying a tree into an empty directory *)

Lemma copytree_loop_fresh (l pre : entries) :
  Forall (λ e, ∀ ses, e.2 = Dir ses → wf_node e.2 = true →
               copytree_loop ses [] = (ses, false)) l →
  all_wf l = true → NoDup (map fst l) →
  (∀ n, n ∈ map fst l → n ∉ map fst pre) →
  copytree_loop l pre = (pre ++ l, false).
Proof.
  revert pre. induction l as [|[n c] l IH]; intros pre Hall Hwf Hnd Hfresh; simpl.
  - by rewrite app_nil_r.
  - apply Forall_cons in Hall as [Hc Hall].
    simpl in Hwf. apply andb_true_iff in Hwf as [Hwfc Hwf].
    simpl in Hnd. apply NoDup_cons in Hnd as [Hn Hnd].
    assert (Hnone : assoc n pre = None).
    { apply assoc_None. apply Hfresh. simpl. apply list_elem_of_here. }
    assert (Hrest : ∀ m, m ∈ map fst l → m ∉ map fst (pre ++ [(n, c)])).
    { intros m Hm. rewrite fmap_app, elem_of_app. simpl.
      intros [Hin|Hin%list_elem_of_singleton].
      - apply (Hfresh m); [simpl; by apply list_elem_of_further|done].
      - by subst. }
    destruct c as [data|ces]; rewrite Hnone.
    + rewrite (set_entry_absent _ _ _ Hnone).
      rewrite IH by done. by rewrite <- app_assoc.
    + rewrite copytree_node_Dir, (Hc ces) by done.
      rewrite (set_entry_absent _ _ _ Hnone).
      rewrite IH by done. by rewrite <- app_assoc.
Qed.

Lemma copytree_node_fresh (ses : entries) :
  wf_node (Dir ses) = true → copytree_node (Dir ses) [] = (ses, false).
Proof.
  assert (H : ∀ t ses, t = Dir ses → wf_node t = true →
                       copytree_loop ses [] = (ses, false)).
  { induction t as [data|es IH] using node_ind'; [done|].
    intros ses' [= <-] Hwf. apply wf_node_Dir_inv in Hwf as [Hnd Hall].
    rewrite (copytree_loop_fresh es []); [done| |done..|].
    - eapply Forall_impl; [exact IH|]. intros [n c] Hc ses0 Hd. by apply Hc.
    - intros n _. apply not_elem_of_nil. }
  intros Hwf. rewrite copytree_node_Dir. by eapply H.
Qed.

(** ** Shapes *)

Lemma is_dir_node_shape (c : node) : is_dir_node (shape c) = is_dir_node c.
Proof. by destruct c. Qed.

Lemma assoc_shape (n : string) (es : entries) :
  assoc n (shape_entries es) = shape <$> assoc n es.
Proof.
  induction es as [|[k c] es IH]; simpl; [done|].
  by destruct (decide (n = k)).
Qed.

Lemma shape_set_entry (n : string) (v : node) (es : entries) :
  shape_entries (set_entry n v es) = set_entry n (shape v) (shape_entries es).
Proof.
  induction es as [|[k c] es IH]; simpl; [done|].
  destruct (decide (n = k)); simpl; [done|]. by rewrite IH.
Qed.

Lemma shape_del_entry (n : string) (es : entries) :
  shape_entries (del_entry n es) = del_entry n (shape_entries es).
Proof.
  induction es as [|[k c] es IH]; simpl; [done|].
  destruct (decide (n = k)); simpl; [done|]. by rewrite IH.
Qed.

Lemma shape_map_entry (n : string) (v : node) (es : entries) :
  shape_entries (map_entry n (λ _, v) es) =
  map_entry n (λ _, shape v) (shape_entries es).
Proof.
  induction es as [|[k c] es IH]; simpl; [done|].
  destruct (decide (n = k)); simpl; [done|]. by rewrite IH.
Qed.

Lemma file_names_shape (es : entries) :
  file_names (shape_entries es) = file_names es.
Proof.
  unfold file_names. induction es as [|[k c] es IH]; simpl; [done|].
  rewrite !filter_cons. simpl. rewrite is_dir_node_shape.
  destruct (decide (is_dir_node c = false)); simpl; by rewrite IH.
Qed.

Lemma files_subdirs_dir (n : string) (sub l : entries) :
  files_subdirs ((n, Dir sub) :: l) =
  map (cons n) (files_of (Dir sub)) ++ files_subdirs l.
Proof. reflexivity. Qed.

Lemma files_subdirs_file (n : string) (data : list byte) (l : entries) :
  files_subdirs ((n, File data) :: l) = files_subdirs l.
Proof. reflexivity. Qed.

Lemma dirs_subdirs_cons (n : string) (c : node) (l : entries) :
  dirs_subdirs ((n, c) :: l) = map (cons n) (dirs_of c) ++ dirs_subdirs l.
Proof. reflexivity. Qed.

Lemma shape_entries_cons (n : string) (c : node) (l : entries) :
  shape_entries ((n, c) :: l) = (n, shape c) :: shape_entries l.
Proof. reflexivity. Qed.

Lemma files_of_shape (t : node) : files_of (shape t) = files_of t.
Proof.
  induction t as [data|es IH] using node_ind'; [done|].
  rewrite shape_Dir, !files_of_Dir, file_names_shape. f_equal.
  induction es as [|[k c] es IHes]; [done|].
  apply Forall_cons in IH as [Hc IH]. cbv beta in Hc.
  rewrite shape_entries_cons.
  destruct c as [data|sub].
  - change (shape (File data)) with (File []).
    rewrite !files_subdirs_file. by apply IHes.
  - rewrite shape_Dir, !files_subdirs_dir, <- shape_Dir. simpl snd in Hc.
    rewrite Hc. f_equal. by apply IHes.
Qed.

Lemma dirs_of_shape (t : node) : dirs_of (shape t) = dirs_of t.
Proof.
  induction t as [data|es IH] using node_ind'; [done|].
  rewrite shape_Dir, !dirs_of_Dir. f_equal.
  induction es as [|[k c] es IHes]; [done|].
  apply Forall_cons in IH as [Hc IH]. cbv beta in Hc. simpl snd in Hc.
  rewrite shape_entries_cons, !dirs_subdirs_cons, Hc. f_equal. by apply IHes.
Qed.

(** ** Names and listings *)

Lemma ends_with_unfold (sfx s : string) :
  ends_with sfx s =
  bool_decide (s = sfx) ||
  match s with
  | EmptyString => false
  | String _ s' => ends_with sfx s'
  end.
Proof. by destruct s. Qed.

Lemma ends_with_app (sfx s : string) : ends_with sfx (s +:+ sfx) = true.
Proof.
  induction s as [|c s IH].
  - rewrite ends_with_unfold. change (EmptyString +:+ sfx) with sfx.
    by rewrite bool_decide_eq_true_2.
  - change (String c s +:+ sfx) with (String c (s +:+ sfx)).
    rewrite ends_with_unfold. cbv iota. rewrite IH. apply orb_true_r.
Qed.

Lemma string_app_inj (a b sfx : string) : a +:+ sfx = b +:+ sfx → a = b.
Proof.
  intros H.
  assert (Hlen : ∀ x y : string, String.length (x +:+ y) =
                   String.length x + String.length y).
  { intros x y. induction x as [|c x IHx]; simpl; [done|]. by rewrite IHx. }
  revert b H. induction a as [|c a IH]; intros [|d b] H; simpl in *.
  - done.
  - apply (f_equal String.length) in H. rewrite !Hlen in H. simpl in H. lia.
  - apply (f_equal String.length) in H. rewrite !Hlen in H. simpl in H. lia.
  - injection H as -> H. f_equal. by apply IH.
Qed.

Lemma elem_of_file_names (n : string) (es : entries) :
  n ∈ file_names es ↔ ∃ data, (n, File data) ∈ es.
Proof.
  unfold file_names. rewrite list_elem_of_fmap. split.
  - intros ([k c] & -> & [Hf Hin]%list_elem_of_filter). simpl in *.
    destruct c; [eauto|done].
  - intros [data Hin]. exists (n, File data). split; [done|].
    by apply list_elem_of_filter.
Qed.

Lemma elem_of_dir_names (n : string) (es : entries) :
  n ∈ dir_names es ↔ ∃ sub, (n, Dir sub) ∈ es.
Proof.
  unfold dir_names. rewrite list_elem_of_fmap. split.
  - intros ([k c] & -> & [Hf Hin]%list_elem_of_filter). simpl in *.
    destruct c; [done|eauto].
  - intros [sub Hin]. exists (n, Dir sub). split; [done|].
    by apply list_elem_of_filter.
Qed.

Lemma NoDup_file_names (es : entries) :
  NoDup (map fst es) → NoDup (file_names es).
Proof.
  unfold file_names. induction es as [|[k c] es IH]; simpl; [constructor|].
  rewrite NoDup_cons. intros [Hk Hnd]. rewrite filter_cons. simpl.
  destruct (decide (is_dir_node c = false)); simpl; [|by apply IH].
  apply NoDup_cons. split; [|by apply IH].
  intros ([k' c'] & -> & [_ Hin]%list_elem_of_filter)%list_elem_of_fmap.
  apply Hk. apply list_elem_of_fmap. by exists (k', c').
Qed.

Lemma file_names_cons_file (n : string) (data : list byte) (es : entries) :
  file_names ((n, File data) :: es) = n :: file_names es.
Proof. unfold file_names. by rewrite filter_cons_True. Qed.

Lemma file_names_cons_dir (n : string) (sub es : entries) :
  file_names ((n, Dir sub) :: es) = file_names es.
Proof. unfold file_names. by rewrite filter_cons_False. Qed.

Lemma files_of_dir_nonempty (es : entries) (p : path) :
  p ∈ files_of (Dir es) → p ≠ [].
Proof.
  rewrite files_of_Dir, elem_of_app. intros [H|H].
  - apply list_elem_of_fmap in H as (n & -> & _). done.
  - induction es as [|[k c] es IH]; [by apply elem_of_nil in H|].
    destruct c as [data|sub].
    + rewrite files_subdirs_file in H. auto.
    + rewrite files_subdirs_dir, elem_of_app in H. destruct H as [H|H]; [|auto].
      apply list_elem_of_fmap in H as (q & -> & _). done.
Qed.

Lemma basename_cons (n : string) (p : path) :
  p ≠ [] → basename (n :: p) = basename p.
Proof. intros H. unfold basename. by destruct p. Qed.

Lemma dirname_cons (n : string) (p : path) :
  p ≠ [] → dirname (n :: p) = n :: dirname p.
Proof. intros H. unfold dirname. by destruct p. Qed.

Lemma add_suffix_cons (sfx : string) (n : string) (p : path) :
  p ≠ [] → add_suffix sfx (n :: p) = n :: add_suffix sfx p.
Proof.
  intros H. unfold add_suffix, join. by rewrite dirname_cons, basename_cons.
Qed.

Lemma add_suffix_singleton (sfx : string) (n : string) :
  add_suffix sfx [n] = [n +:+ sfx].
Proof. done. Qed.

(** ** The listing of files is the set of paths that resolve to files *)

Lemma elem_of_files_subdirs (p : path) (es : entries) :
  p ∈ files_subdirs es ↔
  ∃ n sub q, (n, Dir sub) ∈ es ∧ q ∈ files_of (Dir sub) ∧ p = n :: q.
Proof.
  induction es as [|[k [data|sub]] es IH].
  - split; [intros H; by apply elem_of_nil in H|].
    intros (n & sub & q & H & _). by apply elem_of_nil in H.
  - rewrite files_subdirs_file, IH. split.
    + intros (n & sub & q & H & ?). exists n, sub, q.
      split; [by apply list_elem_of_further|done].
    + intros (n & sub & q & [[=]|H]%elem_of_cons & ?). eauto.
  - rewrite files_subdirs_dir, elem_of_app, IH, list_elem_of_fmap. split.
    + intros [(q & -> & Hq)|(n & sub' & q & H & ?)].
      * exists k, sub, q. split; [apply list_elem_of_here|done].
      * exists n, sub', q. split; [by apply list_elem_of_further|done].
    + intros (n & sub' & q & [[= -> ->]|H]%elem_of_cons & Hq & ->); [eauto|].
      right. eauto 6.
Qed.

Lemma files_of_lookup (t : node) (p : path) :
  wf_node t = true →
  p ∈ files_of t ↔ ∃ data, lookup_path p t = Some (File data).
Proof.
  revert p. induction t as [data|es IH] using node_ind'; intros p Hwf.
  - simpl. rewrite list_elem_of_singleton. split.
    + intros ->. eauto.
    + intros [d Hd]. destruct p; [done|]. simpl in Hd. done.
  - apply wf_node_Dir_inv in Hwf as [Hnd Hall].
    rewrite files_of_Dir, elem_of_app, list_elem_of_fmap, elem_of_files_subdirs.
    split.
    + intros [(n & -> & [data Hn]%elem_of_file_names)
             |(n & sub & q & Hin & Hq & ->)].
      * exists data. rewrite lookup_path_cons, (assoc_NoDup _ _ _ Hnd Hn). done.
      * rewrite lookup_path_cons, (assoc_NoDup _ _ _ Hnd Hin).
        rewrite Forall_forall in IH. apply (IH _ Hin); [|done].
        by eapply all_wf_elem.
    + intros [data Hp]. destruct p as [|n q]; [done|].
      rewrite lookup_path_cons in Hp.
      destruct (assoc n es) as [c|] eqn:Hc; [|done].
      pose proof (assoc_Some_elem _ _ _ Hc) as Hin.
      destruct c as [d|sub].
      * destruct q; [|done]. left. exists n. split; [done|].
        apply elem_of_file_names. eauto.
      * right. exists n, sub, q. split; [done|]. split; [|done].
        rewrite Forall_forall in IH. apply (IH _ Hin); [|eauto].
        by eapply all_wf_elem.
Qed.

End FsFacts.
(** * The frontend packager: detecting the package manager and building *)

Module BuildFrontendProofs.
Import BuildSveltekit.
Local Open Scope nat_scope.

#[local] Arguments exists_at : simpl never.
#[local] Arguments isdir_at : simpl never.
#[local] Arguments isfile_at : simpl never.
#[local] Arguments lookup_path : simpl nomatch.
#[local] Arguments join : simpl never.
#[local] Arguments dirname : simpl never.
#[local] Arguments basename : simpl never.
#[local] Arguments path_str : simpl never.
#[local] Arguments String.append : simpl never.
#[local] Arguments FRONTEND_DIR : simpl never.
#[local] Arguments BUILD_DIR : simpl never.
#[local] Arguments OUTPUT_DIR : simpl never.
#[local] Arguments str_exn : simpl never.
#[local] Arguments pretty : simpl never.

Ltac py_unfold :=
  unfold mbind, Py_bind, py_bind, py_ret, py_raise, py_get, try_except,
    print, os_path_exists, os_path_isfile, os_path_isdir, os_getcwd, io_check.

(** ** Detecting the package manager *)

(** C6.  [get_package_manager] only reads: it hands back the state it was
    given.  Its answer follows the priority pnpm, then yarn, then npm: the
    pnpm lock file decides whatever else is there; without it the yarn lock
    file decides; without both, either the npm lock file or the manifest
    gives npm; and a frontend directory holding none of the four markers
    gives [None]. *)
Theorem get_package_manager_priority (E : environment) (w : world) :
  let has name := exists_at (join (FRONTEND_DIR E) name) (fs w) in
  let r := get_package_manager E w in
  r.2 = w ∧
  (has "pnpm-lock.yaml" = true → r.1 = Ret (Some "pnpm")) ∧
  (has "pnpm-lock.yaml" = false → has "yarn.lock" = true →
   r.1 = Ret (Some "yarn")) ∧
  (has "pnpm-lock.yaml" = false → has "yarn.lock" = false →
   has "package-lock.json" = true ∨ has "package.json" = true →
   r.1 = Ret (Some "npm")) ∧
  (has "pnpm-lock.yaml" = false → has "yarn.lock" = false →
   has "package-lock.json" = false → has "package.json" = false →
   r.1 = Ret None).
Proof.
  intros has r. subst has r. unfold get_package_manager. py_unfold.
  destruct (exists_at (join (FRONTEND_DIR E) "pnpm-lock.yaml") (fs w)) eqn:Hp;
  destruct (exists_at (join (FRONTEND_DIR E) "yarn.lock") (fs w)) eqn:Hy;
  destruct (exists_at (join (FRONTEND_DIR E) "package-lock.json") (fs w)) eqn:Hl;
  destruct (exists_at (join (FRONTEND_DIR E) "package.json") (fs w)) eqn:Hm;
  simpl; rewrite ?Hm; simpl; repeat split; intros; try congruence;
  repeat match goal with H : _ ∨ _ |- _ => destruct H end; congruence.
Qed.

Lemma get_package_manager_priority_witness :
  (get_package_manager Sample.E0 Sample.w_bare).1 = Ret None.
Proof.
  apply (get_package_manager_priority Sample.E0 Sample.w_bare); reflexivity.
Defined.

(** ** Building the frontend *)

(** C9.  When the frontend directory exists but holds none of the four
    package-manager markers, [build_frontend] returns [False] having only
    printed: the filesystem and the working directory are as before, no
    [os.chdir] was made and no command was handed to [subprocess.run]. *)
Theorem build_frontend_no_package_manager (E : environment) (w : world) :
  exists_at (FRONTEND_DIR E) (fs w) = true →
  exists_at (join (FRONTEND_DIR E) "pnpm-lock.yaml") (fs w) = false →
  exists_at (join (FRONTEND_DIR E) "yarn.lock") (fs w) = false →
  exists_at (join (FRONTEND_DIR E) "package-lock.json") (fs w) = false →
  exists_at (join (FRONTEND_DIR E) "package.json") (fs w) = false →
  build_frontend E w =
    (Ret false,
     set_stdout
       (stdout w ++
        ["Building SvelteKit frontend...";
         "No package manager detected. Please install dependencies in the frontend directory."])
       w).
Proof.
  intros Hf Hp Hy Hl Hm.
  unfold build_frontend, get_package_manager. py_unfold.
  unfold add_stdout, set_stdout. simpl.
  rewrite Hf. simpl. rewrite Hp. simpl. rewrite Hy. simpl.
  rewrite Hl. simpl. rewrite Hm. simpl.
  by rewrite <- app_assoc.
Qed.

Lemma build_frontend_no_package_manager_witness :
  build_frontend Sample.E0 Sample.w_bare =
    (Ret false,
     set_stdout
       ["Building SvelteKit frontend...";
        "No package manager detected. Please install dependencies in the frontend directory."]
       Sample.w_bare).
Proof.
  apply (build_frontend_no_package_manager Sample.E0 Sample.w_bare); reflexivity.
Defined.

(** The detection looks at the filesystem only. *)
Lemma get_package_manager_run (E : environment) (w w0 : world) :
  fs w = fs w0 →
  get_package_manager E w = ((get_package_manager E w0).1, w).
Proof.
  intros Hfs. unfold get_package_manager. py_unfold. rewrite Hfs.
  by repeat (case_match; simplify_eq/=; rewrite ?Hfs).
Qed.

#[local] Arguments get_package_manager : simpl never.

(** Take a run apart into its paths. *)
Ltac crunch :=
  repeat (first
    [ progress simplify_eq/=
    | case_match ]).

(** What is known of the original directory after each command, under
    [keeps_dir] and [uninterrupted]. *)
Ltac survives E w Hkeep Hunint :=
  repeat match goal with
  | Hr : run_proc E _ _ _ = Interrupted _ |- _ =>
      by destruct (Hunint _ _ _ _ Hr)
  | Hr : run_proc E _ _ ?t0 = Exited _ ?t1,
    H0 : isdir_at (cwd w) ?t0 = true,
    H1 : isdir_at (cwd w) ?t1 = false |- _ =>
      rewrite (Hkeep _ _ _ _ _ H0 Hr) in H1; discriminate
  | Hr : run_proc E _ _ ?t0 = Exited _ ?t1,
    H0 : isdir_at (cwd w) ?t0 = true |- _ =>
      lazymatch goal with
      | _ : isdir_at (cwd w) t1 = true |- _ => fail
      | _ => pose proof (Hkeep _ _ _ _ _ H0 Hr)
      end
  end.

(** C3, amended.  Whenever [build_frontend] returns, with [True] or with
    [False], the process is in the working directory it was called in: every
    [return] after the change into the frontend directory follows an
    [os.chdir] back that went through.  At any exit the working directory is
    the original one or the frontend directory, the latter only when the
    function ends by raising.  And it always is the original one when that
    directory exists, the external commands leave it in place and no wait for
    a command is interrupted: then either no [os.chdir] was made at all, or
    exactly two were made, to the frontend directory and back, and the
    function ended by returning a boolean. *)
Theorem build_frontend_restores_cwd (E : environment) (w : world) :
  let r := build_frontend E w in
  (∀ b, r.1 = Ret b → cwd r.2 = cwd w) ∧
  (cwd r.2 = cwd w ∨ (cwd r.2 = FRONTEND_DIR E ∧ ∃ e, r.1 = Raise e)) ∧
  (isdir_at (cwd w) (fs w) = true → keeps_dir E (cwd w) → uninterrupted E →
   cwd r.2 = cwd w ∧
   (chdirs r.2 = chdirs w ∨
    (chdirs r.2 = chdirs w ++ [FRONTEND_DIR E; cwd w] ∧ ∃ b, r.1 = Ret b))).
Proof.
  intros r. subst r.
  destruct (build_frontend E w) as [o w'] eqn:Hrun. cbn [fst snd].
  revert Hrun. unfold build_frontend. py_unfold. simpl.
  destruct (exists_at (FRONTEND_DIR E) (fs w)) eqn:Hf; simpl.
  2:{ intros [= <- <-]. simpl. auto. }
  rewrite (get_package_manager_run E _ w) by done.
  destruct ((get_package_manager E w).1) as [[pm|]|e]; simpl.
  2:{ intros [= <- <-]. simpl. auto. }
  2:{ intros [= <- <-]. simpl. split; [done|]. auto. }
  unfold os_chdir, subprocess_run. simpl. intros Hrun.
  crunch;
    (split; [by (intros ? [=]) || done|]);
    (split; [by eauto|]);
    intros Hcwd Hkeep Hunint;
    survives E w Hkeep Hunint;
    try congruence;
    rewrite <- ?app_assoc; eauto 6.
Qed.

Lemma build_frontend_restores_cwd_witness :
  let r := build_frontend Sample.E_fail Sample.w0 in
  cwd r.2 = ["fw"] ∧
  (chdirs r.2 = [] ∨
   (chdirs r.2 = [["Modular_Macropad_Front_End_v2"]; ["fw"]] ∧ ∃ b, r.1 = Ret b)).
Proof.
  apply (build_frontend_restores_cwd Sample.E_fail Sample.w0).
  - reflexivity.
  - intros cmd wd t rc t' _ [= _ <-]. reflexivity.
  - intros cmd wd t t'. discriminate.
Defined.

(** C3 as stated fails.  The build command of this environment exits with
    status 0 having removed the directory the script was started in.  The
    [os.chdir] back then raises, in the body and again in the handler:
    [build_frontend] ends by raising and the process is left in the frontend
    directory, not in the directory it started in. *)
Lemma build_frontend_loses_cwd :
  (∃ msg, (build_frontend Sample.E_wipe Sample.w0).1 = Raise (OSError msg)) ∧
  cwd Sample.w0 = ["fw"] ∧
  cwd (build_frontend Sample.E_wipe Sample.w0).2 =
    ["Modular_Macropad_Front_End_v2"].
Proof. vm_compute. eauto. Qed.

(** The same with the original directory in place, when the wait for the
    build command is interrupted from the keyboard: no handler applies, and
    the working directory stays the frontend directory. *)
Example build_frontend_interrupted :
  (build_frontend Sample.E_interrupt Sample.w0).1 = Raise KeyboardInterrupt ∧
  isdir_at ["fw"] (fs (build_frontend Sample.E_interrupt Sample.w0).2) = true ∧
  cwd (build_frontend Sample.E_interrupt Sample.w0).2 =
    ["Modular_Macropad_Front_End_v2"].
Proof. by vm_compute. Qed.

End BuildFrontendProofs.

(** * The frontend packager: compressing one file *)

Module CompressProofs.
Import BuildSveltekit FsFacts.
Local Open Scope nat_scope.

#[local] Arguments join : simpl never.
#[local] Arguments dirname : simpl never.
#[local] Arguments basename : simpl never.
#[local] Arguments path_str : simpl never.
#[local] Arguments String.append : simpl never.
#[local] Arguments str_exn : simpl never.
#[local] Arguments update : simpl never.
#[local] Arguments lookup_path : simpl never.

Lemma string_app_length (a b : string) :
  String.length (a +:+ b) = String.length a + String.length b.
Proof. induction a as [|c a IH]; simpl; [done|]. by rewrite IH. Qed.

Lemma gz_name_neq (n : string) : n ≠ n +:+ ".gz".
Proof.
  intros H. apply (f_equal String.length) in H.
  rewrite string_app_length in H. simpl in H. lia.
Qed.

Lemma set_entry_set_entry (n : string) (u v : node) (es : entries) :
  set_entry n v (set_entry n u es) = set_entry n v es.
Proof.
  induction es as [|[k c] es IH]; simpl.
  - by rewrite decide_True.
  - destruct (decide (n = k)) as [->|Hnk]; simpl.
    + by rewrite decide_True.
    + by rewrite decide_False, IH.
Qed.

(** ** The primitives, on a path inside a known directory *)

Section InDirectory.
Context (root : path) (w : world) (es : entries).
Hypothesis Hroot : lookup_path root (fs w) = Some (Dir es).

Lemma open_rb_in (n : string) :
  open_rb (join root n) w =
  match assoc n es with
  | Some (File data) => (Ret data, w)
  | Some (Dir _) =>
      (Raise (OSError ("[Errno 21] Is a directory: '"
                         +:+ path_str (join root n) +:+ "'")), w)
  | None =>
      (Raise (OSError ("[Errno 2] No such file or directory: '"
                         +:+ path_str (join root n) +:+ "'")), w)
  end.
Proof. unfold open_rb. rewrite lookup_path_join, Hroot. done. Qed.

Lemma write_wb_in (n : string) (data : list byte) :
  write_wb (join root n) data w =
  if is_dir_entry (assoc n es)
  then (Raise (OSError ("[Errno 21] Is a directory: '"
                          +:+ path_str (join root n) +:+ "'")), w)
  else (Ret (), set_fs (update root (λ _, Dir (set_entry n (File data) es)) (fs w)) w).
Proof.
  unfold write_wb, isdir_at. rewrite dirname_join, basename_join.
  rewrite lookup_path_join, Hroot. simpl.
  rewrite (modify_dir_at _ _ _ _ Hroot).
  by destruct (assoc n es) as [[|?]|].
Qed.

Lemma os_remove_in (n : string) :
  os_remove (join root n) w =
  match assoc n es with
  | Some (File _) =>
      (Ret (), set_fs (update root (λ _, Dir (del_entry n es)) (fs w)) w)
  | _ => (Raise (OSError ("[Errno 2] No such file or directory: '"
                            +:+ path_str (join root n) +:+ "'")), w)
  end.
Proof.
  unfold os_remove, isfile_at. rewrite dirname_join, basename_join.
  rewrite lookup_path_join, Hroot.
  rewrite (modify_dir_at _ _ _ _ Hroot).
  by destruct (assoc n es) as [[|?]|].
Qed.

End InDirectory.

Lemma lookup_after_update (root : path) (w : world) (es es' : entries) :
  lookup_path root (fs w) = Some (Dir es) →
  lookup_path root (fs (set_fs (update root (λ _, Dir es') (fs w)) w)) = Some (Dir es').
Proof. intros H. simpl. by rewrite (lookup_update _ _ _ _ H). Qed.

(** [compress_file] on a file of the directory [root] acts on the entries of
    that directory as [compress_entry] says, prints at most one line, and
    never raises. *)
Lemma compress_file_in (E : environment) (root : path) (file : string)
    (w : world) (es : entries) :
  lookup_path root (fs w) = Some (Dir es) →
  ∃ out,
    compress_file E (join root file) w =
    (Ret (compress_entry E root file es).2,
     set_stdout out
       (set_fs (update root (λ _, Dir (compress_entry E root file es).1) (fs w)) w)).
Proof.
  intros Hroot.
  assert (Hsame : ∀ out, set_stdout out w =
            set_stdout out (set_fs (update root (λ _, Dir es) (fs w)) w)).
  { intros out. unfold set_stdout, set_fs. simpl.
    by rewrite (update_same _ _ _ _ Hroot). }
  unfold compress_file, compress_entry.
  rewrite add_suffix_join, basename_join.
  unfold try_except, mbind, Py_bind, py_bind, io_check, py_ret, py_raise, print.
  destruct (assoc file es) as [[data|?]|] eqn:Hfile;
    destruct (fault_at E (join root file)) eqn:Hfault;
    rewrite ?(open_rb_in _ _ _ Hroot), ?Hfile;
    try (eexists; rewrite <- Hsame; reflexivity);
    rewrite (write_wb_in _ _ _ Hroot);
    (destruct (is_dir_entry (assoc (file +:+ ".gz") es)) eqn:Hgz;
      [eexists; rewrite <- Hsame; reflexivity|]);
    pose proof (lookup_after_update _ _ _
      (set_entry (file +:+ ".gz") (File []) es) Hroot) as H1;
    rewrite (write_wb_in _ _ _ H1);
    rewrite assoc_set_entry, decide_True by done; simpl is_dir_entry; cbv iota.
  - (* no fault: the sibling is written, then the original removed *)
    pose proof (lookup_after_update _ _ _
      (set_entry (file +:+ ".gz")
         (File (gzip_compress E (time_at E (join root file)) file data))
         (set_entry (file +:+ ".gz") (File []) es)) H1) as H2.
    rewrite (os_remove_in _ _ _ H2).
    rewrite !assoc_set_entry, !decide_False by apply gz_name_neq.
    rewrite Hfile. exists (stdout w).
    unfold set_fs, set_stdout. simpl.
    rewrite !update_update, set_entry_set_entry. by destruct w.
  - (* writing stops part-way *)
    eexists. unfold set_fs, set_stdout, add_stdout, set_stdout. simpl.
    rewrite !update_update, set_entry_set_entry. reflexivity.
  - (* the original cannot be removed *)
    eexists. unfold set_fs, set_stdout, add_stdout, set_stdout. simpl.
    rewrite !update_update, set_entry_set_entry. reflexivity.
Qed.



(** Compressing something that is not a regular file fails and changes
    nothing but the output. *)
Lemma compress_file_not_a_file (E : environment) (p : path) (w : world) :
  isfile_at p (fs w) = false →
  ∃ out, compress_file E p w = (Ret false, set_stdout out w).
Proof.
  unfold isfile_at. intros Hp.
  unfold compress_file, try_except, mbind, Py_bind, py_bind, io_check, py_ret,
    py_raise, print, open_rb.
  destruct (fault_at E p); destruct (lookup_path p (fs w)) as [[|?]|];
    try done; eexists; reflexivity.
Qed.



(** A fault while writing leaves a partial sibling next to the untouched
    original. *)
Example compress_file_partial_sibling :
  let p := ["fw"; "data"; "web"; "stale.txt"] in
  let E := Environment ["fw"] (λ _ _ t, Exited 0 t) (λ _, FailWrite [x1f])
             (λ _, 0%Z) Sample.gz in
  let r := compress_file E p Sample.w0 in
  r.1 = Ret false ∧
  lookup_path p (fs r.2) = Some (File [x6f]) ∧
  lookup_path ["fw"; "data"; "web"; "stale.txt.gz"] (fs r.2) = Some (File [x1f]).
Proof. vm_compute. done. Qed.

End CompressProofs.

(** * The frontend packager: processing the build output *)

Module ProcessProofs.
Import BuildSveltekit FsFacts CompressProofs.
Local Open Scope nat_scope.

#[local] Arguments join : simpl never.
#[local] Arguments dirname : simpl never.
#[local] Arguments basename : simpl never.
#[local] Arguments path_str : simpl never.
#[local] Arguments String.append : simpl never.
#[local] Arguments str_exn : simpl never.
#[local] Arguments update : simpl never.
#[local] Arguments lookup_path : simpl never.
#[local] Arguments pretty : simpl never.
#[local] Arguments compress_file : simpl never.
#[local] Arguments compress_entry : simpl never.
#[local] Arguments ends_with : simpl never.

(** ** The walk is the walk of the tree *)

Lemma fs_add_stdout l w : fs (add_stdout l w) = fs w.
Proof. done. Qed.
Lemma fs_set_fs t w : fs (set_fs t w) = t.
Proof. done. Qed.
Lemma fs_set_stdout o w : fs (set_stdout o w) = fs w.
Proof. done. Qed.
Ltac world_simpl := rewrite ?fs_add_stdout, ?fs_set_fs, ?fs_set_stdout.

Lemma py_bind_ret {S A B} (m : Py S A) (k : A → Py S B) (s s' : S) (a : A) :
  m s = (Ret a, s') → py_bind m k s = k a s'.
Proof. intros H. unfold py_bind. by rewrite H. Qed.

Lemma py_bind_raise {S A B} (m : Py S A) (k : A → Py S B) (s s' : S) (e : exn) :
  m s = (Raise e, s') → py_bind m k s = (Raise e, s').
Proof. intros H. unfold py_bind. by rewrite H. Qed.

Lemma print_ok (line : string) (w : world) :
  print line w = (Ret (), add_stdout line w).
Proof. done. Qed.

Lemma os_path_exists_ok (p : path) (w : world) :
  os_path_exists p w = (Ret (exists_at p (fs w)), w).
Proof. done. Qed.

(** Run the first statement of the goal, whose effect [H] states. *)
Tactic Notation "step_in" hyp(HX) "with" uconstr(H) :=
  match type of HX with
  | context [py_bind ?m ?k ?s] =>
      rewrite (py_bind_ret m k s _ _ H) in HX; cbv beta in HX
  end.

Lemma world_same (w : world) (t : node) :
  t = fs w → World t (cwd w) (stdout w) (spawned w) (chdirs w) = w.
Proof. intros ->. by destruct w. Qed.

Lemma compress_entry_keeps_dirs (E : environment) (root : path)
    (file n : string) (es sub : entries) :
  assoc n es = Some (Dir sub) →
  assoc n (compress_entry E root file es).1 = Some (Dir sub).
Proof.
  intros Hn. unfold compress_entry.
  destruct (assoc file es) as [[data|?]|] eqn:Hfile; try done.
  assert (Hnf : n ≠ file) by (intros ->; congruence).
  destruct (fault_at E (join root file)); try done;
    destruct (is_dir_entry (assoc (file +:+ ".gz") es)) eqn:Hgz; try done; simpl;
    rewrite ?assoc_del_entry, ?decide_False by done;
    rewrite assoc_set_entry;
    (destruct (decide (n = file +:+ ".gz")) as [->|]; [|done]);
    by rewrite Hn in Hgz.
Qed.

Lemma compress_entries_keeps_dirs (E : environment) (root : path)
    (files : list string) (n : string) (es sub : entries) (counts : nat * nat) :
  assoc n es = Some (Dir sub) →
  assoc n (compress_entries E root files es counts).1 = Some (Dir sub).
Proof.
  revert es counts. induction files as [|file rest IH]; intros es counts Hn; simpl.
  - done.
  - destruct (ends_with ".gz" file); [by apply IH|].
    apply IH. by apply compress_entry_keeps_dirs.
Qed.

Lemma compress_files_in_spec (E : environment) (root : path)
    (dirs files : list string) (w : world) (es : entries) (counts : nat * nat) :
  lookup_path root (fs w) = Some (Dir es) →
  ∃ out,
    compress_files_in E counts root dirs files w =
    (Ret (compress_entries E root files es counts).2,
     World (update root (λ _, Dir (compress_entries E root files es counts).1) (fs w))
       (cwd w) out (spawned w) (chdirs w)).
Proof.
  unfold compress_files_in.
  revert w es counts. induction files as [|file rest IH]; intros w es counts Hroot.
  - exists (stdout w). simpl. unfold py_ret.
    by rewrite world_same by (by rewrite (update_same _ _ _ _ Hroot)).
  - destruct counts as [c e]. simpl. unfold py_bind at 1.
    destruct (ends_with ".gz" file); simpl.
    + unfold py_ret at 1. apply IH. done.
    + unfold py_bind at 1.
      destruct (compress_file_in E root file w es Hroot) as [out1 ->].
      set (r := compress_entry E root file es).
      destruct (IH (set_stdout out1 (set_fs (update root (λ _, Dir r.1) (fs w)) w))
                  r.1 (if r.2 then (c + 1, e) else (c, e + 1))) as [out2 Hrest].
      { simpl. by rewrite (lookup_update _ _ _ _ Hroot). }
      exists out2. destruct r.2; unfold py_ret at 1; rewrite Hrest;
        simpl; by rewrite update_update.
Qed.

Section Walk.
Variable E : environment.

Lemma update_child (root : path) (n : string) (c' : node) (t : node)
    (es : entries) :
  lookup_path root t = Some (Dir es) →
  update (join root n) (λ _, c') t =
  update root (λ _, Dir (map_entry n (λ _, c') es)) t.
Proof.
  intros Hroot. unfold join. rewrite update_app.
  apply (update_at _ _ _ _ _ Hroot). done.
Qed.

Lemma walk_subdirs_spec (k : nat) (root : path) :
  walk_ok E k →
  ∀ (l : entries) (es : entries) (counts : nat * nat) (w : world),
    lookup_path root (fs w) = Some (Dir es) →
    NoDup (map fst l) → all_wf l = true → max_height l ≤ k →
    (∀ n sub, (n, Dir sub) ∈ l → assoc n es = Some (Dir sub)) →
    ∃ out,
      py_for (dir_names l)
        (λ a d, os_walk_for k (join root d) (compress_files_in E) a) counts w =
      (Ret (walk_subdirs E root l (es, counts)).2,
       World (update root (λ _, Dir (walk_subdirs E root l (es, counts)).1) (fs w))
         (cwd w) out (spawned w) (chdirs w)).
Proof.
  intros Hk. induction l as [|[n c] l IH]; intros es counts w Hroot Hnd Hwf Hh Hin.
  - exists (stdout w). simpl. unfold py_ret.
    by rewrite world_same by (by rewrite (update_same _ _ _ _ Hroot)).
  - simpl in Hnd. apply NoDup_cons in Hnd as [Hn Hnd].
    simpl in Hwf. apply andb_true_iff in Hwf as [Hwfc Hwf].
    simpl in Hh.
    destruct c as [data|sub].
    + (* a file: the loop over the sub-directories passes it by *)
      unfold dir_names. rewrite filter_cons_False by done.
      simpl. apply IH; [done..|lia|].
      intros m sub' Hm. apply Hin. by apply list_elem_of_further.
    + unfold dir_names. rewrite filter_cons_True by done.
      simpl. unfold py_bind at 1.
      assert (Hc : assoc n es = Some (Dir sub)) by apply Hin, list_elem_of_here.
      destruct (Hk (join root n) w (Dir sub) counts) as [out1 ->];
        [by rewrite lookup_path_join, Hroot|done|lia|].
      set (r := walk_tree E (join root n) (Dir sub) counts).
      rewrite (update_child _ _ _ _ _ Hroot).
      match goal with |- context [py_for _ _ _ ?w1] =>
        destruct (IH (map_entry n (λ _, r.1) es) r.2 w1) as [out2 Hrest] end.
      { simpl. by rewrite (lookup_update _ _ _ _ Hroot). }
      { done. } { done. } { lia. }
      { intros m sub' Hm. rewrite assoc_map_entry.
        rewrite decide_False; [apply Hin; by apply list_elem_of_further|].
        intros ->. apply Hn. apply list_elem_of_fmap. by eexists (_, _). }
      exists out2. fold (dir_names l). rewrite Hrest. simpl.
      by rewrite update_update.
Qed.

Lemma walk_for_spec (k : nat) : walk_ok E k.
Proof.
  induction k as [|k IH]; intros root w t counts Hroot Hwf Hh.
  - destruct t as [data|es]; [|rewrite height_Dir in Hh; lia].
    exists (stdout w). simpl. unfold py_ret.
    by rewrite world_same by (by rewrite (update_same _ _ _ _ Hroot)).
  - destruct t as [data|es].
    { exists (stdout w). simpl. unfold py_bind, py_get. rewrite Hroot.
      unfold py_ret.
      by rewrite world_same by (by rewrite (update_same _ _ _ _ Hroot)). }
    rewrite walk_tree_Dir. simpl.
    unfold py_bind at 1, py_get. rewrite Hroot. unfold py_bind at 1.
    destruct (compress_files_in_spec E root (dir_names es) (file_names es)
                w es counts Hroot) as [out1 ->].
    set (r1 := compress_entries E root (file_names es) es counts).
    apply wf_node_Dir_inv in Hwf as [Hnd Hall].
    rewrite height_Dir in Hh.
    match goal with |- context [py_for _ _ _ ?w1] =>
      destruct (walk_subdirs_spec k root IH es r1.1 r1.2 w1) as [out2 Hrest] end.
    { simpl. by rewrite (lookup_update _ _ _ _ Hroot). }
    { done. } { done. } { lia. }
    { intros n sub Hin. apply compress_entries_keeps_dirs.
      by apply assoc_NoDup. }
    exists out2. rewrite Hrest. simpl. rewrite update_update.
    by destruct r1.
Qed.

Lemma os_walk_spec (root : path) (w : world) (t : node) (counts : nat * nat) :
  lookup_path root (fs w) = Some t → wf_node t = true →
  ∃ out,
    os_walk root (compress_files_in E) counts w =
    (Ret (walk_tree E root t counts).2,
     World (update root (λ _, (walk_tree E root t counts).1) (fs w))
       (cwd w) out (spawned w) (chdirs w)).
Proof.
  intros Hroot Hwf. unfold os_walk, py_bind, py_get.
  apply walk_for_spec; [done..|].
  apply height_lookup in Hroot. lia.
Qed.

End Walk.

(** ** The paths of the packager *)

Lemma OUTPUT_DIR_parent (E : environment) :
  dirname (OUTPUT_DIR E) = join (project_dir E) "data".
Proof. unfold OUTPUT_DIR. by rewrite dirname_join. Qed.

(** The build directory and the output directory lie apart: neither is
    inside the other. *)
Lemma build_output_apart (E : environment) :
  ¬ BUILD_DIR E `prefix_of` OUTPUT_DIR E ∧ ¬ OUTPUT_DIR E `prefix_of` BUILD_DIR E.
Proof.
  unfold BUILD_DIR, FRONTEND_DIR, OUTPUT_DIR, join, dirname.
  destruct (decide (project_dir E = [])) as [->|Hne].
  - simpl. split; intros [k Hk]; simplify_eq/=.
  - destruct (exists_last Hne) as (q & x & ->).
    rewrite removelast_last, <- !app_assoc. simpl.
    split; intros H%prefix_app_inv.
    + destruct H as [k Hk]. simplify_eq/=.
    + apply prefix_length in H. simpl in H. lia.
Qed.

(** ** The steps of [process_frontend_files] *)

Lemma shutil_rmtree_in (root : path) (w : world) (es : entries) (n : string) :
  lookup_path root (fs w) = Some (Dir es) →
  shutil_rmtree (join root n) w =
  match assoc n es with
  | Some (Dir _) =>
      (Ret (), set_fs (update root (λ _, Dir (del_entry n es)) (fs w)) w)
  | _ => (Raise (OSError ("[Errno 20] Not a directory: '"
                            +:+ path_str (join root n) +:+ "'")), w)
  end.
Proof.
  intros Hroot.
  unfold shutil_rmtree, isdir_at. rewrite dirname_join, basename_join.
  rewrite lookup_path_join, Hroot.
  rewrite (modify_dir_at _ _ _ _ Hroot).
  by destruct (assoc n es) as [[|?]|].
Qed.

(** The cleaning loop unlinks every listed name, whatever it is. *)
Lemma clean_loop_spec (root : path) (items : list string) (w : world)
    (es : entries) :
  lookup_path root (fs w) = Some (Dir es) →
  py_for items
    (λ (_ : ()) item,
       let item_path := join root item in
       let* isf := os_path_isfile item_path in
       if isf then os_remove item_path else
       let* isd := os_path_isdir item_path in
       if isd then shutil_rmtree item_path else py_ret ())
    () w =
  (Ret (),
   set_fs (update root (λ _, Dir (foldl (λ es n, del_entry n es) es items)) (fs w)) w).
Proof.
  revert w es. induction items as [|item items IH]; intros w es Hroot; simpl.
  - unfold py_ret, set_fs. by rewrite world_same by (by rewrite (update_same _ _ _ _ Hroot)).
  - unfold py_bind at 1. unfold py_bind at 1.
    unfold os_path_isfile at 1, isfile_at. rewrite lookup_path_join, Hroot.
    assert (Hnext : ∀ w1 : world,
      w1 = set_fs (update root (λ _, Dir (del_entry item es)) (fs w)) w →
      py_for items
        (λ (_ : ()) item0,
           let* isf := os_path_isfile (join root item0) in
           if isf then os_remove (join root item0) else
           let* isd := os_path_isdir (join root item0) in
           if isd then shutil_rmtree (join root item0) else py_ret ()) () w1 =
      (Ret (), set_fs (update root
         (λ _, Dir (foldl (λ es n, del_entry n es) (del_entry item es) items)) (fs w)) w)).
    { intros w1 ->. rewrite (IH _ (del_entry item es)).
      - unfold set_fs. simpl. by rewrite update_update.
      - simpl. by rewrite (lookup_update _ _ _ _ Hroot). }
    destruct (assoc item es) as [[data|sub]|] eqn:Hitem.
    + rewrite (os_remove_in _ _ _ Hroot), Hitem. by apply Hnext.
    + unfold py_bind at 1. unfold os_path_isdir at 1, isdir_at.
      rewrite lookup_path_join, Hroot, Hitem.
      rewrite (shutil_rmtree_in _ _ _ _ Hroot), Hitem. by apply Hnext.
    + unfold py_bind at 1. unfold os_path_isdir at 1, isdir_at.
      rewrite lookup_path_join, Hroot, Hitem.
      unfold py_ret at 1. apply Hnext.
      rewrite (del_entry_absent _ _ Hitem). unfold set_fs.
      by rewrite world_same by (by rewrite (update_same _ _ _ _ Hroot)).
Qed.

Lemma os_makedirs_ok (d : path) (w : world) (t : node) :
  makedirs_node d (fs w) = Some t → os_makedirs d w = (Ret (), set_fs t w).
Proof. intros H. unfold os_makedirs. by rewrite H. Qed.

Lemma os_makedirs_dir (d : path) (w : world) :
  isdir_at d (fs w) = true → os_makedirs d w = (Ret (), w).
Proof.
  intros H. rewrite (os_makedirs_ok d w (fs w)) by by apply makedirs_node_dir.
  unfold set_fs. by rewrite world_same.
Qed.

(** Copying the build directory into the emptied output directory puts a
    copy of the build tree there. *)
Lemma shutil_copytree_spec (src dst : path) (w : world) (ses : entries) :
  lookup_path src (fs w) = Some (Dir ses) → wf_node (Dir ses) = true →
  lookup_path dst (fs w) = Some (Dir []) →
  shutil_copytree src dst w =
  (Ret (), set_fs (update dst (λ _, Dir ses) (fs w)) w).
Proof.
  intros Hsrc Hwf Hdst. unfold shutil_copytree. rewrite Hsrc.
  rewrite os_makedirs_dir by (apply isdir_at_Some; eauto).
  rewrite Hdst, copytree_node_fresh by done. done.
Qed.

(** The full run, when the build directory is a directory and the output
    directory can be made. *)
Lemma process_run (E : environment) (w : world) (bes : entries) (t0 : node) :
  lookup_path (BUILD_DIR E) (fs w) = Some (Dir bes) →
  wf_node (Dir bes) = true →
  makedirs_node (OUTPUT_DIR E) (fs w) = Some t0 →
  let r := walk_tree E (OUTPUT_DIR E) (Dir bes) (0, 0) in
  ∃ out,
    process_frontend_files E w =
    (Ret (bool_decide (r.2.2 = 0)),
     World (update (OUTPUT_DIR E) (λ _, r.1) t0) (cwd w)
       (out ++ [summary_line r.2]) (spawned w) (chdirs w)).
Proof.
  intros Hbuild Hwf Hmk r.
  destruct (build_output_apart E) as [Hbo Hob].
  pose proof (makedirs_node_isdir _ _ _ Hmk) as Hout.
  apply isdir_at_Some in Hout as [es0 Hout].
  pose proof (makedirs_node_other _ _ _ _ _ Hmk Hbuild Hbo) as Hbuild0.
  remember (process_frontend_files E w) as X eqn:HX.
  unfold process_frontend_files, mbind, Py_bind in HX.
  step_in HX with (print_ok _ _).
  step_in HX with (os_path_exists_ok _ _).
  rewrite ?fs_add_stdout in HX. unfold exists_at at 1 in HX. rewrite Hbuild in HX.
  change (negb true) with false in HX. cbv beta iota in HX.
  unfold try_except in HX.
  step_in HX with (os_makedirs_ok _ (add_stdout _ w) t0 Hmk).
  match type of HX with context [py_bind (os_listdir _) ?k ?s] =>
    assert (Hls : os_listdir (OUTPUT_DIR E) s = (Ret (map fst es0), s))
      by (unfold os_listdir; by rewrite fs_set_fs, Hout) end.
  step_in HX with Hls. clear Hls.
  match type of HX with context [py_bind (py_for _ _ _) ?k ?s] =>
    pose proof (clean_loop_spec (OUTPUT_DIR E) (map fst es0) s es0 Hout) as Hclean end.
  rewrite del_entry_all in Hclean by (intros e He; by apply list_elem_of_fmap_2).
  step_in HX with Hclean. clear Hclean.
  rewrite fs_set_fs in HX.
  assert (Hempty : lookup_path (OUTPUT_DIR E)
            (update (OUTPUT_DIR E) (λ _, Dir []) t0) = Some (Dir []))
    by by rewrite (lookup_update _ _ _ _ Hout).
  match type of HX with context [py_bind (os_makedirs _) ?k ?s] =>
    assert (Hmk2 : os_makedirs (dirname (OUTPUT_DIR E)) s = (Ret (), s)) end.
  { apply os_makedirs_dir. rewrite fs_set_fs.
    unfold OUTPUT_DIR in Hempty |- *. rewrite dirname_join.
    by eapply isdir_at_parent. }
  step_in HX with Hmk2. clear Hmk2.
  step_in HX with (print_ok _ _).
  match type of HX with context [py_bind (shutil_copytree _ _) ?k ?s] =>
    pose proof (shutil_copytree_spec (BUILD_DIR E) (OUTPUT_DIR E) s bes) as Hcopy end.
  rewrite fs_add_stdout, fs_set_fs in Hcopy.
  rewrite lookup_update_disjoint in Hcopy by done.
  specialize (Hcopy Hbuild0 Hwf Hempty). rewrite update_update in Hcopy.
  step_in HX with Hcopy. clear Hcopy.
  step_in HX with (print_ok _ _).
  match type of HX with context [py_bind (os_walk _ _ _) ?k ?s] =>
    destruct (os_walk_spec E (OUTPUT_DIR E) s (Dir bes) (0, 0)) as [out Hwalk] end.
  { rewrite fs_add_stdout, fs_set_fs. by rewrite (lookup_update _ _ _ _ Hout). }
  { done. }
  rewrite fs_add_stdout, fs_set_fs, update_update in Hwalk.
  step_in HX with Hwalk. clear Hwalk. fold r in HX.
  exists out. rewrite HX. unfold summary_line.
  destruct r.2 as [c e]. reflexivity.
Qed.

(** The run when the output directory cannot be made: nothing on disk
    changes. *)
Lemma process_run_no_output (E : environment) (w : world) :
  exists_at (BUILD_DIR E) (fs w) = true →
  makedirs_node (OUTPUT_DIR E) (fs w) = None →
  ∃ out, process_frontend_files E w = (Ret false, set_stdout out w).
Proof.
  intros Hbuild Hmk.
  remember (process_frontend_files E w) as X eqn:HX.
  unfold process_frontend_files, mbind, Py_bind in HX.
  step_in HX with (print_ok _ _).
  step_in HX with (os_path_exists_ok _ _).
  rewrite ?fs_add_stdout in HX. rewrite Hbuild in HX.
  change (negb true) with false in HX. cbv beta iota in HX.
  unfold try_except in HX.
  match type of HX with context [py_bind (os_makedirs ?d) ?k ?s] =>
    assert (Hfail : ∃ msg, os_makedirs d s = (Raise (OSError msg), s))
      by (unfold os_makedirs; rewrite fs_add_stdout, Hmk; eauto);
    destruct Hfail as [e Hfail];
    rewrite (py_bind_raise _ k s _ _ Hfail) in HX end.
  eexists. rewrite HX. reflexivity.
Qed.

(** The run when the build path is a regular file: the output directory is
    emptied and the copy fails. *)
Lemma process_run_build_file (E : environment) (w : world) (data : list byte)
    (t0 : node) :
  lookup_path (BUILD_DIR E) (fs w) = Some (File data) →
  makedirs_node (OUTPUT_DIR E) (fs w) = Some t0 →
  ∃ out,
    process_frontend_files E w =
    (Ret false,
     World (update (OUTPUT_DIR E) (λ _, Dir []) t0) (cwd w) out
       (spawned w) (chdirs w)).
Proof.
  intros Hbuild Hmk.
  destruct (build_output_apart E) as [Hbo Hob].
  pose proof (makedirs_node_isdir _ _ _ Hmk) as Hout.
  apply isdir_at_Some in Hout as [es0 Hout].
  pose proof (makedirs_node_other _ _ _ _ _ Hmk Hbuild Hbo) as Hbuild0.
  remember (process_frontend_files E w) as X eqn:HX.
  unfold process_frontend_files, mbind, Py_bind in HX.
  step_in HX with (print_ok _ _).
  step_in HX with (os_path_exists_ok _ _).
  rewrite ?fs_add_stdout in HX. unfold exists_at at 1 in HX. rewrite Hbuild in HX.
  change (negb true) with false in HX. cbv beta iota in HX.
  unfold try_except in HX.
  step_in HX with (os_makedirs_ok _ (add_stdout _ w) t0 Hmk).
  match type of HX with context [py_bind (os_listdir _) ?k ?s] =>
    assert (Hls : os_listdir (OUTPUT_DIR E) s = (Ret (map fst es0), s))
      by (unfold os_listdir; by rewrite fs_set_fs, Hout) end.
  step_in HX with Hls. clear Hls.
  match type of HX with context [py_bind (py_for _ _ _) ?k ?s] =>
    pose proof (clean_loop_spec (OUTPUT_DIR E) (map fst es0) s es0 Hout) as Hclean end.
  rewrite del_entry_all in Hclean by (intros e He; by apply list_elem_of_fmap_2).
  step_in HX with Hclean. clear Hclean.
  rewrite fs_set_fs in HX.
  assert (Hempty : lookup_path (OUTPUT_DIR E)
            (update (OUTPUT_DIR E) (λ _, Dir []) t0) = Some (Dir []))
    by by rewrite (lookup_update _ _ _ _ Hout).
  match type of HX with context [py_bind (os_makedirs _) ?k ?s] =>
    assert (Hmk2 : os_makedirs (dirname (OUTPUT_DIR E)) s = (Ret (), s)) end.
  { apply os_makedirs_dir. rewrite fs_set_fs.
    unfold OUTPUT_DIR in Hempty |- *. rewrite dirname_join.
    by eapply isdir_at_parent. }
  step_in HX with Hmk2. clear Hmk2.
  step_in HX with (print_ok _ _).
  match type of HX with context [py_bind (shutil_copytree ?a ?b) ?k ?s] =>
    assert (Hfail : ∃ msg, shutil_copytree a b s = (Raise (OSError msg), s));
    [|destruct Hfail as [e Hfail];
      rewrite (py_bind_raise _ k s _ _ Hfail) in HX] end.
  { unfold shutil_copytree. rewrite fs_add_stdout, fs_set_fs.
    rewrite lookup_update_disjoint by done. rewrite Hbuild0. eauto. }
  eexists. rewrite HX. reflexivity.
Qed.

(** The run when there is no build directory. *)
Lemma process_run_no_build (E : environment) (w : world) :
  exists_at (BUILD_DIR E) (fs w) = false →
  process_frontend_files E w =
    (Ret false,
     set_stdout
       (stdout w ++
        ["Processing frontend files from " +:+ path_str (BUILD_DIR E);
         "ERROR: Build directory " +:+ path_str (BUILD_DIR E) +:+ " not found"])
       w).
Proof.
  intros Hbuild.
  remember (process_frontend_files E w) as X eqn:HX.
  unfold process_frontend_files, mbind, Py_bind in HX.
  step_in HX with (print_ok _ _).
  step_in HX with (os_path_exists_ok _ _).
  rewrite ?fs_add_stdout in HX. rewrite Hbuild in HX.
  change (negb false) with true in HX. cbv beta iota in HX.
  step_in HX with (print_ok _ _).
  rewrite HX. unfold py_ret, add_stdout, set_stdout. simpl.
  by rewrite <- app_assoc.
Qed.

(** C4, amended.  With no directory at the build path,
    [process_frontend_files] returns [False].  When nothing at all is at
    that path it does so after printing two lines and nothing else: the
    filesystem, and with it whatever the output directory held, is the one
    it was called with.  When the path is there without being a directory,
    the existence check lets the run through: if the output directory can
    be made it is emptied before the copy fails, and what it held is lost;
    if it cannot be made the filesystem is unchanged. *)
Theorem process_without_build_dir (E : environment) (w : world) :
  isdir_at (BUILD_DIR E) (fs w) = false →
  let r := process_frontend_files E w in
  r.1 = Ret false ∧
  (exists_at (BUILD_DIR E) (fs w) = false →
   r.2 =
     set_stdout
       (stdout w ++
        ["Processing frontend files from " +:+ path_str (BUILD_DIR E);
         "ERROR: Build directory " +:+ path_str (BUILD_DIR E) +:+ " not found"])
       w) ∧
  (exists_at (BUILD_DIR E) (fs w) = true →
   match makedirs_node (OUTPUT_DIR E) (fs w) with
   | Some _ => lookup_path (OUTPUT_DIR E) (fs r.2) = Some (Dir [])
   | None => fs r.2 = fs w
   end).
Proof.
  intros Hdir r. subst r.
  destruct (exists_at (BUILD_DIR E) (fs w)) eqn:Hex.
  2:{ rewrite (process_run_no_build E w Hex). by repeat split. }
  pose proof Hex as Hex'. unfold exists_at in Hex'. unfold isdir_at in Hdir.
  destruct (lookup_path (BUILD_DIR E) (fs w)) as [[data|?]|] eqn:Hb; try done.
  destruct (makedirs_node (OUTPUT_DIR E) (fs w)) as [t0|] eqn:Hmk.
  - destruct (process_run_build_file E w data t0 Hb Hmk) as [out ->].
    cbn [fst snd fs]. split; [done|]. split; [done|]. intros _.
    pose proof (makedirs_node_isdir _ _ _ Hmk) as [es Ho]%isdir_at_Some.
    by rewrite (lookup_update _ _ _ _ Ho).
  - destruct (process_run_no_output E w Hex Hmk) as [out ->].
    by repeat split.
Qed.

Lemma process_without_build_dir_witness :
  process_frontend_files Sample.E0 Sample.w_bare =
    (Ret false,
     set_stdout
       ["Processing frontend files from /Modular_Macropad_Front_End_v2/build";
        "ERROR: Build directory /Modular_Macropad_Front_End_v2/build not found"]
       Sample.w_bare).
Proof.
  destruct (process_without_build_dir Sample.E0 Sample.w_bare) as (H1 & H2 & _).
  - reflexivity.
  - rewrite (surjective_pairing (process_frontend_files _ _)).
    rewrite H1, H2; reflexivity.
Defined.

(** C4 as stated fails.  On this disk the build path is a regular file, so
    there is no build directory.  [os.path.exists] is true of it all the
    same: the run goes on, the output directory is emptied of the file it
    held, the copy then fails and the function returns [False]. *)
Lemma process_empties_output_without_build_dir :
  isdir_at (BuildSveltekit.BUILD_DIR Sample.E0)
    (BuildSveltekit.fs Sample.w_build_file) = false ∧
  (process_frontend_files Sample.E0 Sample.w_build_file).1 = Ret false ∧
  lookup_path ["fw"; "data"; "web"] (fs Sample.w_build_file) =
    Some (Dir [("stale.txt", File [x6f])]) ∧
  lookup_path ["fw"; "data"; "web"]
    (fs (process_frontend_files Sample.E0 Sample.w_build_file).2) =
    Some (Dir []).
Proof. by vm_compute. Qed.

(** C7 as stated fails.  On the sample disk without a build directory the
    function returns [False], yet its whole output is the two lines about the
    missing directory: no file failed to compress, none was even tried. *)
Lemma process_fails_without_compress_error :
  let r := process_frontend_files Sample.E0 Sample.w_bare in
  ¬ (r.1 = Ret false ↔ ∃ line, line ∈ stdout r.2 ∧ compress_error_line line).
Proof.
  intros r [Honly _].
  destruct Honly as (line & Hin & rest & Hline); [done|].
  subst r. vm_compute in Hin.
  repeat (apply elem_of_cons in Hin as [->|Hin]; [discriminate Hline|]).
  by apply elem_of_nil in Hin.
Qed.

(** The same happens with the build directory in place, when the output
    directory cannot be made because [data] is a regular file: the function
    returns [False] from its handler, before any file is compressed. *)
Example process_fails_on_blocked_output :
  let blocked :=
    Dir [("Modular_Macropad_Front_End_v2", Sample.frontend);
         ("fw", Dir [("data", File [])])] in
  let w := World blocked ["fw"] [] [] [] in
  let r := process_frontend_files Sample.E0 w in
  isdir_at (BUILD_DIR Sample.E0) blocked = true ∧
  r.1 = Ret false ∧
  fs r.2 = blocked ∧
  ∃ msg,
    stdout r.2 =
      ["Processing frontend files from /Modular_Macropad_Front_End_v2/build";
       "Error processing frontend files: " +:+ msg].
Proof. vm_compute. eauto. Qed.

(** ** Two environments with the same faults *)

Section SameFaults.
Context (E1 E2 : environment).
Hypothesis Hfaults : ∀ p, fault_at E2 p = fault_at E1 p.

Lemma is_dir_entry_shape (o : option node) :
  is_dir_entry (shape <$> o) = is_dir_entry o.
Proof. by destruct o as [[|?]|]. Qed.

Lemma compress_entry_shape (root : path) (file : string) (es1 es2 : entries) :
  shape_entries es2 = shape_entries es1 →
  shape_entries (compress_entry E2 root file es2).1 =
    shape_entries (compress_entry E1 root file es1).1 ∧
  (compress_entry E2 root file es2).2 = (compress_entry E1 root file es1).2.
Proof.
  intros Hs.
  assert (Hfile : shape <$> assoc file es2 = shape <$> assoc file es1)
    by (by rewrite <- !assoc_shape, Hs).
  assert (Hgz : is_dir_entry (assoc (file +:+ ".gz") es2) =
                is_dir_entry (assoc (file +:+ ".gz") es1)).
  { rewrite <- (is_dir_entry_shape (assoc _ es2)),
      <- (is_dir_entry_shape (assoc _ es1)), <- !assoc_shape. by rewrite Hs. }
  unfold compress_entry. rewrite Hfaults, Hgz.
  destruct (assoc file es1) as [[d1|?]|], (assoc file es2) as [[d2|?]|];
    try done.
  destruct (fault_at E1 (join root file)); try done;
    destruct (is_dir_entry (assoc (file +:+ ".gz") es1)); try done; simpl;
    rewrite ?shape_del_entry, ?shape_set_entry, ?Hs; done.
Qed.

Lemma compress_entries_shape (root : path) (files : list string)
    (es1 es2 : entries) (counts : nat * nat) :
  shape_entries es2 = shape_entries es1 →
  shape_entries (compress_entries E2 root files es2 counts).1 =
    shape_entries (compress_entries E1 root files es1 counts).1 ∧
  (compress_entries E2 root files es2 counts).2 =
    (compress_entries E1 root files es1 counts).2.
Proof.
  revert es1 es2 counts.
  induction files as [|file rest IH]; intros es1 es2 counts Hs; simpl; [done|].
  destruct (ends_with ".gz" file); [by apply IH|].
  destruct (compress_entry_shape root file es1 es2 Hs) as [Hs' ->].
  by apply IH.
Qed.

Lemma walk_tree_shape (t : node) :
  ∀ root counts,
    shape (walk_tree E2 root t counts).1 = shape (walk_tree E1 root t counts).1 ∧
    (walk_tree E2 root t counts).2 = (walk_tree E1 root t counts).2.
Proof.
  induction t as [data|es IH] using node_ind'; intros root counts; [done|].
  rewrite !walk_tree_Dir. cbv zeta. cbn [fst snd]. rewrite !shape_Dir.
  destruct (compress_entries_shape root (file_names es) es es counts eq_refl)
    as [Hs Hc].
  revert Hs Hc.
  generalize (compress_entries E1 root (file_names es) es counts).
  generalize (compress_entries E2 root (file_names es) es counts).
  clear counts. intros acc2 acc1.
  assert (Hloop : ∀ acc1 acc2,
    shape_entries acc2.1 = shape_entries acc1.1 → acc2.2 = acc1.2 →
    shape_entries (walk_subdirs E2 root es acc2).1 =
      shape_entries (walk_subdirs E1 root es acc1).1 ∧
    (walk_subdirs E2 root es acc2).2 = (walk_subdirs E1 root es acc1).2).
  { clear acc1 acc2.
    induction es as [|[n c] es IHes]; intros acc1 acc2 Hs Hc; [done|].
    apply Forall_cons in IH as [Hn IH]. cbv beta in Hn. simpl snd in Hn.
    destruct c as [data|sub].
    { rewrite !walk_subdirs_file. by apply IHes. }
    rewrite !walk_subdirs_dir.
    destruct (Hn (join root n) acc1.2) as [Hs' Hc'].
    apply IHes; [done| |]; cbn [fst snd]; rewrite Hc.
    - by rewrite !shape_map_entry, Hs, Hs'.
    - done. }
  intros Hs Hc. destruct (Hloop acc1 acc2 Hs Hc) as [-> ->]. done.
Qed.

End SameFaults.

Lemma same_project_paths (E1 E2 : environment) :
  project_dir E2 = project_dir E1 →
  BUILD_DIR E2 = BUILD_DIR E1 ∧ OUTPUT_DIR E2 = OUTPUT_DIR E1.
Proof.
  intros H. unfold BUILD_DIR, FRONTEND_DIR, OUTPUT_DIR. by rewrite H.
Qed.

Lemma exists_at_lookup (p : path) (t : node) :
  exists_at p t = match lookup_path p t with Some _ => true | None => false end.
Proof. done. Qed.

(** C8.  Two runs of [process_frontend_files] in succession, the second in
    the state the first one left, for the same project and with the same I/O
    faults (the clock, and so the compressed bytes, may differ): the second
    run returns what the first returned, and the files found under the output
    directory after it have the same names, at the same places, as after the
    first.  The first run leaves the build tree as it was. *)
Theorem process_twice_same_names (E1 E2 : environment) (w : world) :
  project_dir E2 = project_dir E1 →
  (∀ p, fault_at E2 p = fault_at E1 p) →
  (∀ bes, lookup_path (BUILD_DIR E1) (fs w) = Some (Dir bes) →
          wf_node (Dir bes) = true) →
  let r1 := process_frontend_files E1 w in
  let r2 := process_frontend_files E2 r1.2 in
  r2.1 = r1.1 ∧
  files_of <$> lookup_path (OUTPUT_DIR E1) (fs r2.2) =
    files_of <$> lookup_path (OUTPUT_DIR E1) (fs r1.2) ∧
  lookup_path (BUILD_DIR E1) (fs r1.2) = lookup_path (BUILD_DIR E1) (fs w).
Proof.
  intros Hpd Hfaults Hwf r1 r2. subst r1 r2.
  destruct (same_project_paths E1 E2 Hpd) as [HB HO].
  destruct (build_output_apart E1) as [Hbo Hob].
  destruct (lookup_path (BUILD_DIR E1) (fs w)) as [[data|bes]|] eqn:Hbuild.
  - (* the build path is a regular file *)
    destruct (makedirs_node (OUTPUT_DIR E1) (fs w)) as [t0|] eqn:Hmk.
    + destruct (process_run_build_file E1 w data t0 Hbuild Hmk) as [out1 ->].
      cbn [fst snd].
      pose proof (makedirs_node_isdir _ _ _ Hmk) as Hout.
      apply isdir_at_Some in Hout as [es0 Hout].
      pose proof (makedirs_node_other _ _ _ _ _ Hmk Hbuild Hbo) as Hbuild0.
      set (w1 := World _ _ _ _ _).
      assert (Hout1 : lookup_path (OUTPUT_DIR E1) (fs w1) = Some (Dir []))
        by (subst w1; simpl; by rewrite (lookup_update _ _ _ _ Hout)).
      assert (Hbuild1 : lookup_path (BUILD_DIR E1) (fs w1) = Some (File data))
        by (subst w1; simpl; by rewrite lookup_update_disjoint).
      destruct (process_run_build_file E2 w1 data (fs w1)) as [out2 ->].
      { by rewrite HB. }
      { rewrite HO. apply makedirs_node_dir. apply isdir_at_Some. eauto. }
      cbn [fst snd fs]. rewrite HO, Hout1, Hbuild1.
      by rewrite (lookup_update _ _ _ _ Hout1).
    + destruct (process_run_no_output E1 w) as [out1 ->];
        [by rewrite exists_at_lookup, Hbuild|done|].
      cbn [fst snd].
      destruct (process_run_no_output E2 (set_stdout out1 w)) as [out2 ->].
      { by rewrite HB, fs_set_stdout, exists_at_lookup, Hbuild. }
      { by rewrite HO, fs_set_stdout. }
      cbn [fst snd]. by rewrite !fs_set_stdout.
  - (* the build path is a directory *)
    specialize (Hwf bes eq_refl).
    destruct (makedirs_node (OUTPUT_DIR E1) (fs w)) as [t0|] eqn:Hmk.
    + destruct (process_run E1 w bes t0 Hbuild Hwf Hmk) as [out1 ->].
      cbn [fst snd].
      pose proof (makedirs_node_isdir _ _ _ Hmk) as Hout.
      apply isdir_at_Some in Hout as [es0 Hout].
      pose proof (makedirs_node_other _ _ _ _ _ Hmk Hbuild Hbo) as Hbuild0.
      set (T1 := walk_tree E1 (OUTPUT_DIR E1) (Dir bes) (0, 0)).
      set (w1 := World _ _ _ _ _).
      assert (Hout1 : lookup_path (OUTPUT_DIR E1) (fs w1) = Some T1.1)
        by (subst w1; simpl; by rewrite (lookup_update _ _ _ _ Hout)).
      assert (Hbuild1 : lookup_path (BUILD_DIR E1) (fs w1) = Some (Dir bes))
        by (subst w1; simpl; by rewrite lookup_update_disjoint).
      destruct (process_run E2 w1 bes (fs w1)) as [out2 ->].
      { by rewrite HB. }
      { done. }
      { rewrite HO. apply makedirs_node_dir. apply isdir_at_Some.
        rewrite Hout1. subst T1. rewrite walk_tree_Dir. eauto. }
      cbn [fst snd fs]. rewrite HO, Hout1, Hbuild1.
      rewrite (lookup_update _ _ _ _ Hout1).
      destruct (walk_tree_shape E1 E2 Hfaults (Dir bes) (OUTPUT_DIR E1) (0, 0))
        as [Hshape Hcounts].
      fold T1 in Hshape, Hcounts. rewrite Hcounts. split; [done|].
      split; [|done]. unfold fmap, option_fmap, option_map. f_equal.
      by rewrite <- files_of_shape, Hshape, files_of_shape.
    + destruct (process_run_no_output E1 w) as [out1 ->];
        [by rewrite exists_at_lookup, Hbuild|done|].
      cbn [fst snd].
      destruct (process_run_no_output E2 (set_stdout out1 w)) as [out2 ->].
      { by rewrite HB, fs_set_stdout, exists_at_lookup, Hbuild. }
      { by rewrite HO, fs_set_stdout. }
      cbn [fst snd]. by rewrite !fs_set_stdout.
  - (* there is no build directory *)
    rewrite (process_run_no_build E1 w)
      by by rewrite exists_at_lookup, Hbuild.
    cbn [fst snd].
    rewrite (process_run_no_build E2)
      by by rewrite HB, fs_set_stdout, exists_at_lookup, Hbuild.
    cbn [fst snd]. by rewrite !fs_set_stdout.
Qed.

Lemma process_twice_same_names_witness :
  let r1 := process_frontend_files Sample.E0 Sample.w0 in
  let r2 := process_frontend_files Sample.E1 r1.2 in
  r2.1 = r1.1 ∧
  files_of <$> lookup_path ["fw"; "data"; "web"] (fs r2.2) =
    files_of <$> lookup_path ["fw"; "data"; "web"] (fs r1.2) ∧
  lookup_path ["Modular_Macropad_Front_End_v2"; "build"] (fs r1.2) =
    lookup_path ["Modular_Macropad_Front_End_v2"; "build"] Sample.disk.
Proof.
  apply (process_twice_same_names Sample.E0 Sample.E1 Sample.w0).
  - reflexivity.
  - reflexivity.
  - intros bes [= <-]. reflexivity.
Defined.

(** ** Counting what the walk compresses *)

Lemma tally_nil (P : path → bool) (counts : nat * nat) : tally P [] counts = counts.
Proof. destruct counts as [c e]. unfold tally. simpl. f_equal; lia. Qed.

Lemma tally_cons (P : path → bool) (p : path) (l : list path) (counts : nat * nat) :
  tally P (p :: l) counts =
  tally P l (if P p then (counts.1, counts.2 + 1) else (counts.1 + 1, counts.2)).
Proof.
  destruct counts as [c e]. unfold tally. rewrite !filter_cons.
  destruct (P p); simpl; f_equal; lia.
Qed.

Lemma tally_app (P : path → bool) (l1 l2 : list path) (counts : nat * nat) :
  tally P (l1 ++ l2) counts = tally P l2 (tally P l1 counts).
Proof.
  revert counts. induction l1 as [|p l1 IH]; intros counts; simpl.
  - by rewrite tally_nil.
  - by rewrite !tally_cons, IH.
Qed.

Lemma tally_ext (P Q : path → bool) (l : list path) (counts : nat * nat) :
  (∀ p, p ∈ l → P p = Q p) → tally P l counts = tally Q l counts.
Proof.
  revert counts. induction l as [|p l IH]; intros counts H.
  - by rewrite !tally_nil.
  - rewrite !tally_cons, (H p) by apply list_elem_of_here.
    apply IH. intros q Hq. apply H. by apply list_elem_of_further.
Qed.

Lemma tally_map_cons (P : path → bool) (n : string) (l : list path)
    (counts : nat * nat) :
  tally P (map (cons n) l) counts = tally (λ p, P (n :: p)) l counts.
Proof.
  revert counts. induction l as [|p l IH]; intros counts; simpl.
  - by rewrite !tally_nil.
  - by rewrite !tally_cons, IH.
Qed.

Lemma to_compress_Dir (es : entries) :
  to_compress (Dir es) =
  map (λ n, [n]) (filter (λ n, ends_with ".gz" n = false) (file_names es)) ++
  filter (λ p, ends_with ".gz" (basename p) = false) (files_subdirs es).
Proof.
  unfold to_compress. rewrite files_of_Dir, filter_app. f_equal.
  induction (file_names es) as [|n l IH]; [done|].
  simpl. rewrite !filter_cons. simpl.
  change (basename [n]) with n.
  destruct (decide (ends_with ".gz" n = false)); simpl; by rewrite IH.
Qed.

Lemma filter_map_cons_nonempty (n : string) (l : list path) :
  (∀ p, p ∈ l → p ≠ []) →
  filter (λ p, ends_with ".gz" (basename p) = false) (map (cons n) l) =
  map (cons n) (filter (λ p, ends_with ".gz" (basename p) = false) l).
Proof.
  induction l as [|p l IH]; intros Hne; [done|].
  cbn [map]. rewrite !filter_cons.
  rewrite basename_cons by apply Hne, list_elem_of_here.
  specialize (IH (λ q Hq, Hne q (list_elem_of_further _ _ _ Hq))).
  destruct (decide (ends_with ".gz" (basename p) = false)); cbn [map];
    by rewrite <- IH.
Qed.

Section Tally.
Variable E : environment.

Lemma compress_entry_result (root : path) (file : string) (es : entries)
    (data : list byte) :
  assoc file es = Some (File data) →
  (compress_entry E root file es).2 =
  negb (match fault_at E (join root file) with
        | NoFault => is_dir_entry (assoc (file +:+ ".gz") es)
        | _ => true
        end).
Proof.
  intros Hfile. unfold compress_entry. rewrite Hfile.
  destruct (fault_at E (join root file)); try done;
    by destruct (is_dir_entry (assoc (file +:+ ".gz") es)).
Qed.

Lemma compress_entry_is_dir (root : path) (file m : string) (es : entries) :
  is_dir_entry (assoc m (compress_entry E root file es).1) =
  is_dir_entry (assoc m es).
Proof.
  unfold compress_entry.
  destruct (assoc file es) as [[data|?]|] eqn:Hfile; try done.
  destruct (fault_at E (join root file)); try done;
    destruct (is_dir_entry (assoc (file +:+ ".gz") es)) eqn:Hgz; try done; simpl;
    rewrite ?assoc_del_entry, ?assoc_set_entry;
    repeat (match goal with
            | |- context [decide ?P] => destruct (decide P) as [->|]
            end); rewrite ?Hfile, ?Hgz; done.
Qed.

Lemma compress_entry_other (root : path) (file g : string) (es : entries) :
  g ≠ file → g ≠ file +:+ ".gz" →
  assoc g (compress_entry E root file es).1 = assoc g es.
Proof.
  intros Hgf Hgz. unfold compress_entry.
  destruct (assoc file es) as [[data|?]|]; try done.
  destruct (fault_at E (join root file)); try done;
    destruct (is_dir_entry (assoc (file +:+ ".gz") es)); try done; simpl;
    by rewrite ?assoc_del_entry, ?assoc_set_entry, ?decide_False.
Qed.

Lemma isdir_at_singleton (n : string) (es : entries) :
  isdir_at [n] (Dir es) = is_dir_entry (assoc n es).
Proof. unfold isdir_at, lookup_path. by destruct (assoc n es) as [[|?]|]. Qed.

(** The counters after the files of one directory: a file counts as failed
    exactly when [compress_fails] says so. *)
Lemma compress_entries_tally (root : path) (es0 : entries) (files : list string) :
  ∀ (es : entries) (counts : nat * nat),
    NoDup files →
    (∀ f, f ∈ files → ends_with ".gz" f = false →
          ∃ data, assoc f es = Some (File data)) →
    (∀ m, is_dir_entry (assoc m es) = is_dir_entry (assoc m es0)) →
    (compress_entries E root files es counts).2 =
    tally (compress_fails E root (Dir es0))
      (map (λ n, [n]) (filter (λ n, ends_with ".gz" n = false) files)) counts.
Proof.
  induction files as [|file rest IH]; intros es counts Hnd Hfiles Hdirs.
  - by rewrite tally_nil.
  - apply NoDup_cons in Hnd as [Hfile Hnd]. simpl. rewrite filter_cons.
    destruct (ends_with ".gz" file) eqn:Hgz.
    + rewrite decide_False by done. apply IH; [done| |done].
      intros f Hf. apply Hfiles. by apply list_elem_of_further.
    + rewrite decide_True by done. simpl. rewrite tally_cons.
      destruct (Hfiles file (list_elem_of_here _ _) Hgz) as [data Hdata].
      rewrite (IH (compress_entry E root file es).1).
      * f_equal. rewrite (compress_entry_result _ _ _ _ Hdata).
        unfold compress_fails. rewrite add_suffix_singleton, isdir_at_singleton.
        change (root ++ [file]) with (join root file).
        rewrite Hdirs.
        destruct (fault_at E (join root file)); try done.
        by destruct (is_dir_entry (assoc (file +:+ ".gz") es0)).
      * done.
      * intros f Hf Hfgz. rewrite compress_entry_other.
        -- apply Hfiles; [by apply list_elem_of_further|done].
        -- intros ->. done.
        -- intros ->. by rewrite ends_with_app in Hfgz.
      * intros m. by rewrite compress_entry_is_dir.
Qed.

Lemma compress_fails_cons (root : path) (n : string) (es sub : entries)
    (p : path) :
  assoc n es = Some (Dir sub) → p ≠ [] →
  compress_fails E root (Dir es) (n :: p) =
  compress_fails E (join root n) (Dir sub) p.
Proof.
  intros Hn Hp. unfold compress_fails, join.
  rewrite <- app_assoc. simpl. rewrite add_suffix_cons by done.
  unfold isdir_at. by rewrite lookup_path_cons, Hn.
Qed.

Lemma walk_subdirs_tally (root : path) (es0 l : entries) :
  Forall (λ e, ∀ es root counts,
            e.2 = Dir es → wf_node e.2 = true →
            (walk_tree E root e.2 counts).2 =
            tally (compress_fails E root e.2) (to_compress e.2) counts) l →
  all_wf l = true →
  (∀ n sub, (n, Dir sub) ∈ l → assoc n es0 = Some (Dir sub)) →
  ∀ acc,
    (walk_subdirs E root l acc).2 =
    tally (compress_fails E root (Dir es0))
      (filter (λ p, ends_with ".gz" (basename p) = false) (files_subdirs l))
      acc.2.
Proof.
  induction l as [|[n c] l IHl]; intros IH Hwf Hsub acc.
  - by rewrite tally_nil.
  - apply Forall_cons in IH as [Hc IH]. cbv beta in Hc. simpl snd in Hc.
    simpl in Hwf. apply andb_true_iff in Hwf as [Hwfc Hwf].
    assert (Hsub' : ∀ m sub, (m, Dir sub) ∈ l → assoc m es0 = Some (Dir sub))
      by (intros; apply Hsub; by apply list_elem_of_further).
    destruct c as [data|sub].
    + rewrite walk_subdirs_file, files_subdirs_file. by apply IHl.
    + rewrite walk_subdirs_dir, files_subdirs_dir, filter_app, tally_app.
      rewrite IHl by done. cbn [fst snd]. f_equal.
      rewrite (Hc sub) by done.
      rewrite filter_map_cons_nonempty by apply files_of_dir_nonempty.
      rewrite tally_map_cons. apply tally_ext.
      intros p [_ Hp]%list_elem_of_filter.
      symmetry. apply compress_fails_cons.
      * apply Hsub, list_elem_of_here.
      * by eapply files_of_dir_nonempty.
Qed.

(** The counters after the walk of a directory tree. *)
Lemma walk_tree_tally (t : node) :
  ∀ es root counts,
    t = Dir es → wf_node t = true →
    (walk_tree E root t counts).2 =
    tally (compress_fails E root t) (to_compress t) counts.
Proof.
  induction t as [data|es0 IH] using node_ind'; [done|].
  intros es root counts [= <-] Hwf.
  apply wf_node_Dir_inv in Hwf as [Hnd Hall].
  rewrite walk_tree_Dir, to_compress_Dir, tally_app. cbv zeta. cbn [fst snd].
  rewrite (walk_subdirs_tally root es0 es0) by
    (try done; intros; by apply assoc_NoDup).
  f_equal. apply compress_entries_tally.
  - by apply NoDup_file_names.
  - intros f [data Hf]%elem_of_file_names _. exists data. by apply assoc_NoDup.
  - done.
Qed.

End Tally.

(** ** What the run reports *)

(** The full run with its counts spelled out. *)
Lemma process_run_counts (E : environment) (w : world) (bes : entries)
    (t0 : node) :
  lookup_path (BUILD_DIR E) (fs w) = Some (Dir bes) →
  wf_node (Dir bes) = true →
  makedirs_node (OUTPUT_DIR E) (fs w) = Some t0 →
  let fails := compress_fails E (OUTPUT_DIR E) (Dir bes) in
  let failed := filter (λ p, fails p = true) (to_compress (Dir bes)) in
  let compressed := filter (λ p, fails p = false) (to_compress (Dir bes)) in
  ∃ out,
    process_frontend_files E w =
    (Ret (bool_decide (failed = [])),
     World
       (update (OUTPUT_DIR E)
          (λ _, (walk_tree E (OUTPUT_DIR E) (Dir bes) (0, 0)).1) t0)
       (cwd w) (out ++ [summary_line (length compressed, length failed)])
       (spawned w) (chdirs w)).
Proof.
  intros Hbuild Hwf Hmk fails failed compressed.
  destruct (process_run E w bes t0 Hbuild Hwf Hmk) as [out Hrun].
  rewrite (walk_tree_tally E (Dir bes) bes) in Hrun by done.
  unfold tally in Hrun. cbn [fst snd] in Hrun. rewrite !Nat.add_0_l in Hrun.
  fold fails in Hrun. fold failed in Hrun. fold compressed in Hrun.
  assert (Hzero : bool_decide (length failed = 0) = bool_decide (failed = [])).
  { apply bool_decide_ext. split; [by destruct failed|by intros ->]. }
  rewrite Hzero in Hrun. eauto.
Qed.

(** C7, amended.  When the build directory is a directory and the output
    directory can be made, the run reaches the walk and then: it returns
    [False] exactly when compressing at least one of the files not yet named
    [*.gz] fails; every such file is attempted, each counted either as
    compressed or as failed; and the last line printed reports the two
    counts. *)
Theorem process_fails_iff_compress_fails (E : environment) (w : world)
    (bes : entries) :
  lookup_path (BUILD_DIR E) (fs w) = Some (Dir bes) →
  wf_node (Dir bes) = true →
  is_Some (makedirs_node (OUTPUT_DIR E) (fs w)) →
  let fails := compress_fails E (OUTPUT_DIR E) (Dir bes) in
  let failed := filter (λ p, fails p = true) (to_compress (Dir bes)) in
  let compressed := filter (λ p, fails p = false) (to_compress (Dir bes)) in
  let r := process_frontend_files E w in
  r.1 = Ret (bool_decide (failed = [])) ∧
  (r.1 = Ret false ↔ ∃ p, p ∈ to_compress (Dir bes) ∧ fails p = true) ∧
  last (stdout r.2) = Some (summary_line (length compressed, length failed)) ∧
  length compressed + length failed = length (to_compress (Dir bes)).
Proof.
  intros Hbuild Hwf [t0 Hmk] fails failed compressed r.
  destruct (process_run_counts E w bes t0 Hbuild Hwf Hmk) as [out Hrun].
  fold fails in Hrun. fold failed in Hrun. fold compressed in Hrun.
  subst r. rewrite Hrun. cbn [fst snd stdout].
  split; [done|]. split; [|split].
  - split.
    + intros [= Hb]. apply bool_decide_eq_false in Hb.
      destruct failed as [|p l] eqn:Hf; [done|].
      assert (Hp : p ∈ failed) by (rewrite Hf; apply list_elem_of_here).
      apply list_elem_of_filter in Hp as [? ?]. eauto.
    + intros (p & Hp & Hfail). f_equal. apply bool_decide_eq_false.
      intros Hnil.
      assert (Hin : p ∈ failed) by by apply list_elem_of_filter.
      rewrite Hnil in Hin. by apply elem_of_nil in Hin.
  - by rewrite last_snoc.
  - subst failed compressed. clear.
    induction (to_compress (Dir bes)) as [|p l IH]; [done|].
    rewrite !filter_cons. destruct (fails p); simpl; lia.
Qed.

Lemma process_fails_iff_compress_fails_witness :
  let r := process_frontend_files Sample.E_fault Sample.w0 in
  r.1 = Ret false ∧
  last (stdout r.2) =
    Some "Frontend files processed. Compressed 2 files with 1 errors.".
Proof.
  destruct (process_fails_iff_compress_fails Sample.E_fault Sample.w0
              [("index.html", File [x3c; x68; x3e]);
               ("_app", Dir [("app.js", File [x61; x3b]); ("app.css", File [x62])])])
    as (Hret & _ & Hlast & _).
  - reflexivity.
  - reflexivity.
  - eexists. reflexivity.
  - split; [exact Hret|exact Hlast].
Defined.

(** ** When every file compresses *)

Lemma assoc_app (n : string) (l1 l2 : entries) :
  assoc n (l1 ++ l2) =
  match assoc n l1 with Some c => Some c | None => assoc n l2 end.
Proof.
  induction l1 as [|[k c] l1 IH]; simpl; [done|].
  by destruct (decide (n = k)).
Qed.

Lemma del_entry_app (n : string) (l1 l2 : entries) :
  del_entry n (l1 ++ l2) = del_entry n l1 ++ del_entry n l2.
Proof.
  induction l1 as [|[k c] l1 IH]; simpl; [done|].
  destruct (decide (n = k)); simpl; by rewrite IH.
Qed.

Lemma foldl_del_cons (n : string) (c : node) (es : entries) (l : list string) :
  n ∉ l →
  foldl (λ es m, del_entry m es) ((n, c) :: es) l =
  (n, c) :: foldl (λ es m, del_entry m es) es l.
Proof.
  revert es. induction l as [|m l IH]; intros es Hn; simpl; [done|].
  apply not_elem_of_cons in Hn as [Hnm Hn].
  rewrite decide_False by done. by apply IH.
Qed.

Lemma file_names_entries (es : entries) :
  file_names es = map fst (file_entries es).
Proof.
  induction es as [|[n [data|sub]] es IH].
  - done.
  - rewrite file_names_cons_file. simpl. by rewrite IH.
  - rewrite file_names_cons_dir. done.
Qed.

Lemma gz_siblings_entries (E : environment) (root : path) (es : entries) :
  gz_siblings E root es = map (gz_entry E root) (file_entries es).
Proof.
  induction es as [|[n [data|sub]] es IH]; simpl; [done| |done].
  by rewrite IH.
Qed.

Lemma elem_of_file_entries (n : string) (data : list byte) (es : entries) :
  (n, data) ∈ file_entries es ↔ (n, File data) ∈ es.
Proof.
  induction es as [|[k [d|sub]] es IH]; simpl.
  - split; intros H; by apply elem_of_nil in H.
  - rewrite !elem_of_cons, IH. split; intros [[= -> ->]|?]; auto.
  - rewrite elem_of_cons, IH. split; [auto|]. by intros [[=]|?].
Qed.

Lemma foldl_del_files (es : entries) :
  NoDup (map fst es) →
  foldl (λ es m, del_entry m es) es (file_names es) = dirs_only es.
Proof.
  unfold dirs_only.
  induction es as [|[n [data|sub]] es IH]; [done|..]; cbn [map fst];
    rewrite NoDup_cons; intros [Hn Hnd].
  - rewrite file_names_cons_file, filter_cons_False by done. simpl.
    rewrite decide_True by done.
    rewrite del_entry_absent by by apply assoc_None. by apply IH.
  - rewrite file_names_cons_dir, filter_cons_True by done.
    rewrite foldl_del_cons; [by rewrite IH|].
    intros [data Hin]%elem_of_file_names. apply Hn.
    apply list_elem_of_fmap. by eexists (_, _).
Qed.

Section AllCompressible.
Variable E : environment.

(** The entries of a directory after its files have all been compressed:
    what is left of the old entries, then the siblings in the order of the
    files. *)
Lemma compress_entries_all (root : path) (fes : list (string * list byte)) :
  ∀ (cur gzs : entries) (counts : nat * nat),
    NoDup (map fst fes) →
    (∀ f data, (f, data) ∈ fes →
       ends_with ".gz" f = false ∧
       fault_at E (join root f) = NoFault ∧
       assoc f cur = Some (File data) ∧
       assoc (f +:+ ".gz") cur = None ∧
       f +:+ ".gz" ∉ map fst gzs) →
    (∀ g, g ∈ map fst gzs → ends_with ".gz" g = true) →
    (compress_entries E root (map fst fes) (cur ++ gzs) counts).1 =
    foldl (λ es m, del_entry m es) cur (map fst fes) ++ gzs
      ++ map (gz_entry E root) fes.
Proof.
  induction fes as [|[f data] fes IH]; intros cur gzs counts Hnd Hfes Hgzs.
  - simpl. by rewrite app_nil_r.
  - simpl in Hnd. apply NoDup_cons in Hnd as [Hf Hnd].
    destruct (Hfes f data (list_elem_of_here _ _))
      as (Hnongz & Hfault & Hcur & Hgzcur & Hgzgzs).
    cbn [map fst compress_entries foldl]. rewrite Hnongz.
    assert (Hfgzs : assoc f gzs = None).
    { apply assoc_None. intros Hin. apply Hgzs in Hin. congruence. }
    assert (Hgzgzs' : assoc (f +:+ ".gz") gzs = None) by by apply assoc_None.
    assert (Hstep : compress_entry E root f (cur ++ gzs) =
              (del_entry f cur ++ (gzs ++ [gz_entry E root (f, data)]), true)).
    { unfold compress_entry. rewrite !assoc_app, Hcur, Hfault, Hgzcur, Hgzgzs'.
      simpl is_dir_entry. cbv iota.
      rewrite set_entry_absent by by rewrite assoc_app, Hgzcur.
      rewrite !del_entry_app. simpl.
      rewrite decide_False by apply gz_name_neq.
      rewrite (del_entry_absent f gzs) by done.
      by rewrite <- app_assoc. }
    rewrite Hstep. cbn [fst snd].
    rewrite IH; [by rewrite <- !app_assoc| done | |].
    + intros g d Hg.
      destruct (Hfes g d (list_elem_of_further _ _ _ Hg)) as (H1 & H2 & H3 & H4 & H5).
      assert (Hgf : g ≠ f).
      { intros ->. apply Hf. apply list_elem_of_fmap. by exists (f, d). }
      repeat split; [done|done| | |].
      * by rewrite assoc_del_entry, decide_False.
      * rewrite assoc_del_entry. by destruct (decide _).
      * rewrite fmap_app, elem_of_app. intros [?|Hin]; [done|].
        simpl in Hin. apply list_elem_of_singleton in Hin.
        by apply string_app_inj in Hin.
    + intros g. rewrite fmap_app, elem_of_app. intros [?|Hin]; [auto|].
      simpl in Hin. apply list_elem_of_singleton in Hin as ->.
      apply ends_with_app.
Qed.

Lemma map_entry_app_fresh (n : string) (f : node → node) (pre : entries)
    (c : node) (rest : entries) :
  n ∉ map fst pre →
  map_entry n f (pre ++ (n, c) :: rest) = pre ++ (n, f c) :: rest.
Proof.
  induction pre as [|[k c'] pre IH]; simpl; intros Hn.
  - by rewrite decide_True.
  - apply not_elem_of_cons in Hn as [Hnk Hn].
    rewrite decide_False by done. by rewrite IH.
Qed.

Lemma files_of_child (n : string) (sub es : entries) (p : path) :
  (n, Dir sub) ∈ es → p ∈ files_of (Dir sub) → n :: p ∈ files_of (Dir es).
Proof.
  intros Hin Hp. rewrite files_of_Dir, elem_of_app. right.
  induction es as [|[k c] es IH]; [by apply elem_of_nil in Hin|].
  apply elem_of_cons in Hin as [[= <- <-]|Hin].
  - rewrite files_subdirs_dir, elem_of_app. left.
    apply list_elem_of_fmap. eauto.
  - destruct c as [data|sub'].
    + rewrite files_subdirs_file. auto.
    + rewrite files_subdirs_dir, elem_of_app. right. auto.
Qed.

Lemma files_of_file (n : string) (data : list byte) (es : entries) :
  (n, File data) ∈ es → [n] ∈ files_of (Dir es).
Proof.
  intros Hin. rewrite files_of_Dir, elem_of_app. left.
  apply list_elem_of_fmap. exists n. split; [done|].
  apply elem_of_file_names. eauto.
Qed.

Lemma all_compressible_child (root : path) (n : string) (sub es : entries) :
  NoDup (map fst es) → (n, Dir sub) ∈ es →
  all_compressible E root (Dir es) →
  all_compressible E (join root n) (Dir sub).
Proof.
  intros Hnd Hin Hall p Hp.
  pose proof (files_of_dir_nonempty _ _ Hp) as Hne.
  destruct (Hall (n :: p) (files_of_child _ _ _ _ Hin Hp)) as [H1 H2].
  rewrite basename_cons in H1 by done.
  rewrite (compress_fails_cons E root n es sub) in H2;
    [done|by apply assoc_NoDup|done].
Qed.

Lemma gz_subdirs_dir (root : path) (n : string) (sub l : entries) :
  gz_subdirs E root ((n, Dir sub) :: l) =
  (n, gz_tree E (join root n) (Dir sub)) :: gz_subdirs E root l.
Proof. reflexivity. Qed.

Lemma gz_subdirs_file (root : path) (n : string) (data : list byte)
    (l : entries) :
  gz_subdirs E root ((n, File data) :: l) = gz_subdirs E root l.
Proof. reflexivity. Qed.

Lemma walk_subdirs_gz (root : path) (l : entries) :
  Forall (λ e, ∀ es root counts,
            e.2 = Dir es → wf_node e.2 = true →
            all_compressible E root e.2 →
            (walk_tree E root e.2 counts).1 = gz_tree E root e.2) l →
  all_wf l = true → NoDup (map fst l) →
  (∀ n sub, (n, Dir sub) ∈ l → all_compressible E (join root n) (Dir sub)) →
  ∀ pre post counts,
    (∀ n, n ∈ map fst l → n ∉ map fst pre) →
    (walk_subdirs E root l (pre ++ dirs_only l ++ post, counts)).1 =
    pre ++ gz_subdirs E root l ++ post.
Proof.
  unfold dirs_only.
  induction l as [|[n c] l IHl]; intros IH Hwf Hnd Hall pre post counts Hpre.
  - done.
  - apply Forall_cons in IH as [Hc IH]. cbv beta in Hc. simpl snd in Hc.
    simpl in Hwf. apply andb_true_iff in Hwf as [Hwfc Hwf].
    simpl in Hnd. apply NoDup_cons in Hnd as [Hn Hnd].
    assert (Hall' : ∀ m sub, (m, Dir sub) ∈ l →
                             all_compressible E (join root m) (Dir sub))
      by (intros; eapply Hall; by apply list_elem_of_further).
    destruct c as [data|sub].
    + rewrite walk_subdirs_file, filter_cons_False, gz_subdirs_file by done.
      apply IHl; [done..|].
      intros m Hm. apply Hpre. simpl. by apply list_elem_of_further.
    + rewrite walk_subdirs_dir, filter_cons_True, gz_subdirs_dir by done.
      cbn [fst snd]. rewrite <- app_comm_cons.
      rewrite map_entry_app_fresh by (apply Hpre; simpl; apply list_elem_of_here).
      rewrite (Hc sub) by (try done; apply Hall, list_elem_of_here).
      rewrite (cons_middle _ pre), app_assoc.
      rewrite IHl; [by rewrite <- app_assoc|done..|].
      intros m Hm. rewrite fmap_app, elem_of_app. simpl.
      intros [Hin|Hin%list_elem_of_singleton].
      * eapply Hpre; [|done]. simpl. by apply list_elem_of_further.
      * by subst.
Qed.

(** When every file of a directory tree can be compressed, the walk turns
    the tree into [gz_tree]. *)
Lemma walk_tree_gz (t : node) :
  ∀ es root counts,
    t = Dir es → wf_node t = true → all_compressible E root t →
    (walk_tree E root t counts).1 = gz_tree E root t.
Proof.
  induction t as [data|es0 IH] using node_ind'; [done|].
  intros es root counts [= <-] Hwf Hall.
  apply wf_node_Dir_inv in Hwf as [Hnd Hwf].
  rewrite walk_tree_Dir, gz_tree_Dir. cbv zeta. cbn [fst snd]. f_equal.
  set (r := compress_entries E root (file_names es0) es0 counts).
  assert (Hr : r.1 = dirs_only es0 ++ gz_siblings E root es0).
  { subst r. rewrite file_names_entries.
    rewrite <- (app_nil_r es0) at 2.
    rewrite compress_entries_all.
    - rewrite <- file_names_entries, foldl_del_files by done.
      by rewrite gz_siblings_entries.
    - rewrite <- file_names_entries. by apply NoDup_file_names.
    - intros f data Hf%elem_of_file_entries.
      destruct (Hall [f] (files_of_file _ _ _ Hf)) as [Hgz Hfail].
      change (basename [f]) with f in Hgz.
      unfold compress_fails in Hfail.
      change (root ++ [f]) with (join root f) in Hfail.
      rewrite add_suffix_singleton, isdir_at_singleton in Hfail.
      split; [done|]. split; [by destruct (fault_at E (join root f))|].
      split; [by apply assoc_NoDup|]. split; [|apply not_elem_of_nil].
      destruct (assoc (f +:+ ".gz") es0) as [[d|sub]|] eqn:Hsib; [| |done].
      + apply assoc_Some_elem, files_of_file, Hall in Hsib as [Hsib _].
        change (basename [f +:+ ".gz"]) with (f +:+ ".gz") in Hsib.
        by rewrite ends_with_app in Hsib.
      + by destruct (fault_at E (join root f)).
    - intros g Hg. by apply elem_of_nil in Hg. }
  destruct r as [r1 r2]. simpl in Hr. subst r1.
  pose proof (walk_subdirs_gz root es0 IH Hwf Hnd) as Hsub.
  specialize (Hsub (λ n sub Hin, all_compressible_child root n sub es0 Hnd Hin Hall)).
  specialize (Hsub [] (gz_siblings E root es0) r2
                (λ n _, not_elem_of_nil n)).
  by rewrite !app_nil_l in Hsub.
Qed.

End AllCompressible.

End ProcessProofs.

(** * The frontend packager: the compressed copy *)

Module PackagingProofs.
Import BuildSveltekit FsFacts CompressProofs ProcessProofs.
Local Open Scope nat_scope.

#[local] Arguments join : simpl never.
#[local] Arguments dirname : simpl never.
#[local] Arguments basename : simpl never.
#[local] Arguments String.append : simpl never.
#[local] Arguments update : simpl never.
#[local] Arguments lookup_path : simpl never.
#[local] Arguments ends_with : simpl never.

Section GzTree.
Variable E : environment.

Lemma file_names_app (l1 l2 : entries) :
  file_names (l1 ++ l2) = file_names l1 ++ file_names l2.
Proof. unfold file_names. by rewrite filter_app, map_app. Qed.

Lemma files_subdirs_app (l1 l2 : entries) :
  files_subdirs (l1 ++ l2) = files_subdirs l1 ++ files_subdirs l2.
Proof.
  induction l1 as [|[n [data|sub]] l1 IH]; [done|..].
  - rewrite <- app_comm_cons, !files_subdirs_file. done.
  - rewrite <- app_comm_cons, !files_subdirs_dir, IH. by rewrite app_assoc.
Qed.

Lemma dirs_subdirs_app (l1 l2 : entries) :
  dirs_subdirs (l1 ++ l2) = dirs_subdirs l1 ++ dirs_subdirs l2.
Proof.
  induction l1 as [|[n c] l1 IH]; [done|].
  rewrite <- app_comm_cons, !dirs_subdirs_cons, IH. by rewrite app_assoc.
Qed.

Lemma gz_siblings_file (root : path) (n : string) (data : list byte)
    (l : entries) :
  gz_siblings E root ((n, File data) :: l) =
  (n +:+ ".gz", File (gzip_compress E (time_at E (join root n)) n data))
    :: gz_siblings E root l.
Proof. reflexivity. Qed.

Lemma gz_siblings_dir (root : path) (n : string) (sub l : entries) :
  gz_siblings E root ((n, Dir sub) :: l) = gz_siblings E root l.
Proof. reflexivity. Qed.

Lemma file_names_gz_subdirs (root : path) (es : entries) :
  file_names (gz_subdirs E root es) = [].
Proof.
  induction es as [|[n [data|sub]] es IH]; [done|..].
  - by rewrite gz_subdirs_file.
  - rewrite gz_subdirs_dir, gz_tree_Dir, file_names_cons_dir. done.
Qed.

Lemma file_names_gz_siblings (root : path) (es : entries) :
  file_names (gz_siblings E root es) = map (λ n, n +:+ ".gz") (file_names es).
Proof.
  induction es as [|[n [data|sub]] es IH]; [done|..].
  - rewrite gz_siblings_file, !file_names_cons_file, IH. done.
  - rewrite gz_siblings_dir, file_names_cons_dir. done.
Qed.

Lemma files_subdirs_gz_siblings (root : path) (es : entries) :
  files_subdirs (gz_siblings E root es) = [].
Proof.
  induction es as [|[n [data|sub]] es IH]; [done|..].
  - by rewrite gz_siblings_file, files_subdirs_file.
  - by rewrite gz_siblings_dir.
Qed.

Lemma dirs_subdirs_gz_siblings (root : path) (es : entries) :
  dirs_subdirs (gz_siblings E root es) = [].
Proof.
  induction es as [|[n [data|sub]] es IH]; [done|..].
  - by rewrite gz_siblings_file, dirs_subdirs_cons.
  - by rewrite gz_siblings_dir.
Qed.

Lemma map_add_suffix_cons (n : string) (l : list path) :
  (∀ p, p ∈ l → p ≠ []) →
  map (cons n) (map (add_suffix ".gz") l) =
  map (add_suffix ".gz") (map (cons n) l).
Proof.
  induction l as [|p l IH]; intros Hne; [done|].
  cbn [map]. rewrite add_suffix_cons by apply Hne, list_elem_of_here.
  f_equal. apply IH. intros q Hq. apply Hne. by apply list_elem_of_further.
Qed.

(** The files of the compressed tree are the files of the tree, each with
    [.gz] appended, in the same order. *)
Lemma files_of_gz_tree (t : node) :
  ∀ es root, t = Dir es →
    files_of (gz_tree E root t) = map (add_suffix ".gz") (files_of t).
Proof.
  induction t as [data|es0 IH] using node_ind'; [done|].
  intros es root [= <-].
  rewrite gz_tree_Dir, !files_of_Dir, file_names_app, files_subdirs_app.
  rewrite file_names_gz_subdirs, file_names_gz_siblings,
    files_subdirs_gz_siblings, app_nil_l, app_nil_r, map_app.
  f_equal.
  - rewrite !map_map. done.
  - induction es0 as [|[n [data|sub]] es0 IHes]; [done|..];
      apply Forall_cons in IH as [Hc IH]; cbv beta in Hc; simpl snd in Hc.
    + rewrite gz_subdirs_file, files_subdirs_file. by apply IHes.
    + rewrite gz_subdirs_dir. rewrite gz_tree_Dir at 1.
      rewrite !files_subdirs_dir, <- gz_tree_Dir, (Hc sub) by done.
      rewrite map_app, IHes by done.
      by rewrite map_add_suffix_cons by apply files_of_dir_nonempty.
Qed.

(** The directories of the compressed tree are those of the tree. *)
Lemma dirs_of_gz_tree (t : node) :
  ∀ root, dirs_of (gz_tree E root t) = dirs_of t.
Proof.
  induction t as [data|es IH] using node_ind'; [done|].
  intros root.
  rewrite gz_tree_Dir, !dirs_of_Dir, dirs_subdirs_app, dirs_subdirs_gz_siblings,
    app_nil_r.
  f_equal.
  induction es as [|[n [data|sub]] es IHes]; [done|..];
    apply Forall_cons in IH as [Hc IH]; cbv beta in Hc; simpl snd in Hc.
  - rewrite gz_subdirs_file, dirs_subdirs_cons. simpl. by apply IHes.
  - rewrite gz_subdirs_dir, !dirs_subdirs_cons, Hc. f_equal. by apply IHes.
Qed.

Lemma assoc_gz_subdirs (root : path) (n : string) (es : entries) :
  NoDup (map fst es) →
  assoc n (gz_subdirs E root es) =
  match assoc n es with
  | Some (Dir sub) => Some (gz_tree E (join root n) (Dir sub))
  | _ => None
  end.
Proof.
  induction es as [|[k [data|sub]] es IH]; [done|..]; cbn [map fst];
    rewrite NoDup_cons; intros [Hk Hnd].
  - rewrite gz_subdirs_file, IH by done. simpl.
    destruct (decide (n = k)) as [->|]; [|done].
    by rewrite (proj2 (assoc_None k es)).
  - rewrite gz_subdirs_dir. simpl.
    destruct (decide (n = k)) as [->|]; [done|]. by apply IH.
Qed.

Lemma assoc_gz_siblings (root : path) (f : string) (es : entries) :
  NoDup (map fst es) →
  assoc (f +:+ ".gz") (gz_siblings E root es) =
  match assoc f es with
  | Some (File data) =>
      Some (File (gzip_compress E (time_at E (join root f)) f data))
  | _ => None
  end.
Proof.
  induction es as [|[k [data|sub]] es IH]; [done|..]; cbn [map fst];
    rewrite NoDup_cons; intros [Hk Hnd].
  - rewrite gz_siblings_file. simpl.
    destruct (decide (f = k)) as [->|Hfk].
    + by rewrite decide_True.
    + rewrite decide_False by (intros H; by apply string_app_inj in H).
      by apply IH.
  - rewrite gz_siblings_dir, IH by done. simpl.
    destruct (decide (f = k)) as [->|]; [|done].
    by rewrite (proj2 (assoc_None k es)).
Qed.

Lemma assoc_gz_siblings_other (root : path) (n : string) (es : entries) :
  ends_with ".gz" n = false → assoc n (gz_siblings E root es) = None.
Proof.
  intros Hn. induction es as [|[k [data|sub]] es IH]; [done|..].
  - rewrite gz_siblings_file. simpl. rewrite decide_False; [done|].
    intros ->. by rewrite ends_with_app in Hn.
  - by rewrite gz_siblings_dir.
Qed.

(** In the compressed tree the original of a file is gone and its sibling
    holds the compressed data. *)
Lemma lookup_gz_tree (t : node) :
  ∀ es root p data,
    t = Dir es → wf_node t = true → all_compressible E root t →
    lookup_path p t = Some (File data) →
    lookup_path p (gz_tree E root t) = None ∧
    lookup_path (add_suffix ".gz" p) (gz_tree E root t) =
      Some (File (gzip_compress E (time_at E (root ++ p)) (basename p) data)).
Proof.
  induction t as [d0|es0 IH] using node_ind'; [done|].
  intros es root p data [= <-] Hwf Hall Hp.
  pose proof Hwf as [Hnd Hwfs]%wf_node_Dir_inv.
  destruct p as [|n q]; [done|].
  rewrite lookup_path_cons in Hp.
  destruct (assoc n es0) as [c|] eqn:Hc; [|done].
  pose proof (assoc_Some_elem _ _ _ Hc) as Hin.
  rewrite gz_tree_Dir.
  destruct c as [d|sub].
  - (* a file of this directory *)
    destruct q; [|done]. rewrite lookup_path_nil in Hp. injection Hp as ->.
    destruct (Hall [n] (files_of_file _ _ _ Hin)) as [Hgz Hfail].
    change (basename [n]) with n in *.
    unfold compress_fails in Hfail. rewrite add_suffix_singleton in Hfail.
    rewrite isdir_at_singleton in Hfail.
    assert (Hsib : is_dir_entry (assoc (n +:+ ".gz") es0) = false)
      by by destruct (fault_at E (root ++ [n])).
    rewrite add_suffix_singleton, !lookup_path_cons, !assoc_app.
    rewrite !assoc_gz_subdirs, Hc by done.
    rewrite assoc_gz_siblings_other, assoc_gz_siblings, Hc by done.
    split; [done|].
    by destruct (assoc (n +:+ ".gz") es0) as [[|]|].
  - (* a file further down *)
    assert (Hq : q ≠ []) by (by intros ->).
    rewrite add_suffix_cons, !lookup_path_cons, !assoc_app by done.
    rewrite !assoc_gz_subdirs, Hc by done.
    rewrite basename_cons by done.
    replace (root ++ n :: q) with (join root n ++ q)
      by (unfold join; by rewrite <- app_assoc).
    rewrite Forall_forall in IH.
    apply (IH _ Hin sub); [done| |by eapply all_compressible_child|done].
    by eapply all_wf_elem.
Qed.

End GzTree.

(** [compress_fails] is what it is called: on a tree found at [top],
    [compress_file] returns [False] on a file of the tree exactly when
    [compress_fails] holds of it. *)
Lemma compress_fails_correct (E : environment) (top : path) (t : node)
    (p : path) (w : world) :
  lookup_path top (fs w) = Some t → wf_node t = true →
  p ∈ files_of t → p ≠ [] →
  (compress_file E (top ++ p) w).1 = Ret (negb (compress_fails E top t p)).
Proof.
  intros Htop Hwf Hp Hne.
  apply files_of_lookup in Hp as [data Hp]; [|done].
  destruct (exists_last Hne) as (q & f & ->).
  change (q ++ [f]) with (join q f) in *.
  rewrite lookup_path_join in Hp.
  destruct (lookup_path q t) as [[|es]|] eqn:Hq; try done.
  assert (Hdir : lookup_path (top ++ q) (fs w) = Some (Dir es))
    by (by rewrite lookup_path_app, Htop).
  replace (top ++ join q f) with (join (top ++ q) f)
    by (unfold join; by rewrite app_assoc).
  destruct (compress_file_in E (top ++ q) f w es Hdir) as [out ->].
  cbn [fst]. f_equal.
  rewrite (compress_entry_result E _ _ _ _ Hp).
  unfold compress_fails. rewrite add_suffix_join.
  replace (top ++ join q f) with (join (top ++ q) f)
    by (unfold join; by rewrite app_assoc).
  unfold isdir_at. rewrite lookup_path_join, Hq. done.
Qed.

(** ** The packaged output *)

(** C1.  After a run of [process_frontend_files] that returns [True] on a
    build tree none of whose files is named [*.gz], the output directory
    holds exactly one file for every file of the build tree, under the same
    relative path with [.gz] appended: the lists of files correspond one to
    one, so there are as many; the directories are those of the build tree;
    and for every file of the build tree the original name is absent from
    the output while the name with [.gz] appended holds its compressed
    contents. *)
Theorem process_compresses_every_file (E : environment) (w w' : world)
    (bes : entries) :
  lookup_path (BUILD_DIR E) (fs w) = Some (Dir bes) →
  wf_node (Dir bes) = true →
  (∀ p, p ∈ files_of (Dir bes) → ends_with ".gz" (basename p) = false) →
  process_frontend_files E w = (Ret true, w') →
  ∃ out,
    lookup_path (OUTPUT_DIR E) (fs w') = Some out ∧
    files_of out = map (add_suffix ".gz") (files_of (Dir bes)) ∧
    length (files_of out) = length (files_of (Dir bes)) ∧
    dirs_of out = dirs_of (Dir bes) ∧
    ∀ p data,
      lookup_path p (Dir bes) = Some (File data) →
      lookup_path p out = None ∧
      lookup_path (add_suffix ".gz" p) out =
        Some (File (gzip_compress E (time_at E (OUTPUT_DIR E ++ p))
                      (basename p) data)).
Proof.
  intros Hbuild Hwf Hnames Hrun.
  destruct (makedirs_node (OUTPUT_DIR E) (fs w)) as [t0|] eqn:Hmk.
  2:{ destruct (process_run_no_output E w) as [out Hno];
        [by rewrite exists_at_lookup, Hbuild|done|].
      rewrite Hno in Hrun. discriminate. }
  destruct (process_run_counts E w bes t0 Hbuild Hwf Hmk) as [out Hrun'].
  rewrite Hrun in Hrun'.
  assert (Hret : true = bool_decide
            (filter (λ p, compress_fails E (OUTPUT_DIR E) (Dir bes) p = true)
               (to_compress (Dir bes)) = [])) by congruence.
  symmetry in Hret. apply bool_decide_eq_true in Hret.
  assert (Hall : all_compressible E (OUTPUT_DIR E) (Dir bes)).
  { intros p Hp. split; [by apply Hnames|].
    destruct (compress_fails E (OUTPUT_DIR E) (Dir bes) p) eqn:Hfail; [|done].
    assert (Hin : p ∈ filter
              (λ p, compress_fails E (OUTPUT_DIR E) (Dir bes) p = true)
              (to_compress (Dir bes))).
    { apply list_elem_of_filter. split; [done|].
      apply list_elem_of_filter. split; [by apply Hnames|done]. }
    rewrite Hret in Hin. by apply elem_of_nil in Hin. }
  apply (f_equal snd) in Hrun'. cbn [snd] in Hrun'. subst w'.
  pose proof (makedirs_node_isdir _ _ _ Hmk) as Hout.
  apply isdir_at_Some in Hout as [es0 Hout].
  exists (gz_tree E (OUTPUT_DIR E) (Dir bes)). cbn [fs].
  rewrite (lookup_update _ _ _ _ Hout). cbv beta.
  rewrite (walk_tree_gz E (Dir bes) bes) by done.
  split; [done|]. split; [by apply (files_of_gz_tree E (Dir bes) bes)|].
  split; [by rewrite (files_of_gz_tree E (Dir bes) bes), length_map|].
  split; [apply dirs_of_gz_tree|].
  intros p data Hp. by apply (lookup_gz_tree E (Dir bes) bes).
Qed.

Lemma process_compresses_every_file_witness :
  ∃ out,
    lookup_path ["fw"; "data"; "web"]
      (fs (process_frontend_files Sample.E0 Sample.w0).2) = Some out ∧
    files_of out = [["index.html.gz"]; ["_app"; "app.js.gz"]; ["_app"; "app.css.gz"]] ∧
    length (files_of out) = 3 ∧
    dirs_of out = [[]; ["_app"]] ∧
    ∀ p data,
      lookup_path p Sample.site = Some (File data) →
      lookup_path p out = None ∧
      lookup_path (add_suffix ".gz" p) out = Some (File (x1f :: x8b :: data)).
Proof.
  apply (process_compresses_every_file Sample.E0 Sample.w0
           (process_frontend_files Sample.E0 Sample.w0).2
           [("index.html", File [x3c; x68; x3e]);
            ("_app", Dir [("app.js", File [x61; x3b]); ("app.css", File [x62])])]).
  - reflexivity.
  - reflexivity.
  - intros p Hp. vm_compute in Hp.
    repeat (apply elem_of_cons in Hp as [->|Hp]; [reflexivity|]).
    by apply elem_of_nil in Hp.
  - vm_compute. reflexivity.
Defined.


End PackagingProofs.

(** * The version stamper *)

Module VersionProofs.
Import Version.
Local Open Scope nat_scope.

#[local] Arguments String.append : simpl never.

(** ** Strings *)

Lemma append_nil_l (s : string) : EmptyString +:+ s = s.
Proof. done. Qed.

Lemma append_cons (c : ascii) (s t : string) :
  String c s +:+ t = String c (s +:+ t).
Proof. done. Qed.

Lemma append_assoc (a b c : string) : (a +:+ b) +:+ c = a +:+ (b +:+ c).
Proof.
  induction a as [|x a IH]; [done|]. by rewrite !append_cons, IH.
Qed.

Lemma append_length (a b : string) :
  String.length (a +:+ b) = String.length a + String.length b.
Proof.
  induction a as [|x a IH]; [done|]. rewrite append_cons. simpl. by rewrite IH.
Qed.

Lemma strip_prefix_Some (pre s rest : string) :
  strip_prefix pre s = Some rest ↔ s = pre +:+ rest.
Proof.
  revert s. induction pre as [|c pre IH]; intros s; simpl.
  - rewrite append_nil_l. split; [by intros [= ->]|by intros ->].
  - rewrite append_cons. destruct s as [|c' s]; [done|].
    destruct (decide (c = c')) as [->|Hne].
    + rewrite IH. split; [by intros ->|by intros [= ->]].
    + split; [done|]. by intros [= -> _].
Qed.

Lemma take_drop_while (cls : ascii → bool) (s : string) :
  take_while cls s +:+ drop_while cls s = s.
Proof.
  induction s as [|c s IH]; simpl; [done|].
  destruct (cls c); [by rewrite append_cons, IH|done].
Qed.

Lemma all_of_take_while (cls : ascii → bool) (s : string) :
  all_of cls (take_while cls s) = true.
Proof.
  induction s as [|c s IH]; simpl; [done|].
  destruct (cls c) eqn:Hc; simpl; [by rewrite Hc|done].
Qed.

Lemma stops_drop_while (cls : ascii → bool) (s : string) :
  stops cls (drop_while cls s).
Proof.
  induction s as [|c s IH]; simpl; [done|].
  by destruct (cls c) eqn:Hc.
Qed.

Lemma take_drop_while_app (cls : ascii → bool) (ws rest : string) :
  all_of cls ws = true → stops cls rest →
  take_while cls (ws +:+ rest) = ws ∧ drop_while cls (ws +:+ rest) = rest.
Proof.
  intros Hws Hrest. induction ws as [|c ws IH].
  - rewrite append_nil_l. destruct rest as [|c rest]; [done|].
    simpl in *. by rewrite Hrest.
  - simpl in Hws. apply andb_true_iff in Hws as [Hc Hws].
    rewrite append_cons. simpl. rewrite Hc.
    destruct (IH Hws) as [-> ->]. done.
Qed.

(** ** The matcher on the version pattern *)

Lemma greedy_spec {R} (cls : ascii → bool) (s : string)
    (k : string → string → option R) :
  (∀ c m rest, cls c = true → k m (String c rest) = None) →
  greedy cls s k true = k (take_while cls s) (drop_while cls s).
Proof.
  revert k. induction s as [|c s IH]; intros k Hk; simpl; [done|].
  destruct (cls c) eqn:Hc; [|done].
  rewrite IH by (intros c' m rest Hc'; by apply Hk).
  destruct (k (String c (take_while cls s)) (drop_while cls s)) eqn:Hres;
    [done|]. by apply Hk.
Qed.

Lemma rmatch_lit {R} (c : ascii) (pre s : string) (cap : option string)
    (k : string → option string → string → option R) :
  rmatch (lit (String c pre)) s cap k =
  match strip_prefix (String c pre) s with
  | Some rest => k (String c pre) cap rest
  | None => None
  end.
Proof.
  revert c s k. induction pre as [|c2 pre IH]; intros c s k.
  - simpl. destruct s as [|c' s]; [done|]. by destruct (decide (c = c')).
  - change (lit (String c (String c2 pre)))
      with (Seq (Lit c) (lit (String c2 pre))).
    cbn [rmatch]. destruct s as [|c' s]; [done|].
    cbn [strip_prefix]. destruct (decide (c = c')) as [->|]; [|done].
    rewrite IH. done.
Qed.

Lemma is_space_equals : is_space "=" = false.
Proof. reflexivity. Qed.

Lemma is_space_dquote : is_space dquote = false.
Proof. reflexivity. Qed.

(** Matching the version pattern at the start of a text is [match_here]. *)
Lemma rmatch_version_re (s : string) :
  rmatch version_re s None (λ _ cap _, Some cap) = Some <$> match_here s.
Proof.
  unfold version_re, match_here.
  cbn [rmatch]. rewrite rmatch_lit.
  destruct (strip_prefix "version" s) as [s1|]; [|done].
  cbn [rmatch].
  rewrite greedy_spec.
  2:{ intros c m rest Hc. destruct (decide ("="%char = c)) as [<-|]; [|done].
      by rewrite is_space_equals in Hc. }
  generalize (drop_while is_space s1). clear s1. intros s1.
  destruct s1 as [|c1 s1]; [done|]. cbn [strip_prefix].
  destruct (decide ("="%char = c1)) as [<-|]; [|done].
  rewrite greedy_spec.
  2:{ intros c m rest Hc. destruct (decide (dquote = c)) as [<-|]; [|done].
      by rewrite is_space_dquote in Hc. }
  generalize (drop_while is_space s1). clear s1. intros s2.
  unfold dq at 1. destruct s2 as [|c2 s2]; [done|]. cbn [strip_prefix].
  destruct (decide (dquote = c2)) as [<-|]; [|done].
  destruct s2 as [|c3 s3]; [done|].
  cbn [take_while drop_while].
  destruct (not_dquote c3) eqn:Hc3.
  - rewrite greedy_spec.
    2:{ intros c m rest Hc. destruct (decide (dquote = c)) as [<-|]; [|done].
        unfold not_dquote in Hc. by rewrite bool_decide_eq_true_2 in Hc. }
    unfold dq. destruct (drop_while not_dquote s3) as [|c4 s4]; [done|].
    cbn [strip_prefix]. by destruct (decide (dquote = c4)).
  - done.
Qed.

(** ** [match_here] finds the assignment at the start of a text *)

Lemma match_here_sound (s v : string) :
  match_here s = Some v → assignment_here s v.
Proof.
  unfold match_here.
  destruct (strip_prefix "version" s) as [s1|] eqn:H1; [|done].
  destruct (strip_prefix "=" (drop_while is_space s1)) as [s2|] eqn:H2; [|done].
  destruct (strip_prefix dq (drop_while is_space s2)) as [s3|] eqn:H3; [|done].
  destruct (take_while not_dquote s3) as [|c v'] eqn:Hv; [done|].
  destruct (strip_prefix dq (drop_while not_dquote s3)) as [post|] eqn:H4;
    [|done].
  intros [= <-].
  apply strip_prefix_Some in H1, H2, H3, H4.
  exists (take_while is_space s1), (take_while is_space s2), post.
  split; [|split; [apply all_of_take_while|split; [apply all_of_take_while|]]].
  - rewrite H1. f_equal.
    rewrite <- (take_drop_while is_space s1) at 1. f_equal.
    rewrite H2. f_equal.
    rewrite <- (take_drop_while is_space s2) at 1. f_equal.
    rewrite H3. f_equal.
    rewrite <- (take_drop_while not_dquote s3) at 1.
    by rewrite Hv, H4.
  - split; [done|]. rewrite <- Hv. apply all_of_take_while.
Qed.

Lemma match_here_complete (s v : string) :
  assignment_here s v → match_here s = Some v.
Proof.
  intros (ws1 & ws2 & post & -> & Hws1 & Hws2 & Hne & Hv).
  unfold match_here.
  rewrite (proj2 (strip_prefix_Some "version" _ _) eq_refl).
  destruct (take_drop_while_app is_space ws1
              ("=" +:+ ws2 +:+ dq +:+ v +:+ dq +:+ post) Hws1) as [_ ->];
    [reflexivity|].
  rewrite (proj2 (strip_prefix_Some "=" _ _) eq_refl).
  destruct (take_drop_while_app is_space ws2
              (dq +:+ v +:+ dq +:+ post) Hws2) as [_ ->]; [reflexivity|].
  rewrite (proj2 (strip_prefix_Some dq _ _) eq_refl).
  destruct (take_drop_while_app not_dquote v (dq +:+ post) Hv) as [-> ->].
  { unfold dq. rewrite append_cons. simpl. unfold not_dquote.
    by rewrite bool_decide_eq_true_2. }
  rewrite (proj2 (strip_prefix_Some dq _ _) eq_refl).
  by destruct v.
Qed.

(** ** [re.search] finds the first assignment *)

Lemma re_search_unfold (s : string) :
  re_search version_re s =
  match match_here s with
  | Some v => Some (Some v)
  | None =>
      match s with
      | String _ s' => re_search version_re s'
      | EmptyString => None
      end
  end.
Proof.
  destruct s as [|c s]; cbn [re_search]; rewrite rmatch_version_re;
    by destruct (match_here _).
Qed.

Lemma re_search_Some (content : string) (cap : option string) :
  re_search version_re content = Some cap →
  ∃ v, cap = Some v ∧ first_assignment content v.
Proof.
  induction content as [|c content IH]; rewrite re_search_unfold.
  - destruct (match_here EmptyString) as [v|] eqn:Hm; [|done].
    intros [= <-]. exists v. split; [done|].
    exists EmptyString, EmptyString. split; [done|]. split; [by apply match_here_sound|].
    intros; simpl; lia.
  - destruct (match_here (String c content)) as [v|] eqn:Hm.
    + intros [= <-]. exists v. split; [done|].
      exists EmptyString, (String c content). split; [done|].
      split; [by apply match_here_sound|]. intros; simpl; lia.
    + intros (v & -> & pre & rest & -> & Hrest & Hmin)%IH.
      exists v. split; [done|].
      exists (String c pre), rest. split; [done|]. split; [done|].
      intros pre' rest' v' Heq Hrest'.
      destruct pre' as [|c' pre'].
      * rewrite append_nil_l in Heq. subst rest'.
        apply match_here_complete in Hrest'. congruence.
      * rewrite append_cons in Heq. injection Heq as <- Heq.
        specialize (Hmin pre' rest' v' Heq Hrest'). simpl. lia.
Qed.

Lemma re_search_None (content : string) :
  re_search version_re content = None → no_assignment content.
Proof.
  induction content as [|c content IH]; rewrite re_search_unfold.
  - destruct (match_here EmptyString) as [v|] eqn:Hm; [done|].
    intros _ pre rest v Heq Hrest.
    destruct pre; [|done]. rewrite append_nil_l in Heq. subst rest.
    apply match_here_complete in Hrest. congruence.
  - destruct (match_here (String c content)) as [v|] eqn:Hm; [done|].
    intros Hnone%IH pre rest v Heq Hrest.
    destruct pre as [|c' pre].
    + rewrite append_nil_l in Heq. subst rest.
      apply match_here_complete in Hrest. congruence.
    + rewrite append_cons in Heq. injection Heq as <- Heq.
      by apply (Hnone pre rest v).
Qed.

(** ** The semantic version *)

Lemma get_semantic_version_run (w : world) (content : string) :
  platformio_ini w = Some content →
  ∃ v,
    get_semantic_version w = (Ret v, w) ∧
    (first_assignment content v ∨ (no_assignment content ∧ v = "1.0.0")).
Proof.
  intros Hini. unfold get_semantic_version. rewrite Hini.
  destruct (re_search version_re content) as [cap|] eqn:Hsearch.
  - apply re_search_Some in Hsearch as (v & -> & Hfirst). eauto.
  - apply re_search_None in Hsearch. eauto.
Qed.

(** C5, amended.  With the configuration file in place,
    [get_semantic_version] returns without raising and without changing
    anything.  The pattern is searched for in the text as a whole, not line
    by line: what is returned is the quoted value at the first position of
    the text, wherever it is, at which the word [version], optional white
    space (line breaks count), an equals sign, optional white space and a
    non-empty value between double quotes follow one another; and when the
    text has no such position, the fallback 1.0.0. *)
Theorem get_semantic_version_spec (w : world) (content : string) :
  platformio_ini w = Some content →
  ∃ v,
    get_semantic_version w = (Ret v, w) ∧
    (first_assignment content v ∨ (no_assignment content ∧ v = "1.0.0")).
Proof. apply get_semantic_version_run. Qed.

Lemma get_semantic_version_spec_witness :
  ∃ v,
    get_semantic_version Sample.v0 = (Ret v, Sample.v0) ∧
    (first_assignment Sample.ini v ∨ (no_assignment Sample.ini ∧ v = "1.0.0")).
Proof.
  apply (get_semantic_version_spec Sample.v0 Sample.ini). reflexivity.
Defined.

(** The two cases on small files. *)
Example get_semantic_version_found :
  ∀ w, platformio_ini w = Some ("version = " +:+ dq +:+ "2.3.4" +:+ dq) →
       get_semantic_version w = (Ret "2.3.4", w).
Proof. intros w H. unfold get_semantic_version. by rewrite H. Qed.

Example get_semantic_version_fallback :
  ∀ w, platformio_ini w = Some ("[env:esp32]" +:+ nl +:+ "board = esp32dev") →
       get_semantic_version w = (Ret "1.0.0", w).
Proof. intros w H. unfold get_semantic_version. by rewrite H. Qed.

(** C5 as stated fails.  In this configuration the word [version], the
    equals sign and the quoted value stand on three lines of their own.  No
    line holds an assignment, at any position, so that a reading line by
    line finds nothing and falls back to 1.0.0; the search over the whole
    text, which takes line breaks for white space, returns 2.3.4. *)
Lemma get_semantic_version_not_by_line :
  get_semantic_version Sample.v_spread = (Ret "2.3.4", Sample.v_spread) ∧
  lines Sample.ini_spread =
    ["version"; "="; dq +:+ "2.3.4" +:+ dq; EmptyString] ∧
  ¬ ∃ v, line_assignment Sample.ini_spread v.
Proof.
  split; [by vm_compute|]. split; [by vm_compute|].
  intros (v & line & Hline & pre & rest & Heq & Hv).
  assert (Hlines : lines Sample.ini_spread =
            ["version"; "="; dq +:+ "2.3.4" +:+ dq; EmptyString])
    by by vm_compute.
  rewrite Hlines in Hline.
  assert (Hno : no_assignment line).
  { repeat (apply elem_of_cons in Hline as [->|Hline];
            [by apply re_search_None; vm_compute|]).
    by apply elem_of_nil in Hline. }
  by apply (Hno pre rest v).
Qed.

(** ** The build number *)

(** One run of [main], given the configuration file and a build-info file
    that is absent or holds an integer build number. *)
Lemma main_run (clock : nat → datetime) (w : world) (content : string) (n : Z) :
  platformio_ini w = Some content →
  persisted_build_number w = Some n →
  ∃ v,
    get_semantic_version w = (Ret v, w) ∧
    platformio_ini (main clock w).2 = Some content ∧
    src_dir (main clock w).2 = src_dir w ∧
    build_info (main clock w).2 =
      Some (Some (JObj [("semantic_version", JStr v);
                        ("build_number", JInt (n + 1));
                        ("last_build", JStr (isoformat (clock (ticks w))))])) ∧
    (src_dir w = true →
     (main clock w).1 = Ret () ∧
     version_h (main clock w).2 =
       Some (version_content v (n + 1) (clock (S (ticks w)))) ∧
     environ (main clock w).2 !! "BUILD_NUMBER" = Some (pretty (n + 1)%Z) ∧
     environ (main clock w).2 !! "SEMANTIC_VERSION" = Some v).
Proof.
  intros Hini Hn.
  destruct (get_semantic_version_run w content Hini) as (v & Hv & _).
  exists v. split; [done|].
  assert (Hcur : get_current_build_number w = (Ret (JInt n), w)).
  { unfold persisted_build_number in Hn. unfold get_current_build_number.
    destruct (build_info w) as [[[| | | | |data]|]|]; try done.
    - destruct (dict_get "build_number" data (JInt 1)); try done.
      by injection Hn as ->.
    - by injection Hn as <-. }
  assert (Hmain : main clock w =
    (if src_dir w then Ret ()
     else Raise (OSError "[Errno 2] No such file or directory: 'src/version.h'"),
     World (platformio_ini w)
       (Some (Some (JObj [("semantic_version", JStr v);
                          ("build_number", JInt (n + 1));
                          ("last_build", JStr (isoformat (clock (ticks w))))])))
       (src_dir w)
       (if src_dir w
        then Some (version_content v (n + 1) (clock (S (ticks w))))
        else version_h w)
       (if src_dir w
        then <["SEMANTIC_VERSION" := v]>
               (<["BUILD_NUMBER" := pretty (n + 1)%Z]> (environ w))
        else environ w)
       (if src_dir w
        then stdout w ++ ["Version: " +:+ v]
               ++ ["Build number: " +:+ pretty (n + 1)%Z]
        else stdout w)
       (S (S (ticks w))))).
  { unfold main, mbind, Py_bind, py_bind. rewrite Hv, Hcur.
    cbn [py_add]. unfold py_ret, save_build_info, update_version_header,
      datetime_now, environ_set, print, py_bind.
    cbn [ticks src_dir platformio_ini build_info version_h environ stdout].
    destruct (src_dir w); [|done].
    cbn [ticks src_dir platformio_ini build_info version_h environ stdout].
    by rewrite <- app_assoc. }
  rewrite Hmain.
  cbn [fst snd ticks src_dir platformio_ini build_info version_h environ stdout].
  split; [done|]. split; [done|]. split; [done|].
  intros ->. split; [done|]. split; [done|]. split.
  - rewrite lookup_insert_ne by done. by rewrite lookup_insert_eq.
  - by rewrite lookup_insert_eq.
Qed.

(** C2.  Each run of [main] that finds the configuration file and a
    build-info file that is absent, or holds a record whose build number is
    absent or an integer, leaves a build-info file whose build number is the
    previous one plus one, the previous one counting as 1 when the file or
    the field was absent.  So from no build-info file the first run persists
    2 and the run after it persists 3.  When the directory of the header
    exists the run returns normally and the header it writes defines the
    version read from the configuration and the new build number. *)
Theorem main_increments_build_number (clock : nat → datetime) (w : world)
    (content : string) (n : Z) :
  platformio_ini w = Some content →
  persisted_build_number w = Some n →
  let r := main clock w in
  persisted_build_number r.2 = Some (n + 1)%Z ∧
  (build_info w = None →
   persisted_build_number r.2 = Some 2%Z ∧
   persisted_build_number (main clock r.2).2 = Some 3%Z) ∧
  (src_dir w = true →
   ∃ v,
     get_semantic_version w = (Ret v, w) ∧
     r.1 = Ret () ∧
     version_h r.2 = Some (version_content v (n + 1) (clock (S (ticks w)))) ∧
     build_info r.2 =
       Some (Some (JObj [("semantic_version", JStr v);
                         ("build_number", JInt (n + 1));
                         ("last_build", JStr (isoformat (clock (ticks w))))]))).
Proof.
  intros Hini Hn r. subst r.
  destruct (main_run clock w content n Hini Hn)
    as (v & Hv & Hini' & Hsrc & Hbi & Hhdr).
  assert (Hnext : persisted_build_number (main clock w).2 = Some (n + 1)%Z).
  { unfold persisted_build_number. rewrite Hbi. reflexivity. }
  split; [done|]. split.
  - intros Hnone.
    assert (n = 1%Z) as ->.
    { unfold persisted_build_number in Hn. rewrite Hnone in Hn. congruence. }
    split; [done|].
    destruct (main_run clock (main clock w).2 content (1 + 1) Hini' Hnext)
      as (v' & _ & _ & _ & Hbi' & _).
    unfold persisted_build_number. rewrite Hbi'. reflexivity.
  - intros Hdir. destruct (Hhdr Hdir) as (Hret & Hvh & _).
    exists v. done.
Qed.

Lemma main_increments_build_number_witness :
  let r := main Sample.clock Sample.v0 in
  persisted_build_number r.2 = Some 2%Z ∧
  (build_info Sample.v0 = None →
   persisted_build_number r.2 = Some 2%Z ∧
   persisted_build_number (main Sample.clock r.2).2 = Some 3%Z) ∧
  (src_dir Sample.v0 = true →
   ∃ v,
     get_semantic_version Sample.v0 = (Ret v, Sample.v0) ∧
     r.1 = Ret () ∧
     version_h r.2 = Some (version_content v 2 (Sample.clock 1)) ∧
     build_info r.2 =
       Some (Some (JObj [("semantic_version", JStr v);
                         ("build_number", JInt 2);
                         ("last_build", JStr (isoformat (Sample.clock 0)))]))).
Proof.
  apply (main_increments_build_number Sample.clock Sample.v0 Sample.ini 1);
    reflexivity.
Defined.

(** The first run on the sample: version 1.4.0, build number 2. *)
Example main_first_run :
  let r := main Sample.clock Sample.v0 in
  r.1 = Ret () ∧
  build_info r.2 =
    Some (Some (JObj [("semantic_version", JStr "1.4.0");
                      ("build_number", JInt 2);
                      ("last_build", JStr "2025-03-14T09:26:53")])) ∧
  version_h r.2 =
    Some ("#ifndef VERSION_H" +:+ nl +:+
          "#define VERSION_H" +:+ nl +:+ nl +:+
          "#define FIRMWARE_VERSION " +:+ dq +:+ "1.4.0" +:+ dq +:+ nl +:+
          "#define FIRMWARE_BUILD_NUMBER 2" +:+ nl +:+
          "#define FIRMWARE_BUILD_DATE " +:+ dq +:+ "2025-03-14 09:27:53" +:+ dq
            +:+ nl +:+ nl +:+
          "#endif // VERSION_H" +:+ nl) ∧
  stdout r.2 = ["Version: 1.4.0"; "Build number: 2"].
Proof. vm_compute. done. Qed.

End VersionProofs.

(** * The frontend packager: the build step and the entry point *)

Module BuildFacts.
Import BuildSveltekit FsFacts BuildFrontendProofs.
Local Open Scope nat_scope.

#[local] Arguments exists_at : simpl never.
#[local] Arguments isdir_at : simpl never.
#[local] Arguments isfile_at : simpl never.
#[local] Arguments lookup_path : simpl never.
#[local] Arguments join : simpl never.
#[local] Arguments dirname : simpl never.
#[local] Arguments basename : simpl never.
#[local] Arguments path_str : simpl never.
#[local] Arguments String.append : simpl never.
#[local] Arguments FRONTEND_DIR : simpl never.
#[local] Arguments BUILD_DIR : simpl never.
#[local] Arguments OUTPUT_DIR : simpl never.
#[local] Arguments str_exn : simpl never.
#[local] Arguments pretty : simpl never.
#[local] Arguments get_package_manager : simpl never.

Lemma isdir_exists (p : path) (t : node) :
  isdir_at p t = true → exists_at p t = true.
Proof.
  intros H. apply isdir_at_Some in H as [es H]. apply exists_at_Some. eauto.
Qed.

(** ** Without a frontend *)

(** Called on a project that has no frontend directory, [build_frontend]
    returns [False] having printed its banner and two lines of error; it
    changes nothing, starts no command and never changes directory. *)
Theorem build_frontend_without_frontend_dir (E : environment) (w : world) :
  exists_at (FRONTEND_DIR E) (fs w) = false →
  build_frontend E w =
    (Ret false,
     set_stdout
       (stdout w ++
        ["Building SvelteKit frontend...";
         "ERROR: Frontend directory not found at " +:+ path_str (FRONTEND_DIR E);
         "Please make sure your SvelteKit project is in the correct location"])
       w).
Proof.
  intros Hf. unfold build_frontend. py_unfold. simpl. rewrite Hf. simpl.
  unfold add_stdout, set_stdout. simpl. by rewrite <- !app_assoc.
Qed.

Lemma build_frontend_without_frontend_dir_witness :
  build_frontend Sample.E0 Sample.w_alone =
    (Ret false,
     set_stdout
       ["Building SvelteKit frontend...";
        "ERROR: Frontend directory not found at /Modular_Macropad_Front_End_v2";
        "Please make sure your SvelteKit project is in the correct location"]
       Sample.w_alone).
Proof.
  apply (build_frontend_without_frontend_dir Sample.E0 Sample.w_alone).
  reflexivity.
Defined.

(** The entry point on a project that has no frontend directory: a warning
    of two lines after the banner, and a normal return.  Neither the build
    nor the processing step is entered: the filesystem is untouched, no
    command is started, and none of their messages is printed. *)
Theorem main_skips_without_frontend (E : environment) (w : world) :
  exists_at (FRONTEND_DIR E) (fs w) = false →
  main E w =
    (Ret (),
     set_stdout
       (stdout w ++
        ["Starting SvelteKit build process...";
         "Warning: Frontend directory " +:+ path_str (FRONTEND_DIR E)
           +:+ " not found!";
         "SvelteKit build process will be skipped."])
       w).
Proof.
  intros Hf. unfold main. py_unfold. simpl. rewrite Hf. simpl.
  unfold add_stdout, set_stdout. simpl. by rewrite <- !app_assoc.
Qed.

Lemma main_skips_without_frontend_witness :
  main Sample.E0 Sample.w_alone =
    (Ret (),
     set_stdout
       ["Starting SvelteKit build process...";
        "Warning: Frontend directory /Modular_Macropad_Front_End_v2 not found!";
        "SvelteKit build process will be skipped."]
       Sample.w_alone).
Proof.
  apply (main_skips_without_frontend Sample.E0 Sample.w_alone). reflexivity.
Defined.

(** ** The commands of a build *)

(** Which commands [build_frontend] hands to [subprocess.run], once the
    frontend directory is there and a package manager [pm] is detected.  With
    [node_modules] in place the build command is the only one.  Without it
    the install command comes first, and the build command follows only when
    the install exited with status 0: after a failed install nothing more is
    started and the function does not return [True]. *)
Theorem build_frontend_commands (E : environment) (w : world) (pm : string) :
  isdir_at (FRONTEND_DIR E) (fs w) = true →
  (get_package_manager E w).1 = Ret (Some pm) →
  let r := build_frontend E w in
  let installed := exists_at (join (FRONTEND_DIR E) "node_modules") (fs w) in
  let install_ok :=
    match run_proc E [pm; "install"] (FRONTEND_DIR E) (fs w) with
    | Exited Z0 _ => true
    | _ => false
    end in
  spawned r.2 =
    spawned w ++
    (if installed then [[pm; "run"; "build"]]
     else if install_ok then [[pm; "install"]; [pm; "run"; "build"]]
     else [[pm; "install"]]) ∧
  (installed = false → install_ok = false → r.1 ≠ Ret true).
Proof.
  intros Hf Hpm r installed install_ok. subst r installed install_ok.
  pose proof (isdir_exists _ _ Hf) as Hex.
  destruct (build_frontend E w) as [o w'] eqn:Hrun. simpl.
  revert Hrun. unfold build_frontend. py_unfold. simpl. rewrite Hex. simpl.
  rewrite (get_package_manager_run E _ w) by done. rewrite Hpm. simpl.
  unfold os_chdir at 1. simpl. rewrite Hf. simpl.
  destruct (exists_at (join (FRONTEND_DIR E) "node_modules") (fs w)) eqn:Hnm;
    simpl; unfold subprocess_run, os_chdir; simpl; intros Hrun.
  - split; [|done]. crunch; done.
  - crunch; rewrite <- ?app_assoc; split; try done; intros; congruence.
Qed.

Lemma build_frontend_commands_witness :
  let r := build_frontend Sample.E_exit1 Sample.w_fresh in
  spawned r.2 = [["npm"; "install"]] ∧ r.1 ≠ Ret true.
Proof.
  destruct (build_frontend_commands Sample.E_exit1 Sample.w_fresh "npm")
    as [Hspawned Hnot].
  - reflexivity.
  - reflexivity.
  - split; [exact Hspawned|]. apply Hnot; reflexivity.
Defined.

Lemma build_frontend_succeeded (E : environment) (w w' : world) :
  build_frontend E w = (Ret true, w') →
  exists_at (BUILD_DIR E) (fs w') = true ∧
  cwd w' = cwd w ∧
  isdir_at (cwd w) (fs w') = true ∧
  ∃ pm, (get_package_manager E w).1 = Ret (Some pm) ∧
        last (spawned w') = Some [pm; "run"; "build"].
Proof.
  unfold build_frontend. py_unfold. simpl.
  destruct (exists_at (FRONTEND_DIR E) (fs w)) eqn:Hex; simpl; [|by intros [=]].
  rewrite (get_package_manager_run E _ w) by done.
  destruct ((get_package_manager E w).1) as [[pm|]|e] eqn:Hpm; simpl;
    [|by intros [=]..].
  unfold os_chdir, subprocess_run. simpl.
  intros Hrun. crunch;
    (split; [by apply negb_false_iff|]); (split; [done|]); (split; [done|]);
    exists pm; (split; [done|]); by rewrite ?app_assoc, last_snoc.
Qed.

(** When [build_frontend] returns [True], the build directory exists in the
    state it leaves, the build command was the last command started, and the
    process is back in the working directory it came from, which still
    exists. *)
Theorem build_frontend_true (E : environment) (w w' : world) :
  build_frontend E w = (Ret true, w') →
  exists_at (BUILD_DIR E) (fs w') = true ∧
  cwd w' = cwd w ∧
  isdir_at (cwd w) (fs w') = true ∧
  ∃ pm, (get_package_manager E w).1 = Ret (Some pm) ∧
        last (spawned w') = Some [pm; "run"; "build"].
Proof. apply build_frontend_succeeded. Qed.

Lemma build_frontend_true_witness :
  let w' := (build_frontend Sample.E0 Sample.w0).2 in
  exists_at ["Modular_Macropad_Front_End_v2"; "build"] (fs w') = true ∧
  cwd w' = ["fw"] ∧
  isdir_at ["fw"] (fs w') = true ∧
  ∃ pm, (get_package_manager Sample.E0 Sample.w0).1 = Ret (Some pm) ∧
        last (spawned w') = Some [pm; "run"; "build"].
Proof.
  apply (build_frontend_true Sample.E0 Sample.w0). reflexivity.
Defined.



(** The restoring [os.chdir] needs the original directory.  When the build
    command ends with that directory gone, the [os.chdir] back raises, inside
    the handler as well: [build_frontend] then ends by raising, and the
    process stays in the frontend directory. *)
Theorem build_frontend_cwd_lost (E : environment) (w : world) (pm : string)
    (rc : Z) (t : node) :
  isdir_at (FRONTEND_DIR E) (fs w) = true →
  (get_package_manager E w).1 = Ret (Some pm) →
  exists_at (join (FRONTEND_DIR E) "node_modules") (fs w) = true →
  run_proc E [pm; "run"; "build"] (FRONTEND_DIR E) (fs w) = Exited rc t →
  isdir_at (cwd w) t = false →
  let r := build_frontend E w in
  (∃ msg, r.1 = Raise (OSError msg)) ∧ cwd r.2 = FRONTEND_DIR E.
Proof.
  intros Hf Hpm Hnm Hrun Hcwd r. subst r.
  pose proof (isdir_exists _ _ Hf) as Hex.
  destruct (build_frontend E w) as [o w'] eqn:Hbuild. simpl.
  revert Hbuild. unfold build_frontend. py_unfold. simpl. rewrite Hex. simpl.
  rewrite (get_package_manager_run E _ w) by done. rewrite Hpm. simpl.
  unfold os_chdir at 1. simpl. rewrite Hf. simpl. rewrite Hnm. simpl.
  unfold subprocess_run. simpl. rewrite Hrun.
  unfold os_chdir. simpl. intros Hbuild.
  crunch; eauto; congruence.
Qed.

Lemma build_frontend_cwd_lost_witness :
  let r := build_frontend Sample.E_wipe Sample.w0 in
  (∃ msg, r.1 = Raise (OSError msg)) ∧
  cwd r.2 = ["Modular_Macropad_Front_End_v2"].
Proof.
  apply (build_frontend_cwd_lost Sample.E_wipe Sample.w0 "npm" 0
           (Dir [("Modular_Macropad_Front_End_v2", Sample.frontend)]));
    reflexivity.
Defined.

(** An interrupt from the keyboard while the build command runs is not
    caught: [build_frontend] ends by raising [KeyboardInterrupt], nothing
    more is printed, and the process stays in the frontend directory even
    though the original directory is there to go back to. *)
Theorem build_frontend_interrupt_escapes (E : environment) (w : world)
    (pm : string) (t : node) :
  isdir_at (FRONTEND_DIR E) (fs w) = true →
  (get_package_manager E w).1 = Ret (Some pm) →
  exists_at (join (FRONTEND_DIR E) "node_modules") (fs w) = true →
  run_proc E [pm; "run"; "build"] (FRONTEND_DIR E) (fs w) = Interrupted t →
  build_frontend E w =
    (Raise KeyboardInterrupt,
     World t (FRONTEND_DIR E)
       (stdout w ++
        ["Building SvelteKit frontend...";
         "Detected package manager: " +:+ pm;
         "Building frontend..."])
       (spawned w ++ [[pm; "run"; "build"]])
       (chdirs w ++ [FRONTEND_DIR E])).
Proof.
  intros Hf Hpm Hnm Hrun.
  pose proof (isdir_exists _ _ Hf) as Hex.
  unfold build_frontend. py_unfold. simpl. rewrite Hex. simpl.
  rewrite (get_package_manager_run E _ w) by done. rewrite Hpm. simpl.
  unfold os_chdir at 1. simpl. rewrite Hf. simpl. rewrite Hnm. simpl.
  unfold subprocess_run. simpl. rewrite Hrun. simpl.
  unfold set_cwd, set_fs, add_stdout, set_stdout. simpl.
  rewrite <- !app_assoc. simpl. done.
Qed.

Lemma build_frontend_interrupt_escapes_witness :
  build_frontend Sample.E_interrupt Sample.w0 =
    (Raise KeyboardInterrupt,
     World Sample.disk ["Modular_Macropad_Front_End_v2"]
       ["Building SvelteKit frontend...";
        "Detected package manager: npm";
        "Building frontend..."]
       [["npm"; "run"; "build"]]
       [["Modular_Macropad_Front_End_v2"]]).
Proof.
  apply (build_frontend_interrupt_escapes Sample.E_interrupt Sample.w0 "npm"
           Sample.disk); reflexivity.
Defined.


(** The run in which the build command succeeds and leaves a build
    directory. *)
Lemma build_frontend_success_run (E : environment) (w : world) (pm : string)
    (t : node) :
  isdir_at (FRONTEND_DIR E) (fs w) = true →
  (get_package_manager E w).1 = Ret (Some pm) →
  exists_at (join (FRONTEND_DIR E) "node_modules") (fs w) = true →
  run_proc E [pm; "run"; "build"] (FRONTEND_DIR E) (fs w) = Exited 0 t →
  exists_at (BUILD_DIR E) t = true →
  isdir_at (cwd w) t = true →
  build_frontend E w =
    (Ret true,
     World t (cwd w)
       (stdout w ++
        ["Building SvelteKit frontend...";
         "Detected package manager: " +:+ pm;
         "Building frontend..."])
       (spawned w ++ [[pm; "run"; "build"]])
       (chdirs w ++ [FRONTEND_DIR E; cwd w])).
Proof.
  intros Hf Hpm Hnm Hrun Hb Hcwd.
  pose proof (isdir_exists _ _ Hf) as Hex.
  unfold build_frontend. py_unfold. simpl. rewrite Hex. simpl.
  rewrite (get_package_manager_run E _ w) by done. rewrite Hpm. simpl.
  unfold os_chdir at 1. simpl. rewrite Hf. simpl. rewrite Hnm. simpl.
  unfold subprocess_run. simpl. rewrite Hrun. simpl. rewrite Hb. simpl.
  unfold os_chdir. simpl. rewrite Hcwd. simpl.
  unfold set_cwd, set_fs, add_stdout, set_stdout. simpl.
  rewrite <- !app_assoc. simpl. done.
Qed.

End BuildFacts.

(** * The frontend packager: what processing leaves alone *)

Module ProcessFacts.
Import BuildSveltekit FsFacts CompressProofs ProcessProofs.
Local Open Scope nat_scope.

#[local] Arguments join : simpl never.
#[local] Arguments dirname : simpl never.
#[local] Arguments basename : simpl never.
#[local] Arguments path_str : simpl never.
#[local] Arguments String.append : simpl never.
#[local] Arguments str_exn : simpl never.
#[local] Arguments update : simpl never.
#[local] Arguments lookup_path : simpl never.
#[local] Arguments pretty : simpl never.
#[local] Arguments compress_file : simpl never.
#[local] Arguments compress_entry : simpl never.
#[local] Arguments ends_with : simpl never.

(** ** Exceptions are caught *)

Section OnlyExceptions.
Context {S : Type}.



Lemma only_try {A} (body : Py S A) (handler : exn → Py S A) :
  (∀ e, raises_exceptions_only (handler e)) →
  raises_exceptions_only body →
  raises_exceptions_only (try_except body handler).
Proof.
  intros Hh Hb s e. unfold try_except. specialize (Hb s).
  destruct (body s) as [[a|e'] s']; [done|].
  rewrite (Hb e') by done. apply Hh.
Qed.




End OnlyExceptions.











(** ** States that differ below one directory only *)

Section Confined.
Variable top : path.

Lemma confined_to_refl (w : world) : confined_to top w w.
Proof. by repeat split. Qed.

Lemma confined_to_trans (w1 w2 w3 : world) :
  confined_to top w1 w2 → confined_to top w2 w3 → confined_to top w1 w3.
Proof.
  intros (Hc & Hs & Hd & Ho & Hf) (Hc' & Hs' & Hd' & Ho' & Hf').
  repeat split; try congruence.
  - by etrans.
  - intros q Hq. by rewrite Hf', Hf.
Qed.

Lemma confined_unchanged {A} (m : Py world A) :
  (∀ w, (m w).2 = w) → confined top m.
Proof. intros H w. rewrite H. apply confined_to_refl. Qed.

Lemma confined_ret {A} (a : A) : confined top (py_ret a).
Proof. by apply confined_unchanged. Qed.

Lemma confined_raise {A} (e : exn) : confined top (@py_raise world A e).
Proof. by apply confined_unchanged. Qed.

Lemma confined_bind {A B} (m : Py world A) (k : A → Py world B) :
  confined top m → (∀ a, confined top (k a)) → confined top (py_bind m k).
Proof.
  intros Hm Hk w. unfold py_bind. specialize (Hm w).
  destruct (m w) as [[a|e] w1]; [|done].
  eapply confined_to_trans; [exact Hm|apply Hk].
Qed.

Lemma confined_try {A} (body : Py world A) (handler : exn → Py world A) :
  confined top body → (∀ e, confined top (handler e)) →
  confined top (try_except body handler).
Proof.
  intros Hm Hk w. unfold try_except. specialize (Hm w).
  destruct (body w) as [[a|e] w1]; [done|].
  destruct (is_Exception e); [|done].
  eapply confined_to_trans; [exact Hm|apply Hk].
Qed.

Lemma confined_for {A X} (xs : list X) (body : A → X → Py world A) (acc : A) :
  (∀ a x, confined top (body a x)) → confined top (py_for xs body acc).
Proof.
  intros Hbody. revert acc. induction xs as [|x xs IH]; intros acc; simpl.
  - apply confined_ret.
  - apply confined_bind; [apply Hbody|apply IH].
Qed.

Lemma confined_print (line : string) : confined top (print line).
Proof.
  intros w. unfold print. simpl. repeat split. by apply prefix_app_r.
Qed.

Lemma confined_set_fs (w : world) (t : node) :
  (∀ q, apart top q → lookup_path q t = lookup_path q (fs w)) →
  confined_to top w (set_fs t w).
Proof. intros H. by repeat split. Qed.

Lemma apart_below (d q : path) :
  top `prefix_of` d → apart top q → ¬ d `prefix_of` q ∧ ¬ q `prefix_of` d.
Proof.
  intros Htd [Hqt Htq]. split.
  - intros Hdq. apply Htq. by etrans.
  - intros Hqd. destruct (prefix_weak_total _ _ _ Hqd Htd); done.
Qed.

Lemma lookup_update_below (d q : path) (f : node → node) (t : node) :
  top `prefix_of` d → apart top q →
  lookup_path q (update d f t) = lookup_path q t.
Proof.
  intros Htd Hq. destruct (apart_below d q Htd Hq).
  by apply lookup_update_disjoint.
Qed.

Lemma confined_modify_dir (d : path) (g : entries → entries) (w : world) :
  top `prefix_of` d → confined_to top w (set_fs (modify_dir d g (fs w)) w).
Proof.
  intros Htd. apply confined_set_fs. intros q Hq.
  unfold modify_dir. by apply lookup_update_below.
Qed.

Lemma confined_os_remove (p : path) :
  top `prefix_of` dirname p → confined top (os_remove p).
Proof.
  intros Hp w. unfold os_remove. destruct (isfile_at p (fs w)); simpl.
  - by apply confined_modify_dir.
  - apply confined_to_refl.
Qed.

Lemma confined_shutil_rmtree (p : path) :
  top `prefix_of` dirname p → confined top (shutil_rmtree p).
Proof.
  intros Hp w. unfold shutil_rmtree. destruct (isdir_at p (fs w)); simpl.
  - by apply confined_modify_dir.
  - apply confined_to_refl.
Qed.

Lemma confined_write_wb (p : path) (data : list byte) :
  top `prefix_of` dirname p → confined top (write_wb p data).
Proof.
  intros Hp w. unfold write_wb.
  destruct (isdir_at (dirname p) (fs w) && negb (isdir_at p (fs w))); simpl.
  - by apply confined_modify_dir.
  - apply confined_to_refl.
Qed.

(** Making directories resolves nothing differently but the way made. *)
Lemma makedirs_node_frame (p q : path) (t t' : node) :
  makedirs_node p t = Some t' → ¬ q `prefix_of` p →
  lookup_path q t' = lookup_path q t.
Proof.
  revert q t t'. induction p as [|n p IH]; intros q t t'; simpl.
  - destruct t; [done|]. by intros [= <-].
  - destruct t as [|es]; [done|].
    destruct (makedirs_node p (default (Dir []) (assoc n es))) as [c'|] eqn:Hc;
      [|done].
    intros [= <-] Hpre.
    destruct q as [|m q]; [destruct Hpre; apply prefix_nil|].
    rewrite !lookup_path_cons, assoc_set_entry.
    destruct (decide (m = n)) as [->|Hmn]; [|done].
    assert (Hq : ¬ q `prefix_of` p).
    { intros H. apply Hpre. by apply prefix_cons. }
    rewrite (IH q _ _ Hc Hq).
    destruct (assoc n es) as [c|] eqn:Hn; [done|]. simpl.
    destruct q as [|k q]; [destruct Hq; apply prefix_nil|].
    by rewrite lookup_path_cons.
Qed.

Lemma confined_os_makedirs (d : path) :
  d `prefix_of` top → confined top (os_makedirs d).
Proof.
  intros Hd w. unfold os_makedirs.
  destruct (makedirs_node d (fs w)) as [t|] eqn:Hmk; simpl.
  - apply confined_set_fs. intros q [Hq _].
    apply (makedirs_node_frame _ _ _ _ Hmk).
    intros H. apply Hq. by etrans.
  - apply confined_to_refl.
Qed.

Lemma confined_shutil_copytree (src : path) :
  confined top (shutil_copytree src top).
Proof.
  intros w. unfold shutil_copytree.
  destruct (lookup_path src (fs w)) as [[|ses]|]; try apply confined_to_refl.
  pose proof (confined_os_makedirs top (reflexivity _) w) as Hmk.
  destruct (os_makedirs top w) as [[[]|e] w1]; [|done].
  destruct (lookup_path top (fs w1)) as [[|des]|]; try done.
  destruct (copytree_node (Dir ses) des) as [des' err].
  assert (H : confined_to top w1
                (set_fs (update top (λ _, Dir des') (fs w1)) w1)).
  { apply confined_set_fs. intros q Hq. by apply lookup_update_below. }
  destruct err; simpl; by eapply confined_to_trans.
Qed.

Lemma confined_io_check (fails : bool) (msg : string) :
  confined top (io_check fails msg).
Proof. destruct fails; [apply confined_raise|apply confined_ret]. Qed.

Lemma confined_open_rb (p : path) : confined top (open_rb p).
Proof.
  apply confined_unchanged. intros w. unfold open_rb.
  by destruct (lookup_path p (fs w)) as [[|?]|].
Qed.

Lemma confined_compress_file (E : environment) (p : path) :
  top `prefix_of` dirname p → confined top (compress_file E p).
Proof.
  intros Hp.
  assert (Hgz : top `prefix_of` dirname (add_suffix ".gz" p)).
  { unfold add_suffix. by rewrite dirname_join. }
  unfold compress_file, mbind, Py_bind.
  apply confined_try.
  - apply confined_bind; [apply confined_io_check|intros _].
    apply confined_bind; [apply confined_open_rb|intros data].
    apply confined_bind; [apply confined_io_check|intros _].
    apply confined_bind; [by apply confined_write_wb|intros _].
    apply confined_bind.
    { destruct (fault_at E p);
        try (by apply confined_write_wb).
      apply confined_bind; [by apply confined_write_wb|intros _].
      apply confined_raise. }
    intros _.
    apply confined_bind; [apply confined_io_check|intros _].
    apply confined_bind; [by apply confined_os_remove|intros _].
    apply confined_ret.
  - intros e. apply confined_bind; [apply confined_print|intros _].
    apply confined_ret.
Qed.

Lemma confined_compress_files_in (E : environment) (counts : nat * nat)
    (root : path) (dirs files : list string) :
  top `prefix_of` root → confined top (compress_files_in E counts root dirs files).
Proof.
  intros Hroot. unfold compress_files_in. apply confined_for.
  intros [c e] file. destruct (negb (ends_with ".gz" file)).
  - apply confined_bind.
    + apply confined_compress_file. by rewrite dirname_join.
    + intros []; apply confined_ret.
  - apply confined_ret.
Qed.

Lemma confined_os_walk_for (E : environment) (k : nat) :
  ∀ (root : path) (counts : nat * nat),
    top `prefix_of` root →
    confined top (os_walk_for k root (compress_files_in E) counts).
Proof.
  induction k as [|k IH]; intros root counts Hroot; simpl.
  - apply confined_ret.
  - intros w. unfold py_bind at 1. unfold py_get.
    destruct (lookup_path root (fs w)) as [[|es]|];
      try apply confined_to_refl.
    apply confined_bind; [by apply confined_compress_files_in|].
    intros acc. apply confined_for. intros a d. apply IH.
    unfold join. by apply prefix_app_r.
Qed.

Lemma confined_os_walk (E : environment) (counts : nat * nat) :
  confined top (os_walk top (compress_files_in E) counts).
Proof.
  intros w. unfold os_walk, py_bind, py_get.
  by apply confined_os_walk_for.
Qed.

End Confined.

Lemma process_confined (E : environment) :
  confined (OUTPUT_DIR E) (process_frontend_files E).
Proof.
  unfold process_frontend_files, mbind, Py_bind.
  apply confined_bind; [apply confined_print|intros _].
  apply confined_bind; [by apply confined_unchanged|intros ex].
  destruct (negb ex).
  { apply confined_bind; [apply confined_print|intros _]. apply confined_ret. }
  apply confined_try.
  2:{ intros e. apply confined_bind; [apply confined_print|intros _].
      apply confined_ret. }
  apply confined_bind; [by apply confined_os_makedirs|intros _].
  apply confined_bind.
  { apply confined_unchanged. intros w. unfold os_listdir.
    by destruct (lookup_path (OUTPUT_DIR E) (fs w)) as [[|?]|]. }
  intros items.
  apply confined_bind.
  { apply confined_for. intros _ item.
    apply confined_bind; [by apply confined_unchanged|intros isf].
    destruct isf.
    - apply confined_os_remove. by rewrite dirname_join.
    - apply confined_bind; [by apply confined_unchanged|intros isd].
      destruct isd; [|apply confined_ret].
      apply confined_shutil_rmtree. by rewrite dirname_join. }
  intros _.
  apply confined_bind.
  { apply confined_os_makedirs. rewrite OUTPUT_DIR_parent.
    unfold OUTPUT_DIR. unfold join at 2. by apply prefix_app_r. }
  intros _.
  apply confined_bind; [apply confined_print|intros _].
  apply confined_bind; [apply confined_shutil_copytree|intros _].
  apply confined_bind; [apply confined_print|intros _].
  apply confined_bind; [apply confined_os_walk|intros [c e]].
  apply confined_bind; [apply confined_print|intros _].
  apply confined_ret.
Qed.


(** [process_frontend_files] acts on the output directory only.  It starts
    no command and leaves the working directory alone; what was printed
    before is still there; every path that leaves the way to the output
    directory resolves after the run as it did before; and the build
    directory in particular is untouched. *)
Theorem process_touches_only_output (E : environment) (w : world) :
  let r := process_frontend_files E w in
  cwd r.2 = cwd w ∧ spawned r.2 = spawned w ∧ chdirs r.2 = chdirs w ∧
  stdout w `prefix_of` stdout r.2 ∧
  (∀ q, apart (OUTPUT_DIR E) q →
        lookup_path q (fs r.2) = lookup_path q (fs w)) ∧
  lookup_path (BUILD_DIR E) (fs r.2) = lookup_path (BUILD_DIR E) (fs w).
Proof.
  intros r. subst r.
  destruct (process_confined E w) as (Hc & Hs & Hd & Ho & Hf).
  repeat split; try done.
  apply Hf. destruct (build_output_apart E). by split.
Qed.

(** ** One file *)

(** [compress_file] touches two names at most, the file and its sibling with
    [.gz] appended: every path that leaves the way to both resolves as
    before, and nothing but the filesystem and the output changes. *)
Theorem compress_file_touches_two_names (E : environment) (p : path)
    (w : world) :
  let r := compress_file E p w in
  cwd r.2 = cwd w ∧ spawned r.2 = spawned w ∧ chdirs r.2 = chdirs w ∧
  stdout w `prefix_of` stdout r.2 ∧
  ∀ q, apart p q → apart (add_suffix ".gz" p) q →
       lookup_path q (fs r.2) = lookup_path q (fs w).
Proof.
  intros r. subst r.
  destruct (confined_compress_file [] E p (prefix_nil _) w)
    as (Hc & Hs & Hd & Ho & _).
  repeat split; try done.
  intros q Hq Hqgz.
  destruct (decide (p = [])) as [->|Hne].
  { destruct Hq as [_ Hq]. destruct Hq. apply prefix_nil. }
  destruct (isfile_at p (fs w)) eqn:Hisfile.
  2:{ by destruct (compress_file_not_a_file E p w Hisfile) as [out ->]. }
  destruct (exists_last Hne) as (root & file & ->).
  change (root ++ [file]) with (join root file) in *.
  rewrite add_suffix_join in Hqgz.
  destruct Hq as [Hq1 Hq2]. destruct Hqgz as [_ Hq3].
  unfold isfile_at in Hisfile. rewrite lookup_path_join in Hisfile.
  destruct (lookup_path root (fs w)) as [[|es]|] eqn:Hroot; try done.
  destruct (compress_file_in E root file w es Hroot) as [out ->]. simpl.
  destruct (decide (root `prefix_of` q)) as [[k ->]|Hrq].
  2:{ apply lookup_update_disjoint; [done|].
      intros Hqr. apply Hq1. unfold join. by apply prefix_app_r. }
  rewrite !lookup_path_app, (lookup_update _ _ _ _ Hroot), Hroot. simpl.
  destruct k as [|g k].
  { destruct Hq1. rewrite app_nil_r. unfold join. by apply prefix_app_r. }
  rewrite !lookup_path_cons.
  rewrite compress_entry_other; [done| |].
  - intros ->. apply Hq2. unfold join. apply prefix_app, prefix_cons, prefix_nil.
  - intros ->. apply Hq3. unfold join. apply prefix_app, prefix_cons, prefix_nil.
Qed.

Lemma compress_file_touches_two_names_witness :
  lookup_path ["Modular_Macropad_Front_End_v2"; "build"]
    (fs (compress_file Sample.E0 ["fw"; "data"; "web"; "stale.txt"]
           Sample.w0).2) =
    Some Sample.site.
Proof.
  destruct (compress_file_touches_two_names Sample.E0
              ["fw"; "data"; "web"; "stale.txt"] Sample.w0)
    as (_ & _ & _ & _ & Hf).
  rewrite (Hf ["Modular_Macropad_Front_End_v2"; "build"]).
  - reflexivity.
  - split; intros [k Hk]; discriminate Hk.
  - split; intros [k Hk]; discriminate Hk.
Defined.

(** When the path is not a regular file, or the name with [.gz] appended is
    taken by a directory, [compress_file] returns [False] with one line of
    error naming the path, and leaves the filesystem exactly as it was: no
    sibling is created. *)
Theorem compress_file_fails_cleanly (E : environment) (p : path) (w : world) :
  isfile_at p (fs w) = false ∨ isdir_at (add_suffix ".gz" p) (fs w) = true →
  ∃ msg,
    compress_file E p w =
    (Ret false,
     add_stdout ("Error compressing file " +:+ path_str p +:+ ": " +:+ msg) w).
Proof.
  intros H.
  unfold compress_file, try_except, mbind, Py_bind, py_bind, io_check, py_ret,
    py_raise, print, open_rb.
  destruct H as [H|H].
  - unfold isfile_at in H.
    destruct (fault_at E p); destruct (lookup_path p (fs w)) as [[|?]|];
      try done; eexists; reflexivity.
  - destruct (fault_at E p); destruct (lookup_path p (fs w)) as [[|?]|];
      unfold write_wb; simpl; rewrite ?H, ?andb_false_r; simpl;
      eexists; reflexivity.
Qed.

Lemma compress_file_fails_cleanly_witness :
  ∃ msg,
    compress_file Sample.E0 ["fw"; "data"; "web"; "missing.js"] Sample.w0 =
    (Ret false,
     add_stdout ("Error compressing file /fw/data/web/missing.js: " +:+ msg)
       Sample.w0).
Proof.
  apply (compress_file_fails_cleanly Sample.E0
           ["fw"; "data"; "web"; "missing.js"] Sample.w0).
  left. reflexivity.
Defined.

(** [compress_file] returns [True] in one situation only: the path names a
    regular file, no I/O error is met, and the name with [.gz] appended is
    not a directory. *)
Theorem compress_file_succeeds_iff (E : environment) (p : path) (w : world) :
  p ≠ [] →
  (compress_file E p w).1 = Ret true ↔
  isfile_at p (fs w) = true ∧ fault_at E p = NoFault ∧
  isdir_at (add_suffix ".gz" p) (fs w) = false.
Proof.
  intros Hne.
  destruct (isfile_at p (fs w)) eqn:Hisfile.
  2:{ destruct (compress_file_not_a_file E p w Hisfile) as [out ->]. simpl.
      split; [done|]. by intros [? _]. }
  destruct (exists_last Hne) as (root & file & ->).
  change (root ++ [file]) with (join root file) in *.
  unfold isfile_at in Hisfile. rewrite lookup_path_join in Hisfile.
  destruct (lookup_path root (fs w)) as [[|es]|] eqn:Hroot; try done.
  destruct (assoc file es) as [[data|]|] eqn:Hfile; try done.
  destruct (compress_file_in E root file w es Hroot) as [out ->]. simpl.
  rewrite (compress_entry_result E root file es data Hfile).
  rewrite add_suffix_join. unfold isdir_at. rewrite lookup_path_join, Hroot.
  destruct (fault_at E (join root file)); simpl;
    destruct (assoc (file +:+ ".gz") es) as [[|?]|]; simpl;
    split; try done; try (by intros (_ & ? & _)); by intros (_ & _ & ?).
Qed.

Lemma compress_file_succeeds_iff_witness :
  (compress_file Sample.E0 ["fw"; "data"; "web"; "stale.txt"] Sample.w0).1 =
    Ret true.
Proof.
  apply (compress_file_succeeds_iff Sample.E0
           ["fw"; "data"; "web"; "stale.txt"] Sample.w0); [done|].
  repeat split; reflexivity.
Defined.

(** ** The reset *)

(** The output directory is reset, not merged into.  Two runs that find the
    same build tree end with the same output directory and the same result,
    whatever the output directory held before each of them. *)
Theorem process_resets_output (E : environment) (w1 w2 : world)
    (bes : entries) :
  lookup_path (BUILD_DIR E) (fs w1) = Some (Dir bes) →
  lookup_path (BUILD_DIR E) (fs w2) = Some (Dir bes) →
  wf_node (Dir bes) = true →
  is_Some (makedirs_node (OUTPUT_DIR E) (fs w1)) →
  is_Some (makedirs_node (OUTPUT_DIR E) (fs w2)) →
  let r1 := process_frontend_files E w1 in
  let r2 := process_frontend_files E w2 in
  r1.1 = r2.1 ∧
  lookup_path (OUTPUT_DIR E) (fs r1.2) = lookup_path (OUTPUT_DIR E) (fs r2.2) ∧
  is_Some (lookup_path (OUTPUT_DIR E) (fs r1.2)).
Proof.
  intros Hb1 Hb2 Hwf [t1 Hmk1] [t2 Hmk2] r1 r2. subst r1 r2.
  destruct (process_run E w1 bes t1 Hb1 Hwf Hmk1) as [out1 ->].
  destruct (process_run E w2 bes t2 Hb2 Hwf Hmk2) as [out2 ->].
  cbn [fst snd fs].
  pose proof (makedirs_node_isdir _ _ _ Hmk1) as [es1 Ho1]%isdir_at_Some.
  pose proof (makedirs_node_isdir _ _ _ Hmk2) as [es2 Ho2]%isdir_at_Some.
  rewrite (lookup_update _ _ _ _ Ho1), (lookup_update _ _ _ _ Ho2).
  split; [done|]. split; [done|]. eauto.
Qed.

Lemma process_resets_output_witness :
  let r1 := process_frontend_files Sample.E0 Sample.w0 in
  let r2 := process_frontend_files Sample.E0 r1.2 in
  r1.1 = r2.1 ∧
  lookup_path ["fw"; "data"; "web"] (fs r1.2) =
    lookup_path ["fw"; "data"; "web"] (fs r2.2) ∧
  is_Some (lookup_path ["fw"; "data"; "web"] (fs r1.2)).
Proof.
  apply (process_resets_output Sample.E0 Sample.w0
           (process_frontend_files Sample.E0 Sample.w0).2
           [("index.html", File [x3c; x68; x3e]);
            ("_app", Dir [("app.js", File [x61; x3b]); ("app.css", File [x62])])]).
  - reflexivity.
  - vm_compute. reflexivity.
  - reflexivity.
  - eexists. reflexivity.
  - eexists. vm_compute. reflexivity.
Defined.

(** ** Files that are compressed already *)

Section AllGz.
Variable E : environment.

Lemma compress_entries_all_gz (root : path) (files : list string) (es : entries)
    (counts : nat * nat) :
  (∀ f, f ∈ files → ends_with ".gz" f = true) →
  compress_entries E root files es counts = (es, counts).
Proof.
  induction files as [|f files IH]; intros H; simpl; [done|].
  rewrite (H f) by apply list_elem_of_here.
  apply IH. intros g Hg. apply H. by apply list_elem_of_further.
Qed.

Lemma walk_subdirs_id (root : path) (l : entries) :
  ∀ acc,
    (∀ n sub, (n, Dir sub) ∈ l →
       assoc n acc.1 = Some (Dir sub) ∧
       ∀ counts, walk_tree E (join root n) (Dir sub) counts = (Dir sub, counts)) →
    walk_subdirs E root l acc = acc.
Proof.
  induction l as [|[n [data|sub]] l IH]; intros acc H.
  - done.
  - rewrite walk_subdirs_file. apply IH. intros m sub Hin.
    apply H. by apply list_elem_of_further.
  - rewrite walk_subdirs_dir.
    destruct (H n sub (list_elem_of_here _ _)) as [Hn Hw].
    rewrite Hw. cbn [fst snd].
    rewrite map_entry_id by (intros c Hc; congruence).
    destruct acc as [es counts]. apply IH. intros m sub' Hin.
    apply H. by apply list_elem_of_further.
Qed.

Lemma walk_tree_all_gz (t : node) :
  ∀ root counts,
    wf_node t = true → all_gz t → walk_tree E root t counts = (t, counts).
Proof.
  induction t as [data|es IH] using node_ind'; intros root counts Hwf Hgz.
  - done.
  - rewrite walk_tree_Dir. cbv zeta.
    apply wf_node_Dir_inv in Hwf as [Hnd Hall].
    rewrite compress_entries_all_gz.
    2:{ intros f Hf. apply (Hgz [f]). rewrite files_of_Dir.
        apply elem_of_app. left. apply list_elem_of_fmap. by exists f. }
    rewrite walk_subdirs_id; [done|].
    intros n sub Hin. split; [by apply assoc_NoDup|].
    intros counts'. rewrite Forall_forall in IH.
    apply (IH _ Hin).
    + by eapply all_wf_elem.
    + intros p Hp.
      rewrite <- (basename_cons n) by by eapply files_of_dir_nonempty.
      apply Hgz. by eapply files_of_child.
Qed.

End AllGz.

(** A build tree whose files are all named [*.gz] already is copied as it
    is: the run compresses nothing, reports 0 files and 0 errors, returns
    [True], and the output directory is the build tree, byte for byte. *)
Theorem process_copies_compressed_tree (E : environment) (w : world)
    (bes : entries) :
  lookup_path (BUILD_DIR E) (fs w) = Some (Dir bes) →
  wf_node (Dir bes) = true →
  all_gz (Dir bes) →
  is_Some (makedirs_node (OUTPUT_DIR E) (fs w)) →
  let r := process_frontend_files E w in
  r.1 = Ret true ∧
  lookup_path (OUTPUT_DIR E) (fs r.2) = Some (Dir bes) ∧
  last (stdout r.2) = Some (summary_line (0, 0)).
Proof.
  intros Hb Hwf Hgz [t0 Hmk] r. subst r.
  destruct (process_run E w bes t0 Hb Hwf Hmk) as [out ->].
  rewrite (walk_tree_all_gz E (Dir bes)) by done.
  cbn [fst snd fs stdout].
  pose proof (makedirs_node_isdir _ _ _ Hmk) as [es Ho]%isdir_at_Some.
  rewrite (lookup_update _ _ _ _ Ho). by rewrite last_snoc.
Qed.

Lemma process_copies_compressed_tree_witness :
  let r := process_frontend_files Sample.E0 Sample.w_gz in
  r.1 = Ret true ∧
  lookup_path ["fw"; "data"; "web"] (fs r.2) = Some Sample.gz_site ∧
  last (stdout r.2) =
    Some "Frontend files processed. Compressed 0 files with 0 errors.".
Proof.
  apply (process_copies_compressed_tree Sample.E0 Sample.w_gz
           [("index.html.gz", File [x1f; x8b; x3c]);
            ("_app", Dir [("app.js.gz", File [x1f; x8b; x61])])]).
  - reflexivity.
  - reflexivity.
  - intros p Hp. vm_compute in Hp.
    repeat (apply elem_of_cons in Hp as [->|Hp]; [reflexivity|]).
    by apply elem_of_nil in Hp.
  - eexists. reflexivity.
Defined.

End ProcessFacts.

(** * The frontend packager: the entry point, end to end *)

Module MainFacts.
Import BuildSveltekit FsFacts BuildFrontendProofs ProcessProofs BuildFacts
  ProcessFacts.
Local Open Scope nat_scope.

#[local] Arguments exists_at : simpl never.
#[local] Arguments isdir_at : simpl never.
#[local] Arguments lookup_path : simpl never.
#[local] Arguments update : simpl never.
#[local] Arguments join : simpl never.
#[local] Arguments path_str : simpl never.
#[local] Arguments String.append : simpl never.
#[local] Arguments FRONTEND_DIR : simpl never.
#[local] Arguments BUILD_DIR : simpl never.
#[local] Arguments OUTPUT_DIR : simpl never.
#[local] Arguments build_frontend : simpl never.
#[local] Arguments process_frontend_files : simpl never.

(** [main] once the build step has returned. *)
Lemma main_after_build (E : environment) (w w1 : world) (b : bool) :
  exists_at (FRONTEND_DIR E) (fs w) = true →
  build_frontend E (add_stdout "Starting SvelteKit build process..." w) =
    (Ret b, w1) →
  main E w =
  if b then
    match process_frontend_files E w1 with
    | (Ret true, w2) =>
        (Ret (), add_stdout "SvelteKit build completed and prepared for LittleFS" w2)
    | (Ret false, w2) =>
        (Ret (), add_stdout "Failed to process SvelteKit build files" w2)
    | (Raise e, w2) => (Raise e, w2)
    end
  else (Ret (), add_stdout "Failed to build SvelteKit frontend" w1).
Proof.
  intros Hex Hbuild. unfold main, mbind, Py_bind.
  rewrite (py_bind_ret _ _ _ _ _ (print_ok _ _)). cbv beta.
  rewrite (py_bind_ret _ _ _ _ _ (os_path_exists_ok _ _)). cbv beta.
  rewrite fs_add_stdout, Hex. change (negb true) with false. cbv iota.
  rewrite (py_bind_ret _ _ _ _ _ Hbuild). cbv beta.
  destruct b; [|done]. unfold py_bind.
  by destruct (process_frontend_files E w1) as [[[]|e] w2].
Qed.




Lemma filter_none {A} (P : A → bool) (l : list A) :
  (∀ x, x ∈ l → P x = false) → filter (λ x, P x = true) l = [].
Proof.
  induction l as [|x l IH]; intros H; [done|].
  rewrite filter_cons. rewrite (H x) by apply list_elem_of_here.
  rewrite decide_False by done.
  apply IH. intros y Hy. apply H. by apply list_elem_of_further.
Qed.

(** End to end.  With dependencies installed, a build command that exits
    with status 0 and leaves a build tree whose files can all be compressed:
    [main] starts that one command, returns in the original working
    directory, ends on the success line, and leaves as the output directory
    the build tree with every file replaced by its compressed sibling. *)
Theorem main_packages_build (E : environment) (w : world) (pm : string)
    (t : node) (bes : entries) :
  isdir_at (FRONTEND_DIR E) (fs w) = true →
  (get_package_manager E w).1 = Ret (Some pm) →
  exists_at (join (FRONTEND_DIR E) "node_modules") (fs w) = true →
  run_proc E [pm; "run"; "build"] (FRONTEND_DIR E) (fs w) = Exited 0 t →
  isdir_at (cwd w) t = true →
  lookup_path (BUILD_DIR E) t = Some (Dir bes) →
  wf_node (Dir bes) = true →
  all_compressible E (OUTPUT_DIR E) (Dir bes) →
  is_Some (makedirs_node (OUTPUT_DIR E) t) →
  let r := main E w in
  r.1 = Ret () ∧ cwd r.2 = cwd w ∧
  spawned r.2 = spawned w ++ [[pm; "run"; "build"]] ∧
  last (stdout r.2) =
    Some "SvelteKit build completed and prepared for LittleFS" ∧
  lookup_path (OUTPUT_DIR E) (fs r.2) =
    Some (gz_tree E (OUTPUT_DIR E) (Dir bes)) ∧
  files_of (gz_tree E (OUTPUT_DIR E) (Dir bes)) =
    map (add_suffix ".gz") (files_of (Dir bes)).
Proof.
  intros Hf Hpm Hnm Hrun Hcwd Hb Hwf Hall [t0 Hmk] r. subst r.
  pose proof (isdir_exists _ _ Hf) as Hex.
  assert (Hbex : exists_at (BUILD_DIR E) t = true)
    by by rewrite exists_at_lookup, Hb.
  assert (Hpm' : (get_package_manager E
                    (add_stdout "Starting SvelteKit build process..." w)).1 =
                 Ret (Some pm))
    by by rewrite (get_package_manager_run E _ w).
  pose proof (build_frontend_success_run E
                (add_stdout "Starting SvelteKit build process..." w) pm t
                Hf Hpm' Hnm Hrun Hbex Hcwd) as Hbuild.
  rewrite (main_after_build E w _ true Hex Hbuild).
  set (w1 := World t _ _ _ _).
  destruct (process_run_counts E w1 bes t0 Hb Hwf Hmk) as [out Hproc].
  rewrite filter_none in Hproc.
  2:{ intros p Hp. apply list_elem_of_filter in Hp as [_ Hp].
      by apply Hall. }
  rewrite Hproc. rewrite bool_decide_eq_true_2 by done.
  cbn [fst snd cwd spawned stdout fs add_stdout set_stdout].
  split; [done|]. split; [done|]. split; [done|].
  split; [by rewrite last_snoc|].
  pose proof (makedirs_node_isdir _ _ _ Hmk) as [es Ho]%isdir_at_Some.
  rewrite (lookup_update _ _ _ _ Ho).
  rewrite (walk_tree_gz E (Dir bes) bes) by done.
  split; [done|].
  by apply (PackagingProofs.files_of_gz_tree E (Dir bes) bes).
Qed.

Lemma main_packages_build_witness :
  let r := main Sample.E0 Sample.w0 in
  r.1 = Ret () ∧ cwd r.2 = ["fw"] ∧
  spawned r.2 = [["npm"; "run"; "build"]] ∧
  last (stdout r.2) =
    Some "SvelteKit build completed and prepared for LittleFS" ∧
  lookup_path ["fw"; "data"; "web"] (fs r.2) =
    Some (gz_tree Sample.E0 ["fw"; "data"; "web"] Sample.site) ∧
  files_of (gz_tree Sample.E0 ["fw"; "data"; "web"] Sample.site) =
    [["index.html.gz"]; ["_app"; "app.js.gz"]; ["_app"; "app.css.gz"]].
Proof.
  apply (main_packages_build Sample.E0 Sample.w0 "npm" Sample.disk
           [("index.html", File [x3c; x68; x3e]);
            ("_app", Dir [("app.js", File [x61; x3b]); ("app.css", File [x62])])]).
  - reflexivity.
  - reflexivity.
  - reflexivity.
  - reflexivity.
  - reflexivity.
  - reflexivity.
  - reflexivity.
  - intros p Hp. vm_compute in Hp.
    repeat (apply elem_of_cons in Hp as [->|Hp]; [by vm_compute|]).
    by apply elem_of_nil in Hp.
  - eexists. reflexivity.
Defined.

End MainFacts.

(** * The version stamper: failures, exports and repeated runs *)

Module StamperFacts.
Import Version VersionProofs.
Local Open Scope nat_scope.

#[local] Arguments String.append : simpl never.
#[local] Arguments re_search : simpl never.
#[local] Arguments version_content : simpl never.
#[local] Arguments isoformat : simpl never.
#[local] Arguments pretty : simpl never.

(** ** One run, step by step *)




Lemma main_steps (clock : nat → datetime) (w : world) (v : string) (j : json)
    (z : Z) :
  get_semantic_version w = (Ret v, w) →
  get_current_build_number w = (Ret j, w) →
  py_add j 1 w = (Ret z, w) →
  main clock w =
    (if src_dir w then Ret ()
     else Raise (OSError "[Errno 2] No such file or directory: 'src/version.h'"),
     World (platformio_ini w)
       (Some (Some (JObj [("semantic_version", JStr v);
                          ("build_number", JInt z);
                          ("last_build", JStr (isoformat (clock (ticks w))))])))
       (src_dir w)
       (if src_dir w
        then Some (version_content v z (clock (S (ticks w))))
        else version_h w)
       (if src_dir w
        then <["SEMANTIC_VERSION" := v]>
               (<["BUILD_NUMBER" := pretty z]> (environ w))
        else environ w)
       (if src_dir w
        then stdout w ++ ["Version: " +:+ v; "Build number: " +:+ pretty z]
        else stdout w)
       (S (S (ticks w)))).
Proof.
  intros Hv Hcur Hadd.
  unfold main, mbind, Py_bind, py_bind. rewrite Hv, Hcur, Hadd.
  unfold py_ret, save_build_info, update_version_header,
    datetime_now, environ_set, print, py_bind.
  cbn [ticks src_dir platformio_ini build_info version_h environ stdout].
  destruct (src_dir w); [|done].
  cbn [ticks src_dir platformio_ini build_info version_h environ stdout].
  by rewrite <- app_assoc.
Qed.


(** ** Failures *)




(** ** What a successful run exports *)

(** A run that finds the configuration file, an integer build number [n]
    (1 when absent) and the [src] directory sets the two environment
    variables, the build number as decimal text, and leaves every other
    variable alone; it prints exactly two lines, the version and the new
    build number; and it does not touch the configuration file. *)
Theorem main_exports (clock : nat → datetime) (w : world) (content : string)
    (n : Z) :
  platformio_ini w = Some content →
  persisted_build_number w = Some n →
  src_dir w = true →
  let r := main clock w in
  ∃ v,
    get_semantic_version w = (Ret v, w) ∧
    environ r.2 !! "BUILD_NUMBER" = Some (pretty (n + 1)%Z) ∧
    environ r.2 !! "SEMANTIC_VERSION" = Some v ∧
    (∀ k, k ≠ "BUILD_NUMBER" → k ≠ "SEMANTIC_VERSION" →
          environ r.2 !! k = environ w !! k) ∧
    stdout r.2 =
      stdout w ++ ["Version: " +:+ v; "Build number: " +:+ pretty (n + 1)%Z] ∧
    platformio_ini r.2 = Some content.
Proof.
  intros Hini Hn Hsrc r. subst r.
  destruct (get_semantic_version_run w content Hini) as (v & Hv & _).
  exists v. split; [done|].
  assert (Hcur : get_current_build_number w = (Ret (JInt n), w)).
  { unfold persisted_build_number in Hn. unfold get_current_build_number.
    destruct (build_info w) as [[[| | | | |data]|]|]; try done.
    - destruct (dict_get "build_number" data (JInt 1)); try done.
      by injection Hn as ->.
    - by injection Hn as <-. }
  rewrite (main_steps clock w v (JInt n) (n + 1) Hv Hcur eq_refl).
  rewrite Hsrc. cbn [fst snd environ stdout platformio_ini].
  split; [|split; [|split; [|done]]].
  - rewrite lookup_insert_ne by done. by rewrite lookup_insert_eq.
  - by rewrite lookup_insert_eq.
  - intros k Hk1 Hk2. by rewrite !lookup_insert_ne.
Qed.

Lemma main_exports_witness :
  let r := main Sample.clock Sample.v0 in
  ∃ v,
    get_semantic_version Sample.v0 = (Ret v, Sample.v0) ∧
    environ r.2 !! "BUILD_NUMBER" = Some (pretty 2%Z) ∧
    environ r.2 !! "SEMANTIC_VERSION" = Some v ∧
    (∀ k, k ≠ "BUILD_NUMBER" → k ≠ "SEMANTIC_VERSION" →
          environ r.2 !! k = (∅ : gmap string string) !! k) ∧
    stdout r.2 = [] ++ ["Version: " +:+ v; "Build number: " +:+ pretty 2%Z] ∧
    platformio_ini r.2 = Some Sample.ini.
Proof.
  apply (main_exports Sample.clock Sample.v0 Sample.ini 1); reflexivity.
Defined.

(** ** Run after run *)

(** The build number counts the runs.  From a configuration file and an
    integer build number [n] (1 when absent), [k] runs of [main] one after
    the other leave the build number [n + k]; the configuration file is the
    same throughout. *)
Theorem main_runs_count (clock : nat → datetime) (k : nat) :
  ∀ (w : world) (content : string) (n : Z),
    platformio_ini w = Some content →
    persisted_build_number w = Some n →
    persisted_build_number (main_runs clock k w) = Some (n + Z.of_nat k)%Z ∧
    platformio_ini (main_runs clock k w) = Some content.
Proof.
  induction k as [|k IH]; intros w content n Hini Hn.
  - simpl. by rewrite Z.add_0_r.
  - destruct (main_run clock w content n Hini Hn)
      as (v & _ & Hini' & _ & Hbi & _).
    assert (Hn' : persisted_build_number (main clock w).2 = Some (n + 1)%Z).
    { unfold persisted_build_number. rewrite Hbi. reflexivity. }
    destruct (IH _ content (n + 1)%Z Hini' Hn') as [Hk Hc].
    cbn [main_runs]. rewrite Hk, Hc. split; [|done]. f_equal. lia.
Qed.

Lemma main_runs_count_witness :
  persisted_build_number (main_runs Sample.clock 3 Sample.v0) = Some 4%Z ∧
  platformio_ini (main_runs Sample.clock 3 Sample.v0) = Some Sample.ini.
Proof.
  apply (main_runs_count Sample.clock 3 Sample.v0 Sample.ini 1); reflexivity.
Defined.

(** ** The version that is read *)

(** Whatever the configuration file holds, the version [get_semantic_version]
    returns is not empty and has no double quote in it: written between
    quotes into the header, it cannot close the string early. *)
Theorem get_semantic_version_quotable (w : world) (content : string) :
  platformio_ini w = Some content →
  ∃ v,
    get_semantic_version w = (Ret v, w) ∧
    v ≠ EmptyString ∧ all_of not_dquote v = true.
Proof.
  intros Hini.
  destruct (get_semantic_version_run w content Hini) as (v & Hv & Hcase).
  exists v. split; [done|].
  destruct Hcase as [(pre & rest & _ & Hhere & _)|[_ ->]]; [|done].
  by destruct Hhere as (ws1 & ws2 & post & _ & _ & _ & Hne & Hq).
Qed.

Lemma get_semantic_version_quotable_witness :
  ∃ v,
    get_semantic_version Sample.v0 = (Ret v, Sample.v0) ∧
    v ≠ EmptyString ∧ all_of not_dquote v = true.
Proof.
  apply (get_semantic_version_quotable Sample.v0 Sample.ini). reflexivity.
Defined.

End StamperFacts.
